(** * magno_tracker: the state estimator and the saccade segmentation of
      tracking.py, embedded and checked against the design document.

    Conventions of the embedding.
    - A Python float is an exact rational ([Q]); rounding and overflow are
      not modelled.  Where the code creates or tests the special values
      (NaN in the estimator, infinity in the filter bounds) the type [fl]
      adds them.
    - A frame index is an integer ([Z]); slices and indices follow Python
      (a negative index counts from the end, a slice is clamped).
    - A call that can raise returns [result]; a method that mutates its
      object is a function from the object to the mutated object and a
      [result], so that the mutations done before a raise are kept.
    - The numerical kernels of scipy that the code calls (cubic
      interpolation, Butterworth design and filtering, peak finding) and
      the floating-point square root are parameters of the sections that
      use them. *)

From Stdlib Require Import ZArith QArith Qround Qabs List Bool Lia Lqa Sorted.
From Stdlib Require String.
Import ListNotations.
Open Scope Z_scope.

(** ** Python: exceptions, indexing, slicing, rounding *)

Inductive exn : Type :=
| AssertionError
| AttributeError
| IndexError
| ValueError
| LinAlgError
| UnboundLocalError
| ZeroDivisionError.

Inductive result (A : Type) : Type :=
| Ok (a : A)
| Raise (e : exn).

Arguments Ok {A} a.
Arguments Raise {A} e.

Definition bind {A B : Type} (r : result A) (k : A -> result B) : result B :=
  match r with
  | Ok a => k a
  | Raise e => Raise e
  end.

Notation "'do' x <- c ; k" := (bind c (fun x => k))
  (at level 10, x name, c at level 100, k at level 200).

Module Py.

(** [i] normalised as a slice bound of a sequence of length [n]. *)
Definition slice_bound (n i : Z) : Z :=
  let i := if i <? 0 then i + n else i in
  Z.max 0 (Z.min n i).

(** [l[a:b]] *)
Definition slice {A : Type} (l : list A) (a b : Z) : list A :=
  let n := Z.of_nat (length l) in
  let a' := slice_bound n a in
  let b' := slice_bound n b in
  firstn (Z.to_nat (b' - a')) (skipn (Z.to_nat a') l).

(** [l[i]]: IndexError outside [-len, len). *)
Definition index {A : Type} (l : list A) (i : Z) : result A :=
  let n := Z.of_nat (length l) in
  let i' := if i <? 0 then i + n else i in
  if (0 <=? i') && (i' <? n) then
    match nth_error l (Z.to_nat i') with
    | Some x => Ok x
    | None => Raise IndexError
    end
  else Raise IndexError.

(** [int(round(x))]: to the nearest integer, ties to the even one. *)
Definition round (x : Q) : Z :=
  let f := Qfloor x in
  match Qcompare (x - inject_Z f) (1 # 2) with
  | Lt => f
  | Gt => f + 1
  | Eq => if Z.even f then f else f + 1
  end.

(** [a / b] on Python numbers: ZeroDivisionError when [b] is zero. *)
Definition truediv (a b : Q) : result Q :=
  if Qeq_bool b 0 then Raise ZeroDivisionError else Ok (a / b)%Q.

(** [x in range(a, b)] *)
Definition in_range (x a b : Z) : bool := (a <=? x) && (x <? b).

(** [range(n)] as integers. *)
Definition range (n : nat) : list Z := map Z.of_nat (seq 0 n).

(** [l[a:b] = v] on an array: the elements of the slice take the value
    [v], the length does not change. *)
Definition set_slice {A : Type} (l : list A) (a b : Z) (v : A) : list A :=
  let n := Z.of_nat (length l) in
  let a' := slice_bound n a in
  let b' := slice_bound n b in
  map (fun ix => if in_range (fst ix) a' b' then v else snd ix)
      (combine (range (length l)) l).

End Py.

(** ** numpy on one-dimensional arrays of finite numbers *)

Module Np.

Local Open Scope Q_scope.

Definition Qltb (x y : Q) : bool := negb (Qle_bool y x).

(** [np.pi], the double nearest to pi. *)
Definition pi : Q := 884279719003555 # 281474976710656.

(** [np.mod(x, m)] for a positive [m]. *)
Definition mod_ (x m : Q) : Q := x - m * inject_Z (Qfloor (x / m)).

(** The phase correction [np.unwrap] adds for one step [dd] of the input. *)
Definition ph_correct (dd : Q) : Q :=
  let ddmod := mod_ (dd + pi) (2 * pi) - pi in
  let ddmod := if Qeq_bool ddmod (- pi) && Qltb 0 dd then pi else ddmod in
  if Qltb (Qabs dd) pi then 0 else ddmod - dd.

Fixpoint unwrap_from (prev csum : Q) (p : list Q) : list Q :=
  match p with
  | [] => []
  | x :: p' =>
      let csum' := csum + ph_correct (x - prev) in
      (x + csum') :: unwrap_from x csum' p'
  end.

(** [np.unwrap(p)] *)
Definition unwrap (p : list Q) : list Q :=
  match p with
  | [] => []
  | x :: p' => x :: unwrap_from x 0 p'
  end.

Fixpoint gradient_from (prev cur : Q) (rest : list Q) : list Q :=
  match rest with
  | [] => [cur - prev]
  | next :: rest' => ((next - prev) / 2) :: gradient_from cur next rest'
  end.

(** [np.gradient(f)]: central differences inside, one-sided at both ends;
    ValueError on fewer than two samples. *)
Definition gradient (f : list Q) : result (list Q) :=
  match f with
  | f0 :: f1 :: rest => Ok ((f1 - f0) :: gradient_from f0 f1 rest)
  | _ => Raise ValueError
  end.

Fixpoint argmax_from (best_i : nat) (best : Q) (i : nat) (l : list Q) : nat :=
  match l with
  | [] => best_i
  | x :: l' =>
      if Qltb best x then argmax_from i x (S i) l'
      else argmax_from best_i best (S i) l'
  end.

(** [np.argmax(l)]: the first index of the maximum; ValueError on an empty
    array. *)
Definition argmax (l : list Q) : result nat :=
  match l with
  | [] => Raise ValueError
  | x :: l' => Ok (argmax_from 0%nat x 1%nat l')
  end.

(** [np.linspace(a, b, num)] for [num >= 2]. *)
Definition linspace (a b : Q) (num : nat) : list Q :=
  map (fun i => a + inject_Z i * ((b - a) / inject_Z (Z.of_nat num - 1)%Z))
      (Py.range num).

Definition sum (l : list Q) : Q := fold_left Qplus l 0.

(** [np.nanmean] on an array that holds no NaN. *)
Definition nanmean (l : list Q) : Q := sum l / inject_Z (Z.of_nat (length l)).

(** [np.where(mask)[0]] for [mask = map p l]. *)
Definition where_ (p : Q -> bool) (l : list Q) : list Z :=
  map fst (filter (fun ix => p (snd ix)) (combine (Py.range (length l)) l)).

(** [a.max()] of an array of numbers. *)
Definition amax (l : list Q) : result Q :=
  match l with
  | [] => Raise ValueError
  | x :: l' => Ok (fold_left (fun m y => if Qltb m y then y else m) l' x)
  end.

(** [a.min()] of an integer array. *)
Definition min (l : list Z) : result Z :=
  match l with
  | [] => Raise ValueError
  | x :: l' => Ok (fold_left Z.min l' x)
  end.

(** [a.min()] of an array of numbers. *)
Definition amin (l : list Q) : result Q :=
  match l with
  | [] => Raise ValueError
  | x :: l' => Ok (fold_left (fun m y => if Qltb y m then y else m) l' x)
  end.

Fixpoint diff_from (prev : Q) (l : list Q) : list Q :=
  match l with
  | [] => []
  | x :: l' => (x - prev) :: diff_from x l'
  end.

(** [np.diff(a)]: the first differences, one fewer than the samples. *)
Definition diff (a : list Q) : list Q :=
  match a with
  | [] => []
  | x :: a' => diff_from x a'
  end.

Fixpoint cumsum_from (acc : Q) (l : list Q) : list Q :=
  match l with
  | [] => []
  | x :: l' => (acc + x) :: cumsum_from (acc + x) l'
  end.

(** [np.cumsum(a)] *)
Definition cumsum (a : list Q) : list Q :=
  match a with
  | [] => []
  | x :: a' => x :: cumsum_from x a'
  end.

End Np.

(** ** Saccade: the value object built for one candidate window *)

Module Saccade.

Local Open Scope Q_scope.

(** The attributes [Saccade.__init__] assigns.  [success] is [None] while
    the attribute has not been assigned.  The back reference [bout] and
    the drawing done under [display] are left out. *)
Record t : Type := {
  original_arr : list Q;
  start : Z;
  stop : Z;
  arr : list Q;
  framerate : Q;
  time : list Q;
  start_time : Q;
  stop_time : Q;
  start_angle : Q;
  stop_angle : Q;
  arr_relative : list Q;
  amplitude : Q;
  duration : Q;
  velocity : list Q;
  acceleration : list Q;
  peak_velocity : Q;
  peak_time : Q;
  relative_time : list Q;
  success : option bool
}.

(** Reading [saccade.success]: AttributeError when it was never assigned. *)
Definition get_success (s : t) : result bool :=
  match success s with
  | Some b => Ok b
  | None => Raise AttributeError
  end.

(** [saccade.success = b], as [Bout.process_saccades] does. *)
Definition set_success (b : bool) (s : t) : t :=
  {| original_arr := original_arr s; start := start s; stop := stop s;
     arr := arr s; framerate := framerate s; time := time s;
     start_time := start_time s; stop_time := stop_time s;
     start_angle := start_angle s; stop_angle := stop_angle s;
     arr_relative := arr_relative s; amplitude := amplitude s;
     duration := duration s; velocity := velocity s;
     acceleration := acceleration s; peak_velocity := peak_velocity s;
     peak_time := peak_time s; relative_time := relative_time s;
     success := Some b |}.

(** The attributes the baseline steps may reassign. *)
Record window : Type := {
  w_start : Z;
  w_stop : Z;
  w_start_angle : Q;
  w_stop_angle : Q;
  w_duration : Q;
  w_amplitude : Q;
  w_success : bool
}.

(** The noise band of the velocities before onset:
    [(velo_floor, velo_ceiling) = (mean - 2 std, mean + 2 std)]. *)
Definition velo_floor (velo_mean velo_std : Q) : Q := velo_mean - 2 * velo_std.
Definition velo_ceiling (velo_mean velo_std : Q) : Q := velo_mean + 2 * velo_std.

(** The [baseline_test] block: the two branches that clear [success]. *)
Definition baseline_test_fails (peak floor ceiling : Q) : bool :=
  if Np.Qltb peak 0 && Np.Qltb floor peak then true
  else if Np.Qltb 0 peak && Np.Qltb peak ceiling then true
  else false.

(** [self.time]: the frame times relative to the start frame. *)
Definition time_axis (n : nat) (start : Z) (framerate : Q) : list Q :=
  map (fun i => (inject_Z i - inject_Z start) / framerate) (Py.range n).

(** [np.gradient(x) * framerate], as for [self.velocity] and
    [self.acceleration]. *)
Definition rate_of_change (x : list Q) (framerate : Q) : result (list Q) :=
  do g <- Np.gradient x;
  Ok (map (fun v => v * framerate) g).

(** [velos_included = self.velocity[start_frame:self.start]], the
    velocities of the frames before onset. *)
Definition baseline_window (velocity : list Q) (start : Z) : list Q :=
  Py.slice velocity (Z.max (start - 10) 0) start.

Section Init.

(** [np.sqrt] on a non-negative float. *)
Variable np_sqrt : Q -> Q.

(** [scipy.interpolate.interp1d(x, y, kind='cubic')]: it may raise, and so
    may the interpolant it returns when it is applied to new times. *)
Variable interp1d_cubic : list Q -> list Q -> result (list Q -> result (list Q)).

(** [np.nanstd] on an array that holds no NaN. *)
Definition nanstd (l : list Q) : Q :=
  let m := Np.nanmean l in
  np_sqrt (Np.nanmean (map (fun x => (x - m) * (x - m)) l)).

(** Lines 4608-4616: the peak of the cubic interpolation of the velocity
    around the window, as [(peak_velocity, peak_time)]. *)
Definition interpolated_peak (time velocity : list Q) (start stop : Z) (duration : Q)
    : result (Q * Q) :=
  let start_frame := Z.max (start - 10) 0 in
  let stop_frame := Z.min (stop + 11) (Z.of_nat (length time)) in
  do interp_func <- interp1d_cubic (Py.slice time start_frame stop_frame)
                                   (Py.slice velocity start_frame stop_frame);
  let new_times := Np.linspace 0 duration 1000 in
  do new_velocity <- interp_func new_times;
  do peak_ind <- Np.argmax (map Qabs new_velocity);
  do peak_velocity <- Py.index new_velocity (Z.of_nat peak_ind);
  do peak_time <- Py.index new_times (Z.of_nat peak_ind);
  Ok (peak_velocity, peak_time).

(** The [baseline_comparison] block (the call of [breakpoint()] that opens
    it only stops in a debugger). *)
Definition baseline_compare (original_arr velocity : list Q) (framerate peak floor ceiling : Q)
    (w : window) : result window :=
  let offset := (-5)%Z in
  let xmin := Z.max 0 (w_start w + offset) in
  let xmax := Z.min (Z.of_nat (length velocity)) (w_stop w + 10) in
  let seg := Py.slice velocity xmin xmax in
  let '(saccading, not_saccading) :=
    if Np.Qltb 0 peak
    then (Np.where_ (fun v => Np.Qltb ceiling v) seg, Np.where_ (fun v => Qle_bool v ceiling) seg)
    else (Np.where_ (fun v => Np.Qltb v floor) seg, Np.where_ (fun v => Qle_bool floor v) seg) in
  let not_saccading := map (fun i => (i + (w_start w + offset))%Z) not_saccading in
  let saccading := map (fun i => (i + (w_start w + offset))%Z) saccading in
  do w1 <-
    match saccading with
    | [] => Ok w
    | _ :: _ =>
        do s <- Np.min saccading;
        do a <- Py.index original_arr s;
        Ok {| w_start := s; w_stop := w_stop w; w_start_angle := a;
              w_stop_angle := w_stop_angle w; w_duration := w_duration w;
              w_amplitude := w_amplitude w; w_success := w_success w |}
    end;
  let later := filter (fun i => (w_start w1 <? i)%Z) not_saccading in
  do w2 <-
    match saccading, later with
    | _ :: _, _ :: _ =>
        do e <- Np.min later;
        do a <- Py.index original_arr e;
        Ok {| w_start := w_start w1; w_stop := e; w_start_angle := w_start_angle w1;
              w_stop_angle := a; w_duration := w_duration w1;
              w_amplitude := w_amplitude w1; w_success := w_success w1 |}
    | _, _ => Ok w1
    end;
  let dur := inject_Z (w_stop w2 - w_start w2) / framerate in
  let ok := if (w_stop w2 - w_start w2 <? 2)%Z || Np.Qltb (3 # 2) dur then false else w_success w2 in
  Ok {| w_start := w_start w2; w_stop := w_stop w2; w_start_angle := w_start_angle w2;
        w_stop_angle := w_stop_angle w2; w_duration := dur;
        w_amplitude := w_stop_angle w2 - w_start_angle w2; w_success := ok |}.

(** [Saccade.__init__(arr, bout, framerate, start, stop, interpolate_velocity,
    baseline_comparison, display, baseline_test)].  [framerate] is a
    Python number: the in-place division of the NumPy time axis (line
    4589) does not raise, the division of the frame numbers that follows
    it (line 4591) raises ZeroDivisionError on a zero framerate, before
    anything reads [time].  (The framerate that [Bout.process_saccades]
    passes is the NumPy float [1 / (time[1] - time[0])], which is zero
    for no finite time step.) *)
Definition init (arr0 : list Q) (framerate : Q) (start0 stop0 : Q)
    (interpolate_velocity baseline_comparison baseline_test : bool) : result t :=
  let original_arr := Np.unwrap arr0 in
  let start := Py.round start0 in
  let stop := Py.round stop0 in
  let arr := Py.slice original_arr start (stop + 1) in
  let time := time_axis (length original_arr) start framerate in
  do start_time <- Py.truediv (inject_Z start) framerate;
  do stop_time <- Py.truediv (inject_Z stop) framerate;
  do start_angle <- Py.index arr 0;
  do stop_angle <- Py.index arr (-1);
  let arr_relative := map (fun x => x - start_angle) original_arr in
  let amplitude := stop_angle - start_angle in
  do duration <- Py.truediv (inject_Z (stop - start)) framerate;
  do velocity <- rate_of_change original_arr framerate;
  do acceleration <- rate_of_change velocity framerate;
  if interpolate_velocity then
    do peak <- interpolated_peak time velocity start stop duration;
    let '(peak_velocity, peak_time) := peak in
    let relative_time := map (fun x => x - peak_time) time in
    let velos_included := baseline_window velocity start in
    if (0 <? length velos_included)%nat then
      let velo_mean := Np.nanmean velos_included in
      let velo_std := nanstd velos_included in
      let floor := velo_floor velo_mean velo_std in
      let ceiling := velo_ceiling velo_mean velo_std in
      let w0 := {| w_start := start; w_stop := stop; w_start_angle := start_angle;
                   w_stop_angle := stop_angle; w_duration := duration;
                   w_amplitude := amplitude; w_success := true |} in
      do w1 <- (if baseline_comparison
                then baseline_compare original_arr velocity framerate peak_velocity floor ceiling w0
                else Ok w0);
      let ok := if baseline_test && baseline_test_fails peak_velocity floor ceiling
                then false else w_success w1 in
      Ok {| original_arr := original_arr; start := w_start w1; stop := w_stop w1;
            arr := arr; framerate := framerate; time := time;
            start_time := start_time; stop_time := stop_time;
            start_angle := w_start_angle w1; stop_angle := w_stop_angle w1;
            arr_relative := arr_relative; amplitude := w_amplitude w1;
            duration := w_duration w1; velocity := velocity;
            acceleration := acceleration; peak_velocity := peak_velocity;
            peak_time := peak_time; relative_time := relative_time;
            success := Some ok |}
    else
      Ok {| original_arr := original_arr; start := start; stop := stop;
            arr := arr; framerate := framerate; time := time;
            start_time := start_time; stop_time := stop_time;
            start_angle := start_angle; stop_angle := stop_angle;
            arr_relative := arr_relative; amplitude := amplitude;
            duration := duration; velocity := velocity;
            acceleration := acceleration; peak_velocity := peak_velocity;
            peak_time := peak_time; relative_time := relative_time;
            success := Some false |}
  else
    let seg := Py.slice velocity start stop in
    do peak_ind <- Np.argmax (map Qabs seg);
    do peak_velocity <- Py.index seg (Z.of_nat peak_ind);
    do peak_time <- Py.index (Py.slice time start stop) (Z.of_nat peak_ind);
    let relative_time := map (fun x => x - peak_time) time in
    Ok {| original_arr := original_arr; start := start; stop := stop;
          arr := arr; framerate := framerate; time := time;
          start_time := start_time; stop_time := stop_time;
          start_angle := start_angle; stop_angle := stop_angle;
          arr_relative := arr_relative; amplitude := amplitude;
          duration := duration; velocity := velocity;
          acceleration := acceleration; peak_velocity := peak_velocity;
          peak_time := peak_time; relative_time := relative_time;
          success := None |}.

End Init.

End Saccade.

(** ** Bout: overlap resolution of the validated candidates *)

Module Bout.

(** Saccade defines no [__eq__]: [in] and [list.remove] compare objects.
    A value of [Saccade.t] stands for one object; two candidates with the
    same attributes are two equal values, and one occurrence is removed per
    call, as in the code. *)
Definition same_object (a b : Saccade.t) : {a = b} + {a <> b}.
Proof. repeat decide equality. Defined.

(** [x in l] *)
Definition contains (x : Saccade.t) (l : list Saccade.t) : bool :=
  existsb (fun y => if same_object x y then true else false) l.

(** [l.remove(x)], called only when [x in l]. *)
Fixpoint remove (x : Saccade.t) (l : list Saccade.t) : list Saccade.t :=
  match l with
  | [] => []
  | y :: l' => if same_object x y then l' else y :: remove x l'
  end.

(** The test of lines 4252-4257 that puts [other_saccade] into the cluster
    of [saccade]. *)
Definition overlaps (saccade other_saccade : Saccade.t) : bool :=
  let is_contained :=
    Py.in_range (Saccade.start saccade)
                (Saccade.start other_saccade) (Saccade.stop other_saccade + 1)
    || Py.in_range (Saccade.stop saccade)
                   (Saccade.start other_saccade) (Saccade.stop other_saccade + 1) in
  let contains_other :=
    Py.in_range (Saccade.start other_saccade)
                (Saccade.start saccade) (Saccade.stop saccade + 1)
    || Py.in_range (Saccade.stop other_saccade)
                   (Saccade.start saccade) (Saccade.stop saccade + 1) in
  let same_span :=
    (Saccade.start saccade =? Saccade.start other_saccade)
    || (Saccade.stop saccade =? Saccade.stop other_saccade) in
  is_contained || contains_other || same_span.

(** [overlapping_saccades] of one pass: the head and the others it
    overlaps, in list order. *)
Definition cluster (saccade : Saccade.t) (others : list Saccade.t) : list Saccade.t :=
  saccade :: filter (overlaps saccade) others.

(** [for o_saccade in overlapping_saccades: if o_saccade in self.saccades:
    self.saccades.remove(o_saccade)] *)
Definition remove_all (overlapping_saccades saccades : list Saccade.t) : list Saccade.t :=
  fold_left (fun acc o => if contains o acc then remove o acc else acc)
            overlapping_saccades saccades.

(** The member a cluster is replaced with: [overlapping_saccades[np.argmax(durs)]],
    the first one of the longest duration ([saccade] itself when it is alone). *)
Definition keep (saccade : Saccade.t) (others : list Saccade.t) : Saccade.t :=
  let overlapping_saccades := cluster saccade others in
  if (1 <? length overlapping_saccades)%nat then
    let ind_keep :=
      Np.argmax_from 0 (Saccade.duration saccade) 1
                     (map Saccade.duration (filter (overlaps saccade) others)) in
    nth ind_keep overlapping_saccades saccade
  else saccade.

(** One pass of the [while] loop on a non-empty working list. *)
Definition resolve_step (saccade : Saccade.t) (saccades new_saccades : list Saccade.t)
    : list Saccade.t * list Saccade.t :=
  let saccades := remove saccade saccades in
  let kept := keep saccade saccades in
  let saccades := remove_all (cluster saccade saccades) saccades in
  (saccades, new_saccades ++ [kept]).

(** [while len(self.saccades) > 0: ...]; [None] when the passes allowed
    by [fuel] do not empty the working list. *)
Fixpoint resolve_loop (fuel : nat) (saccades new_saccades : list Saccade.t)
    : option (list Saccade.t) :=
  match fuel with
  | O => match saccades with [] => Some new_saccades | _ :: _ => None end
  | S fuel' =>
      match saccades with
      | [] => Some new_saccades
      | saccade :: _ =>
          let '(saccades', new_saccades') := resolve_step saccade saccades new_saccades in
          resolve_loop fuel' saccades' new_saccades'
      end
  end.

(** Lines 4243-4269: the list [self.saccades] is replaced with. *)
Definition resolve_overlaps (saccades : list Saccade.t) : option (list Saccade.t) :=
  resolve_loop (length saccades) saccades [].

Section Detection.

Variable np_sqrt : Q -> Q.
Variable interp1d_cubic : list Q -> list Q -> result (list Q -> result (list Q)).

(** Lines 4146-4176: the series is smoothed by the low-pass filter run
    forward and backward, differentiated, and [scipy.signal.find_peaks]
    is run on the absolute velocity; the result is the pairs
    [(left_ips, right_ips)] of the peaks it finds, in peak order. *)
Variable peak_bounds : list Q -> Q -> Q * Q -> result (list (Q * Q)).

(** The loop of lines 4230-4237 over the candidate windows. *)
Fixpoint collect (arr : list Q) (framerate threshold_speed : Q)
    (interpolate_velocity baseline_comparison baseline_test : bool)
    (bounds : list (Q * Q)) (saccades : list Saccade.t) : result (list Saccade.t) :=
  match bounds with
  | [] => Ok saccades
  | (start, stop) :: bounds' =>
      do saccade <- Saccade.init np_sqrt interp1d_cubic arr framerate start stop
                      interpolate_velocity baseline_comparison baseline_test;
      do velos <- Np.gradient (Saccade.arr saccade);
      do peak_velo <- Np.amax (map (fun v => Qabs (v * framerate)) velos);
      let saccade :=
        if Np.Qltb peak_velo (threshold_speed * Np.pi / 180)
        then Saccade.set_success false saccade else saccade in
      do success <- Saccade.get_success saccade;
      collect arr framerate threshold_speed
              interpolate_velocity baseline_comparison baseline_test bounds'
              (if success then saccades ++ [saccade] else saccades)
  end.

(** [process_saccades] with [speed_noise_method=True], the default:
    candidates, validation, overlap resolution.  [None] when the loop of
    overlap resolution does not end within its passes. *)
Definition process_saccades (arr : list Q) (framerate threshold_speed : Q)
    (prominance : Q * Q)
    (interpolate_velocity baseline_comparison baseline_test : bool)
    : option (result (list Saccade.t)) :=
  match
    (do bounds <- peak_bounds (Np.unwrap arr) framerate prominance;
     collect arr framerate threshold_speed
             interpolate_velocity baseline_comparison baseline_test bounds [])
  with
  | Raise e => Some (Raise e)
  | Ok saccades => option_map Ok (resolve_overlaps saccades)
  end.

End Detection.

(** The working list left by the pass that takes [saccade] out of
    [saccade :: others]. *)
Definition others_of (saccade : Saccade.t) (others : list Saccade.t) : list Saccade.t :=
  filter (fun o => negb (overlaps saccade o)) others.

(** The cluster test as the design document words it: the frame range of
    [other_saccade] is nested inside that of [saccade], contains it, or
    shares an endpoint with it. *)
Definition spec_clusters (saccade other_saccade : Saccade.t) : bool :=
  let nested_inside :=
    (Saccade.start saccade <=? Saccade.start other_saccade)
    && (Saccade.stop other_saccade <=? Saccade.stop saccade) in
  let contains_it :=
    (Saccade.start other_saccade <=? Saccade.start saccade)
    && (Saccade.stop saccade <=? Saccade.stop other_saccade) in
  let shares_endpoint :=
    (Saccade.start saccade =? Saccade.start other_saccade)
    || (Saccade.stop saccade =? Saccade.stop other_saccade)
    || (Saccade.start saccade =? Saccade.stop other_saccade)
    || (Saccade.stop saccade =? Saccade.start other_saccade) in
  nested_inside || contains_it || shares_endpoint.

(** Every frame range runs forward. *)
Definition well_formed (l : list Saccade.t) : bool :=
  forallb (fun s => Saccade.start s <=? Saccade.stop s) l.

(** The candidates come in frame order: one that does not overlap an
    earlier candidate lies entirely after it. *)
Fixpoint in_frame_order (l : list Saccade.t) : bool :=
  match l with
  | [] => true
  | x :: l' =>
      forallb (fun y => overlaps x y || (Saccade.stop x <? Saccade.start y)) l'
      && in_frame_order l'
  end.

(** No chains: overlap is transitive among the candidates. *)
Definition overlap_transitive (l : list Saccade.t) : bool :=
  forallb (fun x => forallb (fun y => forallb (fun z =>
    implb (overlaps x y && overlaps y z) (overlaps x z)) l) l) l.

Definition transitive_on (l : list Saccade.t) : Prop :=
  forall x y z, In x l -> In y l -> In z l ->
    overlaps x y = true -> overlaps y z = true -> overlaps x z = true.

(** No two elements overlap. *)
Fixpoint non_overlapping (l : list Saccade.t) : bool :=
  match l with
  | [] => true
  | x :: l' => forallb (fun y => negb (overlaps x y)) l' && non_overlapping l'
  end.

(** A candidate as overlap resolution sees it: its frame range and its
    duration [(stop - start) / framerate]; the other attributes are not
    read there. *)
Definition candidate (framerate : Q) (start stop : Z) : Saccade.t :=
  {| Saccade.original_arr := []; Saccade.start := start; Saccade.stop := stop;
     Saccade.arr := []; Saccade.framerate := framerate; Saccade.time := [];
     Saccade.start_time := inject_Z start / framerate;
     Saccade.stop_time := inject_Z stop / framerate;
     Saccade.start_angle := 0; Saccade.stop_angle := 0;
     Saccade.arr_relative := []; Saccade.amplitude := 0;
     Saccade.duration := inject_Z (stop - start) / framerate;
     Saccade.velocity := []; Saccade.acceleration := [];
     Saccade.peak_velocity := 0; Saccade.peak_time := 0;
     Saccade.relative_time := []; Saccade.success := Some true |}.

End Bout.


(** ** Floats that may be NaN or infinite *)

Module Fl.

Local Open Scope Q_scope.

(** Finite results are kept in lowest terms ([Qred] does not change the
    number). *)

Inductive fl : Type :=
| NaN
| NegInf
| Fin (q : Q)
| PosInf.

Definition neg (x : fl) : fl :=
  match x with
  | NaN => NaN
  | NegInf => PosInf
  | Fin q => Fin (- q)
  | PosInf => NegInf
  end.

Definition add (x y : fl) : fl :=
  match x, y with
  | NaN, _ | _, NaN => NaN
  | Fin a, Fin b => Fin (Qred (a + b))
  | PosInf, NegInf | NegInf, PosInf => NaN
  | PosInf, _ | _, PosInf => PosInf
  | NegInf, _ | _, NegInf => NegInf
  end.

Definition sub (x y : fl) : fl := add x (neg y).

(** An infinity of sign [positive] times the finite [q]. *)
Definition inf_times (positive : bool) (q : Q) : fl :=
  match Qcompare q 0 with
  | Eq => NaN
  | Gt => if positive then PosInf else NegInf
  | Lt => if positive then NegInf else PosInf
  end.

Definition mul (x y : fl) : fl :=
  match x, y with
  | NaN, _ | _, NaN => NaN
  | Fin a, Fin b => Fin (Qred (a * b))
  | PosInf, Fin q | Fin q, PosInf => inf_times true q
  | NegInf, Fin q | Fin q, NegInf => inf_times false q
  | PosInf, PosInf | NegInf, NegInf => PosInf
  | PosInf, NegInf | NegInf, PosInf => NegInf
  end.

(** [x / y] as numpy divides floats: dividing by zero raises nothing, it
    gives an infinity, or NaN for 0 / 0 (the sign of a zero is not
    modelled). *)
Definition div (x y : fl) : fl :=
  match x, y with
  | NaN, _ | _, NaN => NaN
  | Fin a, Fin b => if Qeq_bool b 0 then inf_times true a else Fin (Qred (a / b))
  | Fin _, PosInf | Fin _, NegInf => Fin 0
  | PosInf, Fin b => if Np.Qltb b 0 then NegInf else PosInf
  | NegInf, Fin b => if Np.Qltb b 0 then PosInf else NegInf
  | _, _ => NaN
  end.

(** [x < y]: False as soon as one side is NaN. *)
Definition ltb (x y : fl) : bool :=
  match x, y with
  | NaN, _ | _, NaN => false
  | Fin a, Fin b => Np.Qltb a b
  | _, NegInf => false
  | NegInf, _ => true
  | PosInf, _ => false
  | Fin _, PosInf => true
  end.

(** [x <= y] *)
Definition leb (x y : fl) : bool :=
  match x, y with
  | NaN, _ | _, NaN => false
  | Fin a, Fin b => Qle_bool a b
  | NegInf, _ => true
  | _, PosInf => true
  | _, NegInf => false
  | PosInf, Fin _ => false
  end.

(** [x == y] *)
Definition eqb (x y : fl) : bool :=
  match x, y with
  | Fin a, Fin b => Qeq_bool a b
  | NegInf, NegInf | PosInf, PosInf => true
  | _, _ => false
  end.

(** [np.isinf(x)] *)
Definition isinf (x : fl) : bool :=
  match x with
  | NegInf | PosInf => true
  | _ => false
  end.

(** [x % m] for a finite positive [m]. *)
Definition mod_ (x : fl) (m : Q) : fl :=
  match x with
  | Fin q => Fin (Qred (Np.mod_ q m))
  | _ => NaN
  end.

End Fl.

(** ** Two-dimensional arrays *)

Module Mat.

Section Ops.

Context {T : Type}.
Variable zero : T.
Variables add mul : T -> T -> T.

Definition rows (m : list (list T)) : nat := length m.
Definition cols (m : list (list T)) : nat := length (hd [] m).

(** [m.T] *)
Definition transpose (m : list (list T)) : list (list T) :=
  map (fun j => map (fun row => nth j row zero) m) (seq 0 (cols m)).

Definition dot (u v : list T) : T :=
  fold_left add (map (fun p => mul (fst p) (snd p)) (combine u v)) zero.

(** [m1 @ m2]: ValueError when the inner dimensions differ. *)
Definition matmul (m1 m2 : list (list T)) : result (list (list T)) :=
  if (cols m1 =? rows m2)%nat
  then Ok (map (fun row => map (dot row) (transpose m2)) m1)
  else Raise ValueError.

(** The common length of two broadcast dimensions. *)
Definition bdim (a b : nat) : option nat :=
  if (a =? b)%nat then Some a
  else if (a =? 1)%nat then Some b
  else if (b =? 1)%nat then Some a
  else None.

(** A dimension of length 1 repeated [n] times, another one as it is. *)
Definition stretch {X : Type} (n : nat) (l : list X) : list X :=
  match l with
  | [x] => repeat x n
  | _ => l
  end.

Definition zip_rows (f : T -> T -> T) (c : nat) (r1 r2 : list T) : list T :=
  map (fun p => f (fst p) (snd p)) (combine (stretch c r1) (stretch c r2)).

(** [m1 (f) m2] element by element with numpy's broadcasting; ValueError
    when the shapes cannot be broadcast together. *)
Definition broadcast (f : T -> T -> T) (m1 m2 : list (list T)) : result (list (list T)) :=
  match bdim (rows m1) (rows m2), bdim (cols m1) (cols m2) with
  | Some r, Some c =>
      Ok (map (fun p => zip_rows f c (fst p) (snd p))
              (combine (stretch r m1) (stretch r m2)))
  | _, _ => Raise ValueError
  end.

End Ops.

(** [m.shape == (r, c)] *)
Definition has_shape {T : Type} (r c : nat) (m : list (list T)) : bool :=
  ((length m =? r) && forallb (fun row => length row =? c) m)%nat.

(** [np.eye(n)] *)
Definition eye (n : nat) : list (list Q) :=
  map (fun i => map (fun j => if (i =? j)%nat then 1%Q else 0%Q) (seq 0 n)) (seq 0 n).

(** [np.linalg.inv] of a 2 x 2 array of finite numbers: LinAlgError when it
    is singular.  The filter inverts nothing but the innovation covariance,
    which has the two rows of the measurement function; an array of another
    shape is refused here. *)
Definition inv (m : list (list Q)) : result (list (list Q)) :=
  match m with
  | [[a; b]; [c; d]] =>
      let det := (a * d - b * c)%Q in
      if Qeq_bool det 0 then Raise LinAlgError
      else Ok [[Qred (d / det); Qred (- b / det)]; [Qred (- c / det); Qred (a / det)]]
  | _ => Raise LinAlgError
  end.

(** Sums, differences and products of finite numbers, in lowest terms. *)
Definition qadd (a b : Q) : Q := Qred (a + b).
Definition qsub (a b : Q) : Q := Qred (a - b).
Definition qmul (a b : Q) : Q := Qred (a * b).

Definition qmatmul := matmul 0%Q qadd qmul.
Definition qtranspose := transpose 0%Q.
Definition fmatmul := matmul (Fl.Fin 0) Fl.add Fl.mul.
Definition ftranspose := transpose (Fl.Fin 0).

(** An array of finite numbers among arrays that may hold NaN. *)
Definition embed (m : list (list Q)) : list (list Fl.fl) := map (map Fl.Fin) m.

End Mat.

(** ** Kalman_Filter: the constant-acceleration estimator *)

Module Kalman_Filter.

Import Fl.
Local Open Scope Q_scope.

(** [Q_loc_estimateX] and [Q_loc_estimateY]: an array allocated for
    [num_frames] rows, or a list that grows by [append]. *)
Inductive track_log : Type :=
| Allocated (a : list (list fl))
| Appended (l : list (list fl)).

(** The attributes the methods below read or assign.  [K], [estimate_points]
    and [Q_loc_meas] are [None] until a method assigns them. *)
Record t : Type := {
  num_objects : nat;
  num_frames : option nat;
  jerk : Q;
  Ez : list (list Q);
  Ex : list (list Q);
  P : list (list Q);
  A : list (list Q);
  B : list Q;
  C : list (list Q);
  K : option (list (list Q));
  Q_estimate : list (list fl);
  estimate_points : option (list (list fl));
  Q_loc_meas : option (list (list fl));
  Q_loc_estimateX : track_log;
  Q_loc_estimateY : track_log;
  num_tracks : nat;
  frame_num : nat
}.

Definition set_Q_estimate (v : list (list fl)) (self : t) : t :=
  {| num_objects := num_objects self; num_frames := num_frames self;
     jerk := jerk self; Ez := Ez self; Ex := Ex self; P := P self; A := A self;
     B := B self; C := C self; K := K self; Q_estimate := v;
     estimate_points := estimate_points self; Q_loc_meas := Q_loc_meas self;
     Q_loc_estimateX := Q_loc_estimateX self;
     Q_loc_estimateY := Q_loc_estimateY self; num_tracks := num_tracks self;
     frame_num := frame_num self |}.

Definition set_P (v : list (list Q)) (self : t) : t :=
  {| num_objects := num_objects self; num_frames := num_frames self;
     jerk := jerk self; Ez := Ez self; Ex := Ex self; P := v; A := A self;
     B := B self; C := C self; K := K self; Q_estimate := Q_estimate self;
     estimate_points := estimate_points self; Q_loc_meas := Q_loc_meas self;
     Q_loc_estimateX := Q_loc_estimateX self;
     Q_loc_estimateY := Q_loc_estimateY self; num_tracks := num_tracks self;
     frame_num := frame_num self |}.

Definition set_K (v : option (list (list Q))) (self : t) : t :=
  {| num_objects := num_objects self; num_frames := num_frames self;
     jerk := jerk self; Ez := Ez self; Ex := Ex self; P := P self; A := A self;
     B := B self; C := C self; K := v; Q_estimate := Q_estimate self;
     estimate_points := estimate_points self; Q_loc_meas := Q_loc_meas self;
     Q_loc_estimateX := Q_loc_estimateX self;
     Q_loc_estimateY := Q_loc_estimateY self; num_tracks := num_tracks self;
     frame_num := frame_num self |}.

Definition set_estimate_points (v : option (list (list fl))) (self : t) : t :=
  {| num_objects := num_objects self; num_frames := num_frames self;
     jerk := jerk self; Ez := Ez self; Ex := Ex self; P := P self; A := A self;
     B := B self; C := C self; K := K self; Q_estimate := Q_estimate self;
     estimate_points := v; Q_loc_meas := Q_loc_meas self;
     Q_loc_estimateX := Q_loc_estimateX self;
     Q_loc_estimateY := Q_loc_estimateY self; num_tracks := num_tracks self;
     frame_num := frame_num self |}.

Definition set_Q_loc_meas (v : option (list (list fl))) (self : t) : t :=
  {| num_objects := num_objects self; num_frames := num_frames self;
     jerk := jerk self; Ez := Ez self; Ex := Ex self; P := P self; A := A self;
     B := B self; C := C self; K := K self; Q_estimate := Q_estimate self;
     estimate_points := estimate_points self; Q_loc_meas := v;
     Q_loc_estimateX := Q_loc_estimateX self;
     Q_loc_estimateY := Q_loc_estimateY self; num_tracks := num_tracks self;
     frame_num := frame_num self |}.

Definition set_Q_loc_estimateX (v : track_log) (self : t) : t :=
  {| num_objects := num_objects self; num_frames := num_frames self;
     jerk := jerk self; Ez := Ez self; Ex := Ex self; P := P self; A := A self;
     B := B self; C := C self; K := K self; Q_estimate := Q_estimate self;
     estimate_points := estimate_points self; Q_loc_meas := Q_loc_meas self;
     Q_loc_estimateX := v; Q_loc_estimateY := Q_loc_estimateY self;
     num_tracks := num_tracks self; frame_num := frame_num self |}.

Definition set_Q_loc_estimateY (v : track_log) (self : t) : t :=
  {| num_objects := num_objects self; num_frames := num_frames self;
     jerk := jerk self; Ez := Ez self; Ex := Ex self; P := P self; A := A self;
     B := B self; C := C self; K := K self; Q_estimate := Q_estimate self;
     estimate_points := estimate_points self; Q_loc_meas := Q_loc_meas self;
     Q_loc_estimateX := Q_loc_estimateX self; Q_loc_estimateY := v;
     num_tracks := num_tracks self; frame_num := frame_num self |}.

Definition set_frame_num (v : nat) (self : t) : t :=
  {| num_objects := num_objects self; num_frames := num_frames self;
     jerk := jerk self; Ez := Ez self; Ex := Ex self; P := P self; A := A self;
     B := B self; C := C self; K := K self; Q_estimate := Q_estimate self;
     estimate_points := estimate_points self; Q_loc_meas := Q_loc_meas self;
     Q_loc_estimateX := Q_loc_estimateX self;
     Q_loc_estimateY := Q_loc_estimateY self; num_tracks := num_tracks self;
     frame_num := v |}.

(** What [get_prediction] returns: an array of one or of two dimensions. *)
Inductive ndarray : Type :=
| Arr1 (v : list fl)
| Arr2 (m : list (list fl)).

(** [Kalman_Filter.__init__] ([width] and [height] are only stored). *)
Definition init (num_objects : nat) (num_frames : option nat)
    (sampling_interval jerk jerk_std measurement_noise_x measurement_noise_y : Q) : t :=
  let dt := sampling_interval in
  let tkn_x := measurement_noise_x in
  let tkn_y := measurement_noise_y in
  let Ez := [[tkn_x; 0]; [0; tkn_y]] in
  let Ex :=
    map (map (fun x => Qred (x * jerk_std ^ 2)))
      [[dt^6/36; 0;       dt^5/12; 0;       dt^4/6; 0     ];
       [0;       dt^6/36; 0;       dt^5/12; 0;      dt^4/6];
       [dt^5/12; 0;       dt^4/4;  0;       dt^3/2; 0     ];
       [0;       dt^5/12; 0;       dt^4/4;  0;      dt^3/2];
       [dt^4/6;  0;       dt^3/2;  0;       dt^2;   0     ];
       [0;       dt^4/6;  0;       dt^3/2;  0;      dt^2  ]] in
  let state_update_matrix :=
      [[1; 0; dt; 0;  dt^2/2; 0     ];
       [0; 1; 0;  dt; 0;      dt^2/2];
       [0; 0; 1;  0;  dt;     0     ];
       [0; 0; 0;  1;  0;      dt    ];
       [0; 0; 0;  0;  1;      0     ];
       [0; 0; 0;  0;  0;      1     ]] in
  let control_matrix := [dt^3/6; dt^3/6; dt^2/2; dt^2/2; dt; dt] in
  let measurement_function :=
      [[1; 0; 0; 0; 0; 0];
       [0; 1; 0; 0; 0; 0]] in
  let max_tracks := num_objects in
  let dimension := Mat.rows state_update_matrix in
  let empty_log :=
    match num_frames with
    | Some n => Allocated (repeat (repeat NaN max_tracks) n)
    | None => Appended []
    end in
  {| num_objects := num_objects; num_frames := num_frames; jerk := jerk;
     Ez := Ez; Ex := Ex; P := Ex;
     A := state_update_matrix; B := control_matrix; C := measurement_function;
     K := None;
     Q_estimate := repeat (repeat NaN max_tracks) dimension;
     estimate_points := None; Q_loc_meas := None;
     Q_loc_estimateX := empty_log; Q_loc_estimateY := empty_log;
     num_tracks := num_objects; frame_num := 0 |}.

(** [self.A @ self.Q_estimate + (self.B * self.jerk)[:, None]] *)
Definition predicted_state (self : t) : result (list (list fl)) :=
  do x <- Mat.fmatmul (Mat.embed (A self)) (Q_estimate self);
  Mat.broadcast Fl.add x (Mat.embed (map (fun b => [b * jerk self]) (B self))).

(** [self.A @ self.P @ self.A.T + self.Ex] *)
Definition predicted_covariance (self : t) : result (list (list Q)) :=
  do ap <- Mat.qmatmul (A self) (P self);
  do apa <- Mat.qmatmul ap (Mat.qtranspose (A self));
  Mat.broadcast Mat.qadd apa (Ex self).

(** [self.C @ self.P @ self.C.T + self.Ez], the innovation covariance. *)
Definition innovation_covariance (self : t) : result (list (list Q)) :=
  do cp <- Mat.qmatmul (C self) (P self);
  do cpc <- Mat.qmatmul cp (Mat.qtranspose (C self));
  Mat.broadcast Mat.qadd cpc (Ez self).

(** [self.P @ self.C.T @ np.linalg.inv(self.C @ self.P @ self.C.T + self.Ez)] *)
Definition kalman_gain (self : t) : result (list (list Q)) :=
  do pc <- Mat.qmatmul (P self) (Mat.qtranspose (C self));
  do s <- innovation_covariance self;
  do s_inv <- Mat.inv s;
  Mat.qmatmul pc s_inv.

(** [np.array([np.nan, np.nan])] *)
Definition undefined : ndarray := Arr1 [NaN; NaN].

(** The two assignments of [get_prediction] that precede its [try]: the
    state, then its covariance, are advanced by one step. *)
Definition advance (self : t) : t * result unit :=
  match predicted_state self with
  | Raise e => (self, Raise e)
  | Ok q =>
      let self := set_Q_estimate q self in
      match predicted_covariance self with
      | Raise e => (self, Raise e)
      | Ok p => (set_P p self, Ok tt)
      end
  end.

(** [get_prediction]: whatever the gain computation raises is caught by
    the bare [except]. *)
Definition get_prediction (self : t) : t * result ndarray :=
  let '(self, advanced) := advance self in
  match advanced with
  | Raise e => (self, Raise e)
  | Ok _ =>
      match kalman_gain self with
      | Ok k =>
          let self := set_K (Some k) self in
          let points :=
            map (fun row => Py.slice row 0 (Z.of_nat (num_tracks self)))
                (Py.slice (Q_estimate self) 0 2) in
          let self := set_estimate_points (Some points) self in
          (self, Ok (Arr2 (Mat.ftranspose points)))
      | Raise _ => (self, Ok undefined)
      end
  end.

(** The innovation covariance of [self] is a singular 2 x 2 array. *)
Definition singular_innovation (self : t) : bool :=
  match innovation_covariance self with
  | Ok [[a; b]; [c; d]] => Qeq_bool (a * d - b * c) 0
  | _ => false
  end.

(** The shapes [__init__] gives the arrays of the filter; [Q_estimate]
    keeps its six rows, with any number of columns. *)
Definition shapes_ok (self : t) : bool :=
  Mat.has_shape 6 6 (A self) && (length (B self) =? 6)%nat
  && Mat.has_shape 2 6 (C self) && Mat.has_shape 6 6 (P self)
  && Mat.has_shape 6 6 (Ex self) && Mat.has_shape 2 2 (Ez self)
  && Mat.has_shape 6 (Mat.cols (Q_estimate self)) (Q_estimate self).

(** [log[frame_num] = row] on an allocated array (IndexError past its end,
    ValueError when the row cannot be broadcast), [log.append(row)] on a
    list. *)
Definition log_row (frame_num : nat) (row : list fl) (log : track_log) : result track_log :=
  match log with
  | Appended l => Ok (Appended (l ++ [row]))
  | Allocated a =>
      match nth_error a frame_num with
      | None => Raise IndexError
      | Some old =>
          if ((length row =? length old) || (length row =? 1))%nat
          then Ok (Allocated (firstn frame_num a
                                ++ [Mat.stretch (length old) row]
                                ++ skipn (S frame_num) a))
          else Raise ValueError
      end
  end.

(** The lines that store the position estimate of a frame and count it. *)
Definition store_estimate (self : t) : t * result unit :=
  match Py.index (Q_estimate self) 0 with
  | Raise e => (self, Raise e)
  | Ok row0 =>
      match log_row (frame_num self) row0 (Q_loc_estimateX self) with
      | Raise e => (self, Raise e)
      | Ok logx =>
          let self := set_Q_loc_estimateX logx self in
          match Py.index (Q_estimate self) 1 with
          | Raise e => (self, Raise e)
          | Ok row1 =>
              match log_row (frame_num self) row1 (Q_loc_estimateY self) with
              | Raise e => (self, Raise e)
              | Ok logy =>
                  let self := set_Q_loc_estimateY logy self in
                  (set_frame_num (S (frame_num self)) self, Ok tt)
              end
          end
      end
  end.

(** [points.shape == (self.num_objects, 2)] *)
Definition shape_ok (self : t) (points : list (list fl)) : bool :=
  ((Mat.rows points =? num_objects self) && forallb (fun row => length row =? 2) points)%nat.

(** [self.Q_estimate[:2] = points.T] after [self.Q_estimate.fill(0)] *)
Definition starting_state (self : t) (points : list (list fl)) : result (list (list fl)) :=
  let zeros := map (map (fun _ => Fin 0)) (Q_estimate self) in
  let top := Py.slice zeros 0 2 in
  let pt := Mat.ftranspose points in
  if (((Mat.rows pt =? Mat.rows top) || (Mat.rows pt =? 1))
      && ((Mat.cols pt =? Mat.cols top) || (Mat.cols pt =? 1)))%nat
  then Ok (map (fun r => Mat.stretch (Mat.cols top) r) (Mat.stretch (Mat.rows top) pt)
           ++ skipn 2 zeros)
  else Raise ValueError.

Definition add_starting_points (points : list (list fl)) (self : t) : t * result unit :=
  if shape_ok self points then
    let zeros := map (map (fun _ => Fin 0)) (Q_estimate self) in
    let self := set_Q_estimate zeros self in
    match starting_state self points with
    | Raise e => (self, Raise e)
    | Ok q => store_estimate (set_Q_estimate q self)
    end
  else (self, Raise AssertionError).

(** [self.Q_estimate + self.K @ (self.Q_loc_meas - self.C @ self.Q_estimate)] *)
Definition corrected_state (self : t) (meas : list (list fl)) : result (list (list fl)) :=
  match K self with
  | None => Raise AttributeError
  | Some k =>
      do cq <- Mat.fmatmul (Mat.embed (C self)) (Q_estimate self);
      do innovation <- Mat.broadcast Fl.sub meas cq;
      do correction <- Mat.fmatmul (Mat.embed k) innovation;
      Mat.broadcast Fl.add (Q_estimate self) correction
  end.

(** [(np.eye((self.K @ self.C).shape[0]) - self.K @ self.C) @ self.P] *)
Definition corrected_covariance (self : t) : result (list (list Q)) :=
  match K self with
  | None => Raise AttributeError
  | Some k =>
      do kc <- Mat.qmatmul k (C self);
      do kc' <- Mat.qmatmul k (C self);
      do ikc <- Mat.broadcast Mat.qsub (Mat.eye (Mat.rows kc)) kc';
      Mat.qmatmul ikc (P self)
  end.

Definition add_measurement (points : list (list fl)) (self : t) : t * result unit :=
  if shape_ok self points then
    let self := set_Q_loc_meas (Some points) self in
    match corrected_state self points with
    | Raise e => (self, Raise e)
    | Ok q =>
        let self := set_Q_estimate q self in
        match corrected_covariance self with
        | Raise e => (self, Raise e)
        | Ok p => store_estimate (set_P p self)
        end
    end
  else (self, Raise AssertionError).

End Kalman_Filter.

(** ** KalmanAngle: one angle, unwrapped before it is filtered *)

Module KalmanAngle.

Import Fl.
Local Open Scope Q_scope.

(** The objects [store] may be handed: the float object [np.nan] itself,
    another float object, or an array of no dimension such as [np.copy]
    returns. *)
Inductive pyobj : Type :=
| NpNan
| Float (v : fl)
| Array0 (v : fl).

Definition value (o : pyobj) : fl :=
  match o with
  | NpNan => NaN
  | Float v => v
  | Array0 v => v
  end.

(** [np.copy(o)]: a new array. *)
Definition np_copy (o : pyobj) : pyobj := Array0 (value o).

(** [o is np.nan]: the identity of objects, not the value. *)
Definition is_np_nan (o : pyobj) : bool :=
  match o with
  | NpNan => true
  | _ => false
  end.

Record t : Type := {
  filter : Kalman_Filter.t;
  last_point : fl;
  revolutions : Z;
  record : list fl
}.

(** [KalmanAngle.__init__]: one object, no noise on the second axis; the
    keyword arguments go to [Kalman_Filter.__init__]. *)
Definition init (num_frames : option nat)
    (sampling_interval jerk jerk_std measurement_noise_x : Q) : t :=
  {| filter := Kalman_Filter.init 1 num_frames sampling_interval jerk jerk_std
                                  measurement_noise_x 0;
     last_point := Fin 0;
     revolutions := 0;
     record := [] |}.

(** The revolution count after the seam test of [store]. *)
Definition unwrap_step (last_point point : fl) (revolutions : Z) : Z :=
  if Fl.ltb last_point (Fin (- Np.pi / 2)) && Fl.ltb (Fin (Np.pi / 2)) point
  then (revolutions - 1)%Z
  else if Fl.ltb (Fin (Np.pi / 2)) last_point && Fl.ltb point (Fin (- Np.pi / 2))
  then (revolutions + 1)%Z
  else revolutions.

(** [store(point)] *)
Definition store (point : pyobj) (self : t) : t * result unit :=
  let point := np_copy point in
  let point := if is_np_nan point then last_point self else value point in
  let revolutions := unwrap_step (last_point self) point (revolutions self) in
  let last_point := point in
  let point := Fl.add point (Fin (2 * Np.pi * inject_Z revolutions)) in
  let record := record self ++ [point] in
  let points := [[point; Fin 0]] in
  let '(filter, r) :=
    if (Kalman_Filter.frame_num (filter self) =? 0)%nat
    then Kalman_Filter.add_starting_points points (filter self)
    else Kalman_Filter.add_measurement points (filter self) in
  ({| filter := filter; last_point := last_point;
      revolutions := revolutions; record := record |}, r).

(** [get_prediction()[0, 0]] *)
Definition first_entry (a : Kalman_Filter.ndarray) : result fl :=
  match a with
  | Kalman_Filter.Arr1 _ => Raise IndexError
  | Kalman_Filter.Arr2 m => do row <- Py.index m 0; Py.index row 0
  end.

(** [predict()] *)
Definition predict (self : t) : t * result fl :=
  let '(filter, r) := Kalman_Filter.get_prediction (filter self) in
  let self := {| filter := filter; last_point := last_point self;
                 revolutions := revolutions self; record := record self |} in
  (self,
   do a <- r;
   do output <- first_entry a;
   let output := Fl.mod_ output (2 * Np.pi) in
   Ok (if Fl.ltb (Fin Np.pi) output then Fl.sub output (Fin (2 * Np.pi))
       else if Fl.ltb output (Fin (- Np.pi)) then Fl.add output (Fin (2 * Np.pi))
       else output)).

(** [KalmanFitter.generate_vals] feeds the readings one by one: [store],
    then [predict]. *)
Definition store_then_predict (point : pyobj) (self : t) : t * result fl :=
  let '(self, r) := store point self in
  match r with
  | Raise e => (self, Raise e)
  | Ok _ => predict self
  end.

End KalmanAngle.


(** ** The Butterworth smoothing *)

Module Signal.

Import Fl.
Local Open Scope Q_scope.

Inductive btype : Type :=
| bandpass
| highpass
| lowpass.

Section Filter.

(** The second-order sections [scipy.signal.butter] returns. *)
Variable sos : Type.

(** [scipy.signal.butter(N, Wn, fs=fs, btype=btype, output='sos')] *)
Variable butter : nat -> list fl -> Q -> btype -> result sos.

(** [scipy.signal.sosfilt(sos, x)] *)
Variable sosfilt : sos -> list (list Q) -> result (list (list Q)).

(** The [assert] that opens [butterworth_filter]. *)
Definition bounds_ok (low high : fl) : bool :=
  Fl.leb (Fin 0) low && Fl.ltb (Fin 0) high.

(** [butterworth_filter(vals, low, high, sample_rate)] on an array of two
    dimensions. *)
Definition butterworth_filter (vals : list (list Q)) (low high : fl) (sample_rate : Q)
    : result (list (list Q)) :=
  if bounds_ok low high then
    let vals := map Np.unwrap vals in
    do filter <-
      (if Fl.ltb (Fin 0) low && Fl.ltb high PosInf
       then butter 5 [low; high] sample_rate bandpass
       else if Fl.isinf high
       then butter 5 [low] sample_rate highpass
       else if Fl.eqb low (Fin 0)
       then butter 5 [high] sample_rate lowpass
       else Raise UnboundLocalError);
    do row <- Py.index vals 0;
    do offset <- Py.index row 0;
    do smoothed <- sosfilt filter (map (map (fun v => v - offset)) vals);
    Ok (map (map (fun v => v + offset)) smoothed)
  else Raise AssertionError.

End Filter.

End Signal.

(** ** The numerical kernels on inputs where their result is known exactly

    They stand in for numpy's square root and scipy's interpolation when a
    theorem is applied to, or the code is run on, a concrete series. *)

Module Known.

Local Open Scope Q_scope.

(** The square root of a square of a rational, exactly; of another number,
    rounded down to a multiple of the inverse of its denominator. *)
Definition sqrt (q : Q) : Q := Z.sqrt (Qnum q * Zpos (Qden q)) # Qden q.

(** The cubic interpolant through at least four samples that all have the
    same value is that constant, on the range of the sample times; this
    stand-in raises ValueError on every other input. *)
Definition interp1d_flat (x y : list Q) : result (list Q -> result (list Q)) :=
  match x, y with
  | x0 :: _, y0 :: _ =>
      if ((4 <=? length x) && (length x =? length y))%nat && forallb (Qeq_bool y0) y
      then Ok (fun x_new =>
                 if forallb (fun v => Qle_bool x0 v && Qle_bool v (last x x0)) x_new
                 then Ok (map (fun _ => y0) x_new)
                 else Raise ValueError)
      else Raise ValueError
  | _, _ => Raise ValueError
  end.

(** A heading that never changes. *)
Definition flat_series (n : nat) : list Q := repeat 0 n.

(** [scipy.signal.medfilt] with a kernel of 5 x 5 on an array of one row:
    every window holds at least 20 of the zeros the array is padded with,
    so every median is 0. *)
Definition medfilt_row (volume : list (list Q)) (kernel_size : Z)
    : result (list (list Q)) :=
  Ok (map (map (fun _ => 0)) volume).

(** A heading that turns by 1/8 rad from each frame to the next. *)
Definition ramp_series (n : nat) : list Q := map (fun i => inject_Z i / 8) (Py.range n).

End Known.

(** ** KalmanFitter: the angle estimator run over a whole series *)

Module KalmanFitter.

Import Fl.

(** [x != y] on floats: True as soon as one side is NaN. *)
Definition ne (x y : fl) : bool := negb (Fl.eqb x y).

(** The loop of [generate_vals] over the readings left, with the
    estimator and [smoothed_vals] as they stand. *)
Fixpoint feed (arr : list fl) (filter : KalmanAngle.t) (smoothed_vals : list fl)
    : KalmanAngle.t * result (list fl) :=
  match arr with
  | [] => (filter, Ok smoothed_vals)
  | val :: arr' =>
      let '(filter, stored) :=
        if ne val NaN then KalmanAngle.store (KalmanAngle.Float val) filter
        else (filter, Ok tt) in
      match stored with
      | Raise e => (filter, Raise e)
      | Ok _ =>
          let '(filter, output) := KalmanAngle.predict filter in
          match output with
          | Raise e => (filter, Raise e)
          | Ok output => feed arr' filter (smoothed_vals ++ [output])
          end
      end
  end.

(** [generate_vals(jerk_std, measurement_noise)]: [self.filter] as the
    call leaves it, and the array returned.  The other parameters of the
    estimator keep their defaults. *)
Definition generate_vals (arr : list fl) (jerk_std measurement_noise : Q)
    : KalmanAngle.t * result (list fl) :=
  feed arr (KalmanAngle.init None (1 # 30) 0 jerk_std measurement_noise) [].

(** The first entry of the first row of the array is NaN. *)
Definition starts_with_nan (m : list (list fl)) : bool :=
  match m with
  | (NaN :: _) :: _ => true
  | _ => false
  end.

(** A filter in use: its arrays have the shapes the constructor gives
    them, the state has a column, a gain, if there is one, has the six
    rows and two columns [get_prediction] gives it, and a first frame has
    been stored. *)
Definition running (self : Kalman_Filter.t) : Prop :=
  Kalman_Filter.shapes_ok self = true
  /\ (forall k, Kalman_Filter.K self = Some k -> Mat.has_shape 6 2 k = true)
  /\ (1 <= Mat.cols (Kalman_Filter.Q_estimate self))%nat
  /\ (1 <= Kalman_Filter.num_tracks self)%nat
  /\ Kalman_Filter.frame_num self <> 0%nat.

(** [error(modelled_vals)]: [sum((self.arr - modelled_vals)**2)] on two
    arrays of the same length. *)
Definition error (arr modelled_vals : list fl) : fl :=
  fold_left Fl.add
    (map (fun p => let d := Fl.sub (fst p) (snd p) in Fl.mul d d) (combine arr modelled_vals))
    (Fin 0).

(** [compare(jerk_std)], the cost that [fit] hands to the optimiser:
    [self.filter] and [self.results] as the call leaves them, and the
    value returned. *)
Definition compare (arr : list fl) (results : list (list fl)) (jerk_std : Q)
    : KalmanAngle.t * list (list fl) * result fl :=
  let measurement_noise := 1%Q in
  let '(filter, modelled_vals) := generate_vals arr jerk_std measurement_noise in
  match modelled_vals with
  | Raise e => (filter, results, Raise e)
  | Ok modelled_vals =>
      (filter, results ++ [modelled_vals], Ok (error arr modelled_vals))
  end.

End KalmanFitter.

(** ** Bout: construction and statistics *)

Module BoutStats.

Import Fl.
Local Open Scope Q_scope.

(** The attributes [Bout.__init__] assigns ([trial] and [test_ind] are
    only stored).  [time] is an array of floats, so [framerate] is a
    numpy float: infinite when the first two time stamps coincide. *)
Record bout : Type := {
  arr : list Q;
  time : list Q;
  framerate : fl;
  duration : Q
}.

(** [Bout.__init__(arr, time, trial, test_ind)] *)
Definition init (arr time : list Q) : result bout :=
  do t1 <- Py.index time 1;
  do t0 <- Py.index time 0;
  do tmax <- Np.amax time;
  do tmin <- Np.amin time;
  Ok {| arr := arr; time := time;
        framerate := Fl.div (Fin 1) (Fin (t1 - t0));
        duration := tmax - tmin |}.

(** [np.mean] of a list of floats: NaN, with a warning, when it is empty. *)
Definition mean_fl (l : list fl) : fl :=
  Fl.div (fold_left Fl.add l (Fin 0)) (Fin (inject_Z (Z.of_nat (length l)))).

(** [np.mean] of a list of finite numbers. *)
Definition mean (l : list Q) : fl :=
  match l with
  | [] => NaN
  | _ :: _ => Fin (Np.nanmean l)
  end.

(** The attributes [get_stats] assigns. *)
Record stats : Type := {
  saccades : list Saccade.t;
  extreme_frame : nat;
  total_angle : Q;
  velocity : list Q;
  velocitsy_avg : Q;
  velocity_std : Q;
  inter_saccade_intervals : list fl;
  inter_saccade_interval : fl;
  saccade_frequency : fl;
  saccade_durations : list Q;
  saccade_duration_avg : fl;
  saccade_duration_std : fl;
  saccade_amps : list Q;
  saccade_amps_avg : fl;
  saccade_amps_std : fl;
  saccade_peak_velo : list Q;
  saccade_peak_velo_avg : fl;
  saccade_peak_velo_std : fl;
  saccade_is_left : list bool;
  saccading_left : list Q;
  saccading_right : list Q
}.

(** Lines 4068-4073: the time from each stop to the next start. *)
Definition intervals (framerate : fl) (saccades : list Saccade.t) : list fl :=
  let starts := Py.slice (map Saccade.stop saccades) 0 (-1) in
  let stops := Py.slice (map Saccade.start saccades) 1 (Z.of_nat (length saccades)) in
  map (fun p => Fl.div (Fin (inject_Z (snd p - fst p))) framerate) (combine starts stops).

(** Lines 4091-4095: the two indicator series, as
    [(saccading_left, saccading_right)].  [storage] is the element of
    index [1 * is_left] of the pair. *)
Definition indicators (n : nat) (saccades : list Saccade.t) (is_left : list bool)
    : list Q * list Q :=
  fold_left
    (fun storage p =>
       let '(saccading_left, saccading_right) := storage in
       let '(saccade, is_left) := p in
       if is_left : bool
       then (saccading_left,
             Py.set_slice saccading_right (Saccade.start saccade) (Saccade.stop saccade) 1)
       else (Py.set_slice saccading_left (Saccade.start saccade) (Saccade.stop saccade) 1,
             saccading_right))
    (combine saccades is_left)
    (repeat 0 n, repeat 0 n).

Section GetStats.

(** [np.sqrt] on a non-negative float. *)
Variable np_sqrt : Q -> Q.

(** [np.std] of a list of finite numbers. *)
Definition std (l : list Q) : fl :=
  match l with
  | [] => NaN
  | _ :: _ => Fin (Saccade.nanstd np_sqrt l)
  end.

(** [get_stats].  [found] is the attribute [saccades] when
    it is already set; [process_saccades] is what the call of
    [self.process_saccades] leaves in it otherwise. *)
Definition get_stats (self : bout) (found : option (list Saccade.t))
    (process_saccades : result (list Saccade.t)) : result stats :=
  do saccades <- match found with
                 | Some l => Ok l
                 | None => process_saccades
                 end;
  do first <- Py.index (arr self) 0;
  do extreme_frame <- Np.argmax (map (fun x => Qabs (x - first)) (arr self));
  do extreme <- Py.index (arr self) (Z.of_nat extreme_frame);
  do first' <- Py.index (arr self) 0;
  let total_angle := extreme - first' in
  do velocity <- Np.gradient (arr self);
  let inter_saccade_intervals := intervals (framerate self) saccades in
  let saccade_durations := map Saccade.duration saccades in
  let saccade_amps := map Saccade.amplitude saccades in
  let saccade_peak_velo := map Saccade.peak_velocity saccades in
  let saccade_is_left := map (fun v => Np.Qltb 0 v) saccade_peak_velo in
  let '(saccading_left, saccading_right) :=
    indicators (length (arr self)) saccades saccade_is_left in
  Ok {| saccades := saccades;
        extreme_frame := extreme_frame;
        total_angle := total_angle;
        velocity := velocity;
        velocitsy_avg := Np.nanmean velocity;
        velocity_std := Saccade.nanstd np_sqrt velocity;
        inter_saccade_intervals := inter_saccade_intervals;
        inter_saccade_interval := mean_fl inter_saccade_intervals;
        saccade_frequency :=
          Fl.div (Fin (inject_Z (Z.of_nat (length saccades)))) (Fin (duration self));
        saccade_durations := saccade_durations;
        saccade_duration_avg := mean saccade_durations;
        saccade_duration_std := std saccade_durations;
        saccade_amps := saccade_amps;
        saccade_amps_avg := mean saccade_amps;
        saccade_amps_std := std saccade_amps;
        saccade_peak_velo := saccade_peak_velo;
        saccade_peak_velo_avg := mean saccade_peak_velo;
        saccade_peak_velo_std := std saccade_peak_velo;
        saccade_is_left := saccade_is_left;
        saccading_left := saccading_left;
        saccading_right := saccading_right |}.

End GetStats.

End BoutStats.

(** ** TrackingTrial.remove_saccades: the heading of one bout with its
    saccades taken out *)

Module RemoveSaccades.

Import Fl.
Local Open Scope Q_scope.

(** [starts] and [stops] of the Saccades whose peak speed lies between
    [min_speed] and [max_speed] degrees per second. *)
Definition included (min_speed max_speed : fl) (saccade : Saccade.t) : bool :=
  let speed := Fin (Qabs (Saccade.peak_velocity saccade)) in
  let deg := Fin (Qred (Np.pi / 180)) in
  Fl.leb (Fl.mul min_speed deg) speed && Fl.leb speed (Fl.mul max_speed deg).

(** The frame ranges to flatten, as [(starts, stops)]; with [invert] the
    ranges between the Saccades, from the first frame to the last. *)
Definition spans (saccades : list Saccade.t) (min_speed max_speed : fl) (invert : bool)
    : list Z * list Z :=
  let kept := filter (included min_speed max_speed) saccades in
  let starts := map Saccade.start kept in
  let stops := map Saccade.stop kept in
  if invert then
    let new_stops := Py.slice starts 1 (Z.of_nat (length starts)) in
    let new_starts := Py.slice stops 0 (-1) in
    (0%Z :: new_starts, new_stops ++ [(-1)%Z])
  else (starts, stops).

(** The body of the loop over the bouts for [method='zero_velocity']:
    the element appended to [new_headings]. *)
Definition zero_velocity (arr0 : list Q) (saccades : list Saccade.t)
    (min_speed max_speed : fl) (invert : bool) : result (list Q) :=
  let arr := Np.unwrap arr0 in
  do offset <- Py.index arr 0;
  let velo := 0 :: Np.diff arr in
  let '(starts, stops) := spans saccades min_speed max_speed invert in
  if (0 <? length starts)%nat then
    let velo :=
      fold_left (fun velo p => Py.set_slice velo (fst p) (snd p) 0)
                (combine starts stops) velo in
    Ok (Np.cumsum velo)
  else Ok arr.

End RemoveSaccades.

(** ** Bout.process_saccades: the threshold path

    The path taken when [speed_noise_method], [kalman_method] and
    [acceleration_method] are all False (lines 4387-4463). *)

Module Threshold.

Local Open Scope Q_scope.

(** [np.gradient] along the last axis, row by row. *)
Fixpoint gradient_rows (f : list (list Q)) : result (list (list Q)) :=
  match f with
  | [] => Ok []
  | row :: f' =>
      do g <- Np.gradient row;
      do gs <- gradient_rows f';
      Ok (g :: gs)
  end.

(** [np.gradient(f)] of an array of two dimensions: the gradients along
    the first and along the second axis; ValueError as soon as an axis has
    fewer than two entries. *)
Definition gradient2 (f : list (list Q)) : result (list (list (list Q))) :=
  if (Mat.rows f <? 2)%nat then Raise ValueError
  else if (Mat.cols f <? 2)%nat then Raise ValueError
  else
    do along_columns <- gradient_rows (Mat.qtranspose f);
    do along_rows <- gradient_rows f;
    Ok [Mat.qtranspose along_columns; along_rows].

Section Classic.

(** [scipy.signal.medfilt(volume, kernel_size)] *)
Variable medfilt : list (list Q) -> Z -> result (list (list Q)).

(** Lines 4394-4463, which go on from the filtered heading and its
    gradient: thresholding, the runs above the threshold, the Saccades. *)
Variable thresholded_runs :
  list (list Q) -> list (list (list Q)) -> result (list Saccade.t).

(** [process_saccades(speed_noise_method=False)]: [self.arr] gets a first
    axis of length 1, is unwrapped along the last axis, filtered and
    differentiated. *)
Definition process_saccades (arr : list Q) : result (list Saccade.t) :=
  let arr := map Np.unwrap [arr] in
  do arr <- medfilt arr 5;
  do velocity <- gradient2 arr;
  thresholded_runs arr velocity.

End Classic.

End Threshold.

(** ** Module-level helpers *)

Module Helpers.

Import Fl.
Import String.
Local Open Scope Q_scope.

(** [sigAsterisk(p)].  The loop over the thresholds returns in both
    branches of its body; [None] is what Python returns when a loop ends
    without a [return]. *)
Definition sigAsterisk (p : fl) : option string :=
  (fix loop (l : list (Q * string)) : option string :=
     match l with
     | [] => None
     | v :: l' =>
         if Fl.leb p (Fin (fst v)) then Some (snd v) else Some "ns"%string
     end)
    [(1 # 10000, "****"%string); (1 # 1000, "***"%string);
     (1 # 100, "**"%string); (5 # 100, "*"%string)].

(** One entry of the full overlap of [v], reversed, with [a] from index
    [k] on. *)
Definition overlap (a v : list Q) (k : nat) : Q :=
  fold_left Qplus
    (map (fun p => fst p * snd p) (combine (skipn k a) (rev v))) 0.

(** [np.convolve(a, v, 'valid')]: the shorter array slides over the longer
    one where they overlap in full; ValueError when one is empty. *)
Definition convolve_valid (a v : list Q) : result (list Q) :=
  let '(a, v) := if (List.length a <? List.length v)%nat then (v, a) else (a, v) in
  match v with
  | [] => Raise ValueError
  | _ :: _ =>
      Ok (map (overlap a v) (seq 0 (List.length a - List.length v + 1)))
  end.

(** [np.ones(w)]: ValueError on a negative length. *)
Definition ones (w : Z) : result (list Q) :=
  if (w <? 0)%Z then Raise ValueError else Ok (repeat 1 (Z.to_nat w)).

(** [moving_average(x, w)] for an integer [w] *)
Definition moving_average (x : list Q) (w : Z) : result (list Q) :=
  do kernel <- ones w;
  do sums <- convolve_valid x kernel;
  Ok (map (fun s => s / inject_Z w) sums).

End Helpers.

(** * Facts about the embedding *)

(** Breaking up a call that returned: the step [c] of [do x <- c; k]
    returned too. *)
Ltac bind_ok H :=
  match type of H with
  | bind ?c _ = Ok _ =>
      let E := fresh "E" in
      destruct c eqn:E; cbn [bind] in H; [|discriminate H]
  end.

(** Reading an attribute just after an assignment. *)
Ltac kf_fields :=
  cbn [Kalman_Filter.set_Q_estimate Kalman_Filter.set_Q_loc_estimateX
       Kalman_Filter.set_Q_loc_estimateY Kalman_Filter.set_frame_num
       Kalman_Filter.set_Q_loc_meas Kalman_Filter.set_P Kalman_Filter.set_K
       Kalman_Filter.Q_estimate Kalman_Filter.Q_loc_estimateX
       Kalman_Filter.Q_loc_estimateY Kalman_Filter.frame_num
       Kalman_Filter.K Kalman_Filter.num_objects Kalman_Filter.Q_loc_meas].

(** ** Comparisons of numbers *)

Lemma Qltb_lt (x y : Q) : Np.Qltb x y = true <-> (x < y)%Q.
Proof.
  unfold Np.Qltb. rewrite negb_true_iff. split.
  - intro H. apply Qnot_le_lt. intro Hle.
    apply Qle_bool_iff in Hle. congruence.
  - intro H. destruct (Qle_bool y x) eqn:E; [|reflexivity].
    apply Qle_bool_iff in E. exfalso. exact (Qlt_not_le _ _ H E).
Qed.

Lemma Qltb_ge (x y : Q) : Np.Qltb x y = false <-> (y <= x)%Q.
Proof.
  unfold Np.Qltb. rewrite negb_false_iff. apply Qle_bool_iff.
Qed.

(** ** Overlap resolution *)

Section RemoveFacts.

Variable p : Saccade.t -> bool.

Lemma same_object_refl (A : Type) (x : Saccade.t) (a b : A) :
  (if Bout.same_object x x then a else b) = a.
Proof. destruct (Bout.same_object x x); [reflexivity | contradiction]. Qed.

Lemma contains_In (x : Saccade.t) (l : list Saccade.t) :
  Bout.contains x l = true <-> In x l.
Proof.
  unfold Bout.contains. rewrite existsb_exists. split.
  - intros [y [Hy H]]. destruct (Bout.same_object x y); [subst; assumption | discriminate].
  - intro H. exists x. split; [assumption | apply same_object_refl].
Qed.

Lemma count_remove (x y : Saccade.t) (l : list Saccade.t) :
  count_occ Bout.same_object (Bout.remove x l) y
  = (count_occ Bout.same_object l y - (if Bout.same_object x y then 1 else 0))%nat.
Proof.
  induction l as [|z l IH]; simpl.
  - reflexivity.
  - destruct (Bout.same_object x z) as [Hxz|Hxz].
    + subst z. destruct (Bout.same_object x y); lia.
    + simpl. destruct (Bout.same_object z y) as [Hzy|Hzy].
      * subst z. rewrite IH. destruct (Bout.same_object x y); [contradiction | lia].
      * exact IH.
Qed.

Lemma count_filter (y : Saccade.t) (l : list Saccade.t) :
  p y = true ->
  count_occ Bout.same_object (filter p l) y = count_occ Bout.same_object l y.
Proof.
  intro Hy. induction l as [|z l IH]; simpl; [reflexivity|].
  destruct (Bout.same_object z y) as [Hzy|Hzy].
  - subst z. rewrite Hy. simpl. rewrite same_object_refl. now rewrite IH.
  - destruct (p z); simpl; [|exact IH].
    destruct (Bout.same_object z y); [contradiction | exact IH].
Qed.

Lemma filter_remove (x : Saccade.t) (l : list Saccade.t) :
  p x = true -> filter (fun o => negb (p o)) (Bout.remove x l) = filter (fun o => negb (p o)) l.
Proof.
  intro Hx. induction l as [|z l IH]; simpl; [reflexivity|].
  destruct (Bout.same_object x z) as [Hxz|Hxz].
  - subst z. now rewrite Hx.
  - simpl. now rewrite IH.
Qed.

Lemma filter_none_counted (l : list Saccade.t) :
  (forall y, p y = true -> count_occ Bout.same_object l y = 0%nat) ->
  filter (fun o => negb (p o)) l = l.
Proof.
  induction l as [|z l IH]; intro H; simpl; [reflexivity|].
  destruct (p z) eqn:Hz; simpl.
  - specialize (H z Hz). simpl in H. rewrite same_object_refl in H. discriminate.
  - f_equal. apply IH. intros y Hy. specialize (H y Hy). simpl in H.
    destruct (Bout.same_object z y); [discriminate | exact H].
Qed.

(** Removing, one by one, a list of members that covers every occurrence
    of a clustered element leaves exactly the elements outside the cluster. *)
Lemma remove_all_filter (c l : list Saccade.t) :
  Forall (fun o => p o = true) c ->
  (forall y, p y = true ->
     (count_occ Bout.same_object l y <= count_occ Bout.same_object c y)%nat) ->
  Bout.remove_all c l = filter (fun o => negb (p o)) l.
Proof.
  revert l. induction c as [|o c IH]; intros l Hc Hcount.
  - simpl. symmetry. apply filter_none_counted.
    intros y Hy. specialize (Hcount y Hy). simpl in Hcount. lia.
  - inversion Hc as [|o' c' Ho Hc']; subst.
    unfold Bout.remove_all in *. simpl.
    destruct (Bout.contains o l) eqn:Hin.
    + rewrite IH; [apply filter_remove; assumption | assumption |].
      intros y Hy. rewrite count_remove. specialize (Hcount y Hy). simpl in Hcount.
      destruct (Bout.same_object o y); lia.
    + apply IH; [assumption|].
      intros y Hy. specialize (Hcount y Hy). simpl in Hcount.
      destruct (Bout.same_object o y) as [Hoy|Hoy]; [|lia].
      subst y. assert (Hnot : ~ In o l).
      { intro Hi. apply contains_In in Hi. congruence. }
      apply (count_occ_not_In Bout.same_object) in Hnot. lia.
Qed.

End RemoveFacts.

Lemma overlaps_refl (s : Saccade.t) : Bout.overlaps s s = true.
Proof.
  unfold Bout.overlaps. rewrite Z.eqb_refl.
  rewrite orb_true_r. reflexivity.
Qed.

Lemma overlaps_sym (a b : Saccade.t) : Bout.overlaps a b = Bout.overlaps b a.
Proof.
  unfold Bout.overlaps.
  rewrite (Z.eqb_sym (Saccade.start a)), (Z.eqb_sym (Saccade.stop a)).
  destruct (Py.in_range (Saccade.start a) _ _), (Py.in_range (Saccade.stop a) _ _),
    (Py.in_range (Saccade.start b) _ _), (Py.in_range (Saccade.stop b) _ _);
    reflexivity.
Qed.

(** What the membership tests of lines 4252-4257 amount to. *)
Lemma overlaps_iff (a b : Saccade.t) :
  Bout.overlaps a b = true <->
  (Saccade.start b <= Saccade.start a <= Saccade.stop b
   \/ Saccade.start b <= Saccade.stop a <= Saccade.stop b
   \/ Saccade.start a <= Saccade.start b <= Saccade.stop a
   \/ Saccade.start a <= Saccade.stop b <= Saccade.stop a
   \/ Saccade.start a = Saccade.start b
   \/ Saccade.stop a = Saccade.stop b).
Proof.
  unfold Bout.overlaps, Py.in_range.
  rewrite !orb_true_iff, !andb_true_iff, !Z.leb_le, !Z.ltb_lt, !Z.eqb_eq.
  lia.
Qed.

Lemma remove_all_cluster (s : Saccade.t) (l : list Saccade.t) :
  Bout.remove_all (Bout.cluster s l) l = Bout.others_of s l.
Proof.
  apply (remove_all_filter (Bout.overlaps s)).
  - constructor; [apply overlaps_refl|].
    apply Forall_forall. intros o Ho. apply filter_In in Ho. tauto.
  - intros y Hy. unfold Bout.cluster. simpl.
    rewrite (count_filter (Bout.overlaps s)) by assumption.
    destruct (Bout.same_object s y); lia.
Qed.

Lemma remove_head (s : Saccade.t) (l : list Saccade.t) :
  Bout.remove s (s :: l) = l.
Proof. simpl. apply same_object_refl. Qed.

Lemma resolve_step_eq (s : Saccade.t) (l new : list Saccade.t) :
  Bout.resolve_step s (s :: l) new = (Bout.others_of s l, new ++ [Bout.keep s l]).
Proof.
  unfold Bout.resolve_step. rewrite remove_head, remove_all_cluster. reflexivity.
Qed.

Lemma others_of_length (s : Saccade.t) (l : list Saccade.t) :
  (length (Bout.others_of s l) <= length l)%nat.
Proof. apply filter_length_le. Qed.

(** The loop with enough passes: one cluster per pass. *)
Lemma resolve_loop_cons (fuel : nat) (s : Saccade.t) (l new : list Saccade.t) :
  Bout.resolve_loop (S fuel) (s :: l) new
  = Bout.resolve_loop fuel (Bout.others_of s l) (new ++ [Bout.keep s l]).
Proof. cbn [Bout.resolve_loop]. now rewrite resolve_step_eq. Qed.

Lemma resolve_loop_fuel (f1 f2 : nat) (l new : list Saccade.t) :
  (length l <= f1)%nat -> (length l <= f2)%nat ->
  Bout.resolve_loop f1 l new = Bout.resolve_loop f2 l new.
Proof.
  revert f2 l new. induction f1 as [|f1 IH]; intros f2 l new H1 H2.
  - destruct l; [|simpl in H1; lia]. destruct f2; reflexivity.
  - destruct l as [|s l]; [destruct f2; reflexivity|].
    destruct f2 as [|f2]; [simpl in H2; lia|].
    rewrite !resolve_loop_cons. simpl in H1, H2.
    pose proof (others_of_length s l). apply IH; lia.
Qed.

Lemma resolve_loop_acc (fuel : nat) (l new : list Saccade.t) :
  Bout.resolve_loop fuel l new
  = option_map (app new) (Bout.resolve_loop fuel l []).
Proof.
  revert l new. induction fuel as [|fuel IH]; intros l new.
  - destruct l; simpl; [now rewrite app_nil_r | reflexivity].
  - destruct l as [|s l]; [simpl; now rewrite app_nil_r|].
    rewrite !resolve_loop_cons. rewrite IH. rewrite (IH _ ([] ++ _)).
    destruct (Bout.resolve_loop fuel (Bout.others_of s l) []); simpl; [|reflexivity].
    now rewrite <- app_assoc.
Qed.

(** The equations of overlap resolution. *)
Lemma resolve_overlaps_nil : Bout.resolve_overlaps [] = Some [].
Proof. reflexivity. Qed.

Lemma resolve_overlaps_cons (s : Saccade.t) (l : list Saccade.t) :
  Bout.resolve_overlaps (s :: l)
  = option_map (cons (Bout.keep s l)) (Bout.resolve_overlaps (Bout.others_of s l)).
Proof.
  unfold Bout.resolve_overlaps. simpl length. rewrite resolve_loop_cons.
  rewrite resolve_loop_acc. simpl.
  rewrite (resolve_loop_fuel (length l) (length (Bout.others_of s l)));
    [reflexivity | apply others_of_length | lia].
Qed.

(** Strong induction on the length of the working list. *)
Lemma working_list_ind (P : list Saccade.t -> Prop) :
  P [] ->
  (forall s l, (forall l', (length l' <= length l)%nat -> P l') -> P (s :: l)) ->
  forall l, P l.
Proof.
  intros Hnil Hcons l.
  assert (H : forall n l, (length l <= n)%nat -> P l).
  { induction n as [|n IH]; intros l0 Hl.
    - destruct l0; [exact Hnil | simpl in Hl; lia].
    - destruct l0 as [|s l0]; [exact Hnil|].
      apply Hcons. intros l' Hl'. apply IH. simpl in Hl. lia. }
  apply (H (length l)). lia.
Qed.

(** The loop always ends: the passes allowed suffice. *)
Lemma resolve_overlaps_total (l : list Saccade.t) :
  exists out, Bout.resolve_overlaps l = Some out.
Proof.
  induction l as [|s l IH] using working_list_ind.
  - exists []. reflexivity.
  - destruct (IH (Bout.others_of s l) (others_of_length s l)) as [out Hout].
    exists (Bout.keep s l :: out). rewrite resolve_overlaps_cons, Hout. reflexivity.
Qed.

(** [np.argmax]: the index returned is in range and holds a maximum. *)
Lemma argmax_from_max (d : Q) (l pre : list Q) (bi : nat) (best : Q) :
  (bi < length pre)%nat ->
  nth bi pre d = best ->
  (forall x, In x pre -> (x <= best)%Q) ->
  let r := Np.argmax_from bi best (length pre) l in
  (r < length pre + length l)%nat
  /\ (forall x, In x (pre ++ l) -> (x <= nth r (pre ++ l) d)%Q).
Proof.
  revert pre bi best. induction l as [|x l IH]; intros pre bi best Hbi Hnth Hmax; simpl.
  - split; [lia|]. rewrite app_nil_r. intros y Hy. rewrite Hnth. now apply Hmax.
  - assert (Hlen : length (pre ++ [x]) = S (length pre)).
    { rewrite length_app. simpl. lia. }
    assert (Happ : pre ++ x :: l = (pre ++ [x]) ++ l).
    { now rewrite <- app_assoc. }
    destruct (Np.Qltb best x) eqn:E.
    + apply Qltb_lt in E.
      specialize (IH (pre ++ [x]) (length pre) x).
      rewrite Hlen in IH. rewrite Happ.
      destruct IH as [IH1 IH2].
      * lia.
      * rewrite app_nth2 by lia. now rewrite Nat.sub_diag.
      * intros y Hy. apply in_app_or in Hy. destruct Hy as [Hy|[Hy|[]]].
        -- apply Qle_trans with best; [now apply Hmax | now apply Qlt_le_weak].
        -- subst y. apply Qle_refl.
      * split; [lia | exact IH2].
    + apply Qltb_ge in E.
      specialize (IH (pre ++ [x]) bi best).
      rewrite Hlen in IH. rewrite Happ.
      destruct IH as [IH1 IH2].
      * lia.
      * now rewrite app_nth1 by lia.
      * intros y Hy. apply in_app_or in Hy. destruct Hy as [Hy|[Hy|[]]].
        -- now apply Hmax.
        -- now subst y.
      * split; [lia | exact IH2].
Qed.

(** The member kept for a cluster belongs to it and no member lasts longer. *)
Lemma keep_longest (s : Saccade.t) (l : list Saccade.t) :
  In (Bout.keep s l) (Bout.cluster s l)
  /\ (forall o, In o (Bout.cluster s l) ->
        (Saccade.duration o <= Saccade.duration (Bout.keep s l))%Q).
Proof.
  unfold Bout.keep.
  destruct (1 <? length (Bout.cluster s l))%nat eqn:E.
  - set (r := Np.argmax_from 0 (Saccade.duration s) 1
                (map Saccade.duration (filter (Bout.overlaps s) l))).
    assert (H : (r < 1 + length (map Saccade.duration (filter (Bout.overlaps s) l)))%nat
                /\ (forall x, In x (map Saccade.duration (Bout.cluster s l)) ->
                      (x <= nth r (map Saccade.duration (Bout.cluster s l))
                                (Saccade.duration s))%Q)).
    { apply (argmax_from_max (Saccade.duration s)
               (map Saccade.duration (filter (Bout.overlaps s) l))
               [Saccade.duration s] 0 (Saccade.duration s)).
      - simpl. lia.
      - reflexivity.
      - intros x [Hx|[]]. subst x. apply Qle_refl. }
    destruct H as [Hr Hmax]. rewrite length_map in Hr. split.
    + apply nth_In. unfold Bout.cluster. simpl. lia.
    + intros o Ho. rewrite map_nth in Hmax. apply Hmax. now apply in_map.
  - apply Nat.ltb_ge in E. unfold Bout.cluster in *. simpl in E.
    destruct (filter (Bout.overlaps s) l) eqn:F; [|simpl in E; lia].
    split; [now left|]. intros o [Ho|[]]. subst o. apply Qle_refl.
Qed.

Lemma cluster_In (s o : Saccade.t) (l : list Saccade.t) :
  In o (Bout.cluster s l) <-> o = s \/ (In o l /\ Bout.overlaps s o = true).
Proof.
  unfold Bout.cluster. simpl. rewrite filter_In. intuition.
Qed.

Lemma others_of_In (s o : Saccade.t) (l : list Saccade.t) :
  In o (Bout.others_of s l) <-> In o l /\ Bout.overlaps s o = false.
Proof.
  unfold Bout.others_of. rewrite filter_In, negb_true_iff. tauto.
Qed.

(** Every retained Saccade is one of the candidates. *)
Lemma resolve_overlaps_In (l : list Saccade.t) :
  forall out, Bout.resolve_overlaps l = Some out -> forall x, In x out -> In x l.
Proof.
  induction l as [|s l IH] using working_list_ind; intros out Hout x Hx.
  - rewrite resolve_overlaps_nil in Hout. injection Hout as <-. destruct Hx.
  - rewrite resolve_overlaps_cons in Hout.
    destruct (Bout.resolve_overlaps (Bout.others_of s l)) as [out'|] eqn:E; [|discriminate].
    simpl in Hout. injection Hout as <-. destruct Hx as [Hx|Hx].
    + subst x. destruct (keep_longest s l) as [Hk _].
      apply cluster_In in Hk. destruct Hk as [->|[Hk _]]; [now left | now right].
    + right. apply (IH _ (others_of_length s l) _ E) in Hx.
      apply others_of_In in Hx. tauto.
Qed.

(** A list in which no two elements overlap is left as it is. *)
Lemma resolve_overlaps_fixed (l : list Saccade.t) :
  Bout.non_overlapping l = true -> Bout.resolve_overlaps l = Some l.
Proof.
  induction l as [|s l IH]; intro H; [reflexivity|].
  simpl in H. apply andb_true_iff in H. destruct H as [Hs Hl].
  assert (Hnone : filter (Bout.overlaps s) l = []).
  { clear -Hs. induction l as [|y l IHl]; [reflexivity|].
    simpl in Hs. apply andb_true_iff in Hs. destruct Hs as [Hy Hs].
    simpl. apply negb_true_iff in Hy. rewrite Hy. now apply IHl. }
  assert (Hall : Bout.others_of s l = l).
  { clear -Hs. unfold Bout.others_of. induction l as [|y l IHl]; [reflexivity|].
    simpl in Hs. apply andb_true_iff in Hs. destruct Hs as [Hy Hs].
    simpl. rewrite Hy. f_equal. now apply IHl. }
  rewrite resolve_overlaps_cons, Hall, (IH Hl). simpl.
  unfold Bout.keep, Bout.cluster. rewrite Hnone. reflexivity.
Qed.

Lemma well_formed_In (l : list Saccade.t) (s : Saccade.t) :
  Bout.well_formed l = true -> In s l -> Saccade.start s <= Saccade.stop s.
Proof.
  unfold Bout.well_formed. rewrite forallb_forall. intros H Hs.
  apply Z.leb_le. now apply H.
Qed.

Lemma well_formed_others (s : Saccade.t) (l : list Saccade.t) :
  Bout.well_formed l = true -> Bout.well_formed (Bout.others_of s l) = true.
Proof.
  unfold Bout.well_formed. rewrite !forallb_forall. intros H x Hx.
  apply H. apply others_of_In in Hx. tauto.
Qed.

Lemma in_frame_order_others (s : Saccade.t) (l : list Saccade.t) :
  Bout.in_frame_order l = true -> Bout.in_frame_order (Bout.others_of s l) = true.
Proof.
  induction l as [|x l IH]; intro H; [reflexivity|].
  simpl in H. apply andb_true_iff in H. destruct H as [Hx Hl].
  unfold Bout.others_of in *. simpl. destruct (negb (Bout.overlaps s x)).
  - simpl. rewrite (IH Hl), andb_true_r.
    rewrite forallb_forall in *. intros y Hy. apply Hx.
    apply filter_In in Hy. tauto.
  - now apply IH.
Qed.

Lemma in_frame_order_head (s b : Saccade.t) (l : list Saccade.t) :
  Bout.in_frame_order (s :: l) = true -> In b l -> Bout.overlaps s b = false ->
  Saccade.stop s < Saccade.start b.
Proof.
  simpl. intros H Hb Hov. apply andb_true_iff in H. destruct H as [H _].
  rewrite forallb_forall in H. specialize (H b Hb). rewrite Hov in H.
  now apply Z.ltb_lt.
Qed.

Lemma overlap_transitive_on (l : list Saccade.t) :
  Bout.overlap_transitive l = true -> Bout.transitive_on l.
Proof.
  unfold Bout.overlap_transitive. rewrite forallb_forall.
  intros H x y z Hx Hy Hz Hxy Hyz.
  specialize (H x Hx). rewrite forallb_forall in H.
  specialize (H y Hy). rewrite forallb_forall in H.
  specialize (H z Hz). now rewrite Hxy, Hyz in H.
Qed.

Lemma transitive_on_others (s : Saccade.t) (l : list Saccade.t) :
  Bout.transitive_on (s :: l) -> Bout.transitive_on (Bout.others_of s l).
Proof.
  intros H x y z Hx Hy Hz. apply others_of_In in Hx, Hy, Hz.
  apply H; right; tauto.
Qed.

(** The start of a Saccade overlapping [s] does not lie after [s]. *)
Lemma overlaps_starts_before (s k : Saccade.t) :
  Saccade.start s <= Saccade.stop s -> Saccade.start k <= Saccade.stop k ->
  Bout.overlaps s k = true -> Saccade.start k <= Saccade.stop s.
Proof. intros Hs Hk H. apply overlaps_iff in H. lia. Qed.

Lemma apart_after (k b : Saccade.t) :
  Saccade.start b <= Saccade.stop b ->
  Bout.overlaps k b = false -> Saccade.start k < Saccade.start b ->
  Saccade.stop k < Saccade.start b.
Proof.
  intros Hb H Hlt.
  destruct (Z_lt_ge_dec (Saccade.stop k) (Saccade.start b)) as [|Hge]; [assumption|].
  assert (Hov : Bout.overlaps k b = true) by (apply overlaps_iff; lia).
  congruence.
Qed.

(** Candidates in frame order come out sorted by ascending start index. *)
Lemma resolve_overlaps_sorted (l : list Saccade.t) :
  Bout.well_formed l = true -> Bout.in_frame_order l = true ->
  forall out, Bout.resolve_overlaps l = Some out ->
  StronglySorted (fun a b => Saccade.start a < Saccade.start b) out.
Proof.
  induction l as [|s l IH] using working_list_ind; intros Hwf Hord out Hout.
  - rewrite resolve_overlaps_nil in Hout. injection Hout as <-. constructor.
  - rewrite resolve_overlaps_cons in Hout.
    destruct (Bout.resolve_overlaps (Bout.others_of s l)) as [out'|] eqn:E; [|discriminate].
    simpl in Hout. injection Hout as <-.
    assert (Hwfl : Bout.well_formed l = true).
    { simpl in Hwf. apply andb_true_iff in Hwf. tauto. }
    assert (Hordl : Bout.in_frame_order l = true).
    { simpl in Hord. apply andb_true_iff in Hord. tauto. }
    constructor.
    + apply (IH _ (others_of_length s l)); auto using well_formed_others, in_frame_order_others.
    + apply Forall_forall. intros b Hb.
      apply (resolve_overlaps_In _ _ E) in Hb. apply others_of_In in Hb.
      destruct Hb as [Hbl Hsb].
      pose proof (in_frame_order_head s b l Hord Hbl Hsb) as Hlt.
      pose proof (well_formed_In _ s Hwf (or_introl eq_refl)) as Hs.
      destruct (keep_longest s l) as [Hk _]. apply cluster_In in Hk.
      destruct Hk as [->|[Hkl Hsk]]; [lia|].
      pose proof (well_formed_In _ _ Hwfl Hkl) as Hkwf.
      pose proof (overlaps_starts_before s _ Hs Hkwf Hsk). lia.
Qed.

(** Without chains they also come out with frame ranges that follow one
    another: each stops before the next starts. *)
Lemma resolve_overlaps_separated (l : list Saccade.t) :
  Bout.well_formed l = true -> Bout.in_frame_order l = true -> Bout.transitive_on l ->
  forall out, Bout.resolve_overlaps l = Some out ->
  StronglySorted (fun a b => Saccade.stop a < Saccade.start b) out.
Proof.
  induction l as [|s l IH] using working_list_ind; intros Hwf Hord Htr out Hout.
  - rewrite resolve_overlaps_nil in Hout. injection Hout as <-. constructor.
  - rewrite resolve_overlaps_cons in Hout.
    destruct (Bout.resolve_overlaps (Bout.others_of s l)) as [out'|] eqn:E; [|discriminate].
    simpl in Hout. injection Hout as <-.
    assert (Hwfl : Bout.well_formed l = true).
    { simpl in Hwf. apply andb_true_iff in Hwf. tauto. }
    assert (Hordl : Bout.in_frame_order l = true).
    { simpl in Hord. apply andb_true_iff in Hord. tauto. }
    constructor.
    + apply (IH _ (others_of_length s l));
        auto using well_formed_others, in_frame_order_others, transitive_on_others.
    + apply Forall_forall. intros b Hb.
      apply (resolve_overlaps_In _ _ E) in Hb. apply others_of_In in Hb.
      destruct Hb as [Hbl Hsb].
      pose proof (in_frame_order_head s b l Hord Hbl Hsb) as Hlt.
      pose proof (well_formed_In _ s Hwf (or_introl eq_refl)) as Hs.
      pose proof (well_formed_In _ _ Hwfl Hbl) as Hbwf.
      destruct (keep_longest s l) as [Hk _]. apply cluster_In in Hk.
      destruct Hk as [->|[Hkl Hsk]]; [assumption|].
      pose proof (well_formed_In _ _ Hwfl Hkl) as Hkwf.
      pose proof (overlaps_starts_before s _ Hs Hkwf Hsk).
      apply apart_after; [assumption | | lia].
      destruct (Bout.overlaps (Bout.keep s l) b) eqn:Hkb; [|reflexivity].
      rewrite <- Hsb. symmetry.
      apply (Htr s (Bout.keep s l) b); simpl; auto.
Qed.

(** ** The Saccade constructor *)

Lemma index_first (A : Type) (l : list A) :
  l <> [] -> exists x, Py.index l 0 = Ok x.
Proof.
  destruct l as [|x l]; [congruence|]. intros _. exists x.
  unfold Py.index. cbn [length]. rewrite Nat2Z.inj_succ.
  replace (0 <? 0) with false by reflexivity.
  destruct (Z.leb_spec 0 0); [|lia].
  destruct (Z.ltb_spec 0 (Z.succ (Z.of_nat (length l)))); [|lia].
  reflexivity.
Qed.

Lemma index_last (A : Type) (l : list A) :
  l <> [] -> exists x, Py.index l (-1) = Ok x.
Proof.
  intro Hl. assert (Hn : (0 < length l)%nat) by (destruct l; [congruence | simpl; lia]).
  unfold Py.index. replace (-1 <? 0) with true by reflexivity.
  destruct (Z.leb_spec 0 (-1 + Z.of_nat (length l))); [|lia].
  destruct (Z.ltb_spec (-1 + Z.of_nat (length l)) (Z.of_nat (length l))); [|lia].
  cbn [andb]. destruct (nth_error l (Z.to_nat (-1 + Z.of_nat (length l)))) as [x|] eqn:E.
  - now exists x.
  - apply nth_error_None in E. lia.
Qed.

Lemma unwrap_from_length (prev csum : Q) (p : list Q) :
  length (Np.unwrap_from prev csum p) = length p.
Proof.
  revert prev csum. induction p as [|x p IH]; intros prev csum; simpl.
  - reflexivity.
  - now rewrite IH.
Qed.

(** [np.unwrap] returns an array of the length of its input. *)
Lemma unwrap_length (p : list Q) : length (Np.unwrap p) = length p.
Proof. destruct p as [|x p]; simpl; [reflexivity | now rewrite unwrap_from_length]. Qed.

Lemma gradient_short (f : list Q) :
  (length f < 2)%nat -> Np.gradient f = Raise ValueError.
Proof. destruct f as [|f0 [|f1 rest]]; simpl; [reflexivity | reflexivity | lia]. Qed.

Lemma gradient_from_length (prev cur : Q) (rest : list Q) :
  length (Np.gradient_from prev cur rest) = S (length rest).
Proof.
  revert prev cur. induction rest as [|x rest IH]; intros prev cur; simpl.
  - reflexivity.
  - now rewrite IH.
Qed.

(** [np.gradient] returns an array of the length of its input. *)
Lemma gradient_length (f g : list Q) :
  Np.gradient f = Ok g -> length g = length f /\ (2 <= length f)%nat.
Proof.
  destruct f as [|f0 [|f1 rest]]; simpl; try discriminate.
  intro H. injection H as <-. simpl. rewrite gradient_from_length. lia.
Qed.

Lemma rate_of_change_length (x v : list Q) (framerate : Q) :
  Saccade.rate_of_change x framerate = Ok v ->
  length v = length x /\ (2 <= length x)%nat.
Proof.
  unfold Saccade.rate_of_change.
  destruct (Np.gradient x) as [g|] eqn:E; simpl; [|discriminate].
  intro H. injection H as <-. rewrite length_map. now apply gradient_length.
Qed.

Lemma rate_of_change_returns (x : list Q) (framerate : Q) :
  (2 <= length x)%nat -> exists v, Saccade.rate_of_change x framerate = Ok v.
Proof.
  intro H. unfold Saccade.rate_of_change.
  destruct x as [|x0 [|x1 rest]]; simpl in H; try lia.
  simpl. eauto.
Qed.

Lemma rate_of_change_twice (x v : list Q) (framerate : Q) :
  Saccade.rate_of_change x framerate = Ok v ->
  exists a, Saccade.rate_of_change v framerate = Ok a.
Proof.
  intro H. apply rate_of_change_length in H. destruct H as [Hlen Hx].
  unfold Saccade.rate_of_change.
  destruct v as [|v0 [|v1 rest]]; simpl in Hlen; try lia.
  simpl. eauto.
Qed.




(** A Python division that returns has divided by a number that is not
    zero. *)
Lemma truediv_ok (a b q : Q) :
  Py.truediv a b = Ok q -> q = (a / b)%Q /\ ~ (b == 0)%Q.
Proof.
  unfold Py.truediv. destruct (Qeq_bool b 0) eqn:E; [discriminate|].
  intro H. injection H as <-. split; [reflexivity|]. now apply Qeq_bool_neq.
Qed.

Lemma truediv_nonzero (a b : Q) :
  ~ (b == 0)%Q -> Py.truediv a b = Ok (a / b)%Q.
Proof.
  unfold Py.truediv. intro H. destruct (Qeq_bool b 0) eqn:E; [|reflexivity].
  apply Qeq_bool_eq in E. contradiction.
Qed.

Section InitFacts.

Variable np_sqrt : Q -> Q.
Variable interp1d_cubic : list Q -> list Q -> result (list Q -> result (list Q)).


End InitFacts.

(** ** Shapes of the arrays of the estimator *)

Section MatFacts.

Context {T : Type}.
Variable zero : T.
Variables add mul : T -> T -> T.

Lemma has_shape_iff (r c : nat) (m : list (list T)) :
  Mat.has_shape r c m = true
  <-> length m = r /\ forall row, In row m -> length row = c.
Proof.
  unfold Mat.has_shape. split.
  - intro H. apply andb_true_iff in H. destruct H as [H1 H2].
    apply Nat.eqb_eq in H1. rewrite forallb_forall in H2.
    split; [exact H1|]. intros row Hrow. apply Nat.eqb_eq. now apply H2.
  - intros [H1 H2]. apply andb_true_iff. split; [now apply Nat.eqb_eq|].
    apply forallb_forall. intros row Hrow. apply Nat.eqb_eq. now apply H2.
Qed.

Lemma cols_of_shape (r c : nat) (m : list (list T)) :
  Mat.has_shape r c m = true -> (0 < r)%nat -> Mat.cols m = c.
Proof.
  intros H Hr. apply has_shape_iff in H. destruct H as [Hlen Hrows].
  unfold Mat.cols. destruct m as [|row m]; [simpl in Hlen; lia|].
  apply Hrows. now left.
Qed.

Lemma transpose_shape (r c : nat) (m : list (list T)) :
  Mat.has_shape r c m = true -> (0 < r)%nat ->
  Mat.has_shape c r (Mat.transpose zero m) = true.
Proof.
  intros H Hr. pose proof (cols_of_shape r c m H Hr) as Hc.
  apply has_shape_iff in H. destruct H as [Hlen _].
  apply has_shape_iff. unfold Mat.transpose. rewrite Hc. split.
  - now rewrite length_map, length_seq.
  - intros row Hrow. apply in_map_iff in Hrow. destruct Hrow as [j [<- _]].
    now rewrite length_map.
Qed.

Lemma matmul_shape (r k c : nat) (m1 m2 : list (list T)) :
  Mat.has_shape r k m1 = true -> Mat.has_shape k c m2 = true ->
  (0 < r)%nat -> (0 < k)%nat ->
  exists m, Mat.matmul zero add mul m1 m2 = Ok m /\ Mat.has_shape r c m = true.
Proof.
  intros H1 H2 Hr Hk.
  pose proof (cols_of_shape r k m1 H1 Hr) as Hc1.
  pose proof (transpose_shape k c m2 H2 Hk) as Ht.
  apply has_shape_iff in H1, H2, Ht.
  destruct H1 as [Hlen1 _], H2 as [Hlen2 _], Ht as [Hlent _].
  unfold Mat.matmul, Mat.rows. rewrite Hc1, Hlen2, Nat.eqb_refl.
  eexists. split; [reflexivity|]. apply has_shape_iff. split.
  - now rewrite length_map.
  - intros row Hrow. apply in_map_iff in Hrow. destruct Hrow as [u [<- _]].
    now rewrite length_map.
Qed.

Lemma stretch_same (X : Type) (n : nat) (l : list X) :
  length l = n -> Mat.stretch n l = l.
Proof.
  intro H. destruct l as [|x [|y l]]; simpl in *; subst; reflexivity.
Qed.

Lemma stretch_one (X : Type) (n : nat) (l : list X) :
  length l = 1%nat -> length (Mat.stretch n l) = n.
Proof.
  intro H. destruct l as [|x [|y l]]; simpl in *; try discriminate.
  apply repeat_length.
Qed.

Lemma bdim_same (n : nat) : Mat.bdim n n = Some n.
Proof. unfold Mat.bdim. now rewrite Nat.eqb_refl. Qed.

Lemma bdim_one (n : nat) : Mat.bdim n 1 = Some n.
Proof.
  unfold Mat.bdim. destruct (Nat.eqb_spec n 1); [now subst|].
  destruct (Nat.eqb_spec n 1); [contradiction | reflexivity].
Qed.

(** [m1 (f) m2] when [m2] has the shape of [m1] or is one column. *)
Lemma broadcast_shape (f : T -> T -> T) (r c c2 : nat) (m1 m2 : list (list T)) :
  Mat.has_shape r c m1 = true -> Mat.has_shape r c2 m2 = true ->
  c2 = c \/ c2 = 1%nat -> (0 < r)%nat ->
  exists m, Mat.broadcast f m1 m2 = Ok m /\ Mat.has_shape r c m = true.
Proof.
  intros H1 H2 Hc2 Hr.
  pose proof (cols_of_shape r c m1 H1 Hr) as Hc1.
  pose proof (cols_of_shape r c2 m2 H2 Hr) as Hc2'.
  apply has_shape_iff in H1, H2.
  destruct H1 as [Hlen1 Hrows1], H2 as [Hlen2 Hrows2].
  unfold Mat.broadcast, Mat.rows. rewrite Hlen1, Hlen2, bdim_same, Hc1, Hc2'.
  assert (Hb : Mat.bdim c c2 = Some c)
    by (destruct Hc2 as [->| ->]; [apply bdim_same | apply bdim_one]).
  rewrite Hb. eexists. split; [reflexivity|].
  rewrite !stretch_same by assumption.
  apply has_shape_iff. split.
  - rewrite length_map, length_combine. lia.
  - intros row Hrow. apply in_map_iff in Hrow. destruct Hrow as [[u v] [<- Huv]].
    pose proof (in_combine_l _ _ _ _ Huv) as Hu.
    pose proof (in_combine_r _ _ _ _ Huv) as Hv.
    apply Hrows1 in Hu. apply Hrows2 in Hv. simpl.
    unfold Mat.zip_rows. rewrite length_map, length_combine.
    rewrite (stretch_same _ c u Hu).
    destruct Hc2 as [->| ->].
    + rewrite (stretch_same _ c v Hv). lia.
    + rewrite (stretch_one _ c v Hv). lia.
Qed.

End MatFacts.

Lemma embed_shape (r c : nat) (m : list (list Q)) :
  Mat.has_shape r c m = true -> Mat.has_shape r c (Mat.embed m) = true.
Proof.
  intro H. apply has_shape_iff in H. destruct H as [Hlen Hrows].
  apply has_shape_iff. unfold Mat.embed. split.
  - now rewrite length_map.
  - intros row Hrow. apply in_map_iff in Hrow. destruct Hrow as [u [<- Hu]].
    rewrite length_map. now apply Hrows.
Qed.

Lemma column_shape (B : list Q) (jerk : Q) :
  Mat.has_shape (length B) 1 (Mat.embed (map (fun b => [(b * jerk)%Q]) B)) = true.
Proof.
  apply has_shape_iff. unfold Mat.embed. split.
  - now rewrite !length_map.
  - intros row Hrow. apply in_map_iff in Hrow. destruct Hrow as [u [<- Hu]].
    apply in_map_iff in Hu. destruct Hu as [b [<- _]]. reflexivity.
Qed.

(** On arrays of the shapes of [__init__] the state and the covariance are
    advanced without an exception, and keep their shapes. *)
Lemma advance_ok (self : Kalman_Filter.t) :
  Kalman_Filter.shapes_ok self = true ->
  snd (Kalman_Filter.advance self) = Ok tt
  /\ Kalman_Filter.shapes_ok (fst (Kalman_Filter.advance self)) = true.
Proof.
  unfold Kalman_Filter.shapes_ok. rewrite !andb_true_iff, Nat.eqb_eq.
  intros [[[[[[HA HB] HC] HP] HEx] HEz] HQ].
  unfold Kalman_Filter.advance, Kalman_Filter.predicted_state.
  destruct (matmul_shape (Fl.Fin 0) Fl.add Fl.mul 6 6 _ _ _
              (embed_shape _ _ _ HA) HQ) as [x [Hx Hxs]]; try lia.
  unfold Mat.fmatmul. rewrite Hx. cbn [bind].
  pose proof (column_shape (Kalman_Filter.B self) (Kalman_Filter.jerk self)) as Hcol.
  rewrite HB in Hcol.
  destruct (broadcast_shape Fl.add 6 _ 1 _ _ Hxs Hcol) as [q [Hq Hqs]]; auto; try lia.
  rewrite Hq.
  unfold Kalman_Filter.predicted_covariance. cbn [Kalman_Filter.set_Q_estimate
    Kalman_Filter.A Kalman_Filter.P Kalman_Filter.Ex].
  destruct (matmul_shape 0%Q Mat.qadd Mat.qmul 6 6 6 _ _ HA HP) as [ap [Hap Haps]]; try lia.
  unfold Mat.qmatmul. rewrite Hap. cbn [bind].
  pose proof (transpose_shape 0%Q 6 6 _ HA) as HAt.
  destruct (matmul_shape 0%Q Mat.qadd Mat.qmul 6 6 6 _ _ Haps (HAt ltac:(lia)))
    as [apa [Hapa Hapas]]; try lia.
  unfold Mat.qtranspose. rewrite Hapa. cbn [bind].
  destruct (broadcast_shape Mat.qadd 6 6 6 _ _ Hapas HEx) as [p [Hp Hps]]; auto; try lia.
  rewrite Hp. cbn [fst snd]. split; [reflexivity|].
  cbn [Kalman_Filter.set_P Kalman_Filter.set_Q_estimate Kalman_Filter.A Kalman_Filter.B
       Kalman_Filter.C Kalman_Filter.P Kalman_Filter.Ex Kalman_Filter.Ez
       Kalman_Filter.Q_estimate].
  rewrite HA, HC, HEx, HEz, Hps, HB.
  rewrite (cols_of_shape _ _ _ Hqs) by lia.
  repeat split; try reflexivity. exact Hqs.
Qed.

(** What the constructor builds has these shapes. *)
Lemma init_shapes_ok (num_objects : nat) (num_frames : option nat)
    (sampling_interval jerk jerk_std measurement_noise_x measurement_noise_y : Q) :
  Kalman_Filter.shapes_ok
    (Kalman_Filter.init num_objects num_frames sampling_interval jerk jerk_std
                        measurement_noise_x measurement_noise_y) = true.
Proof.
  unfold Kalman_Filter.shapes_ok, Kalman_Filter.init.
  cbn [Kalman_Filter.A Kalman_Filter.B Kalman_Filter.C Kalman_Filter.P
       Kalman_Filter.Ex Kalman_Filter.Ez Kalman_Filter.Q_estimate].
  cbn [Mat.has_shape Mat.rows Mat.cols length map forallb Nat.eqb andb hd repeat].
  rewrite repeat_length, Nat.eqb_refl. reflexivity.
Qed.

(** ** Overlap resolution (claims C1, C2, C8) *)

(** The detection pipeline always comes to an end: it raises or returns a
    list. *)
Lemma process_saccades_ends
    (np_sqrt : Q -> Q)
    (interp1d_cubic : list Q -> list Q -> result (list Q -> result (list Q)))
    (peak_bounds : list Q -> Q -> Q * Q -> result (list (Q * Q)))
    (arr : list Q) (framerate threshold_speed : Q) (prominance : Q * Q)
    (interpolate_velocity baseline_comparison baseline_test : bool) :
  exists r,
    Bout.process_saccades np_sqrt interp1d_cubic peak_bounds arr framerate
      threshold_speed prominance interpolate_velocity baseline_comparison baseline_test
    = Some r.
Proof.
  unfold Bout.process_saccades.
  destruct (bind _ _) as [saccades|e]; [|eauto].
  destruct (resolve_overlaps_total saccades) as [out ->]. simpl. eauto.
Qed.

(** C1: the code does not do what the claim says.  A long candidate with a
    short one on each flank (frame ranges [20,24], [16,44], [36,40], in peak
    order): the first pass clusters [20,24] with [16,44] and keeps [16,44];
    [36,40], which does not overlap [20,24], is kept by the next pass,
    although it lies inside [16,44].  The list produced is sorted by start
    but its frame ranges overlap. *)
Theorem flank_candidate_stays_inside_kept_one :
  let a := Bout.candidate 60 20 24 in
  let b := Bout.candidate 60 16 44 in
  let c := Bout.candidate 60 36 40 in
  Bout.well_formed [a; b; c] = true
  /\ Bout.in_frame_order [a; b; c] = true
  /\ Bout.resolve_overlaps [a; b; c] = Some [b; c]
  /\ Bout.overlaps b c = true
  /\ Saccade.start b <= Saccade.start c /\ Saccade.stop c <= Saccade.stop b.
Proof. intros a b c. repeat split; vm_compute; reflexivity || discriminate. Qed.

(** C2, as stated, fails: the frame ranges [10,20] and [15,25] are not
    nested, neither contains the other and they share no endpoint, yet the
    second is clustered with the first and only the first survives. *)
Lemma partly_overlapping_pair_is_clustered :
  let a := Bout.candidate 60 10 20 in
  let b := Bout.candidate 60 15 25 in
  Bout.spec_clusters a b = false
  /\ Bout.overlaps a b = true
  /\ Bout.resolve_overlaps [a; b] = Some [a].
Proof. intros a b. repeat split; vm_compute; reflexivity. Qed.

(** C2 (amended): overlap resolution takes the first Saccade [s] of the
    working list [s :: l], clusters it with every other Saccade that has
    an endpoint inside the closed frame range of [s], or whose closed frame
    range holds an endpoint of [s], or that has the start or the stop of
    [s] (so with every one nested in it, containing it, sharing an endpoint
    frame with it, or overlapping it in part), keeps of the cluster only
    a member of the longest duration, and goes on with the Saccades outside
    the cluster until none is left; for the ranges [10,40] and [15,25] only
    [10,40] survives. *)
Theorem resolve_overlaps_by_clusters (s : Saccade.t) (l : list Saccade.t) :
  (exists out,
     Bout.resolve_overlaps (Bout.others_of s l) = Some out
     /\ Bout.resolve_overlaps (s :: l) = Some (Bout.keep s l :: out))
  /\ (forall o, In o (Bout.cluster s l) <-> o = s \/ (In o l /\ Bout.overlaps s o = true))
  /\ (forall o, In o (Bout.others_of s l) <-> In o l /\ Bout.overlaps s o = false)
  /\ (forall o, Bout.overlaps s o = true <->
        Saccade.start o <= Saccade.start s <= Saccade.stop o
        \/ Saccade.start o <= Saccade.stop s <= Saccade.stop o
        \/ Saccade.start s <= Saccade.start o <= Saccade.stop s
        \/ Saccade.start s <= Saccade.stop o <= Saccade.stop s
        \/ Saccade.start s = Saccade.start o
        \/ Saccade.stop s = Saccade.stop o)
  /\ In (Bout.keep s l) (Bout.cluster s l)
  /\ (forall o, In o (Bout.cluster s l) ->
        (Saccade.duration o <= Saccade.duration (Bout.keep s l))%Q)
  /\ Bout.resolve_overlaps [Bout.candidate 60 10 40; Bout.candidate 60 15 25]
     = Some [Bout.candidate 60 10 40].
Proof.
  split.
  { destruct (resolve_overlaps_total (Bout.others_of s l)) as [out Hout].
    exists out. split; [exact Hout|].
    rewrite resolve_overlaps_cons, Hout. reflexivity. }
  split; [intro o; apply cluster_In|].
  split; [intro o; apply others_of_In|].
  split; [intro o; apply overlaps_iff|].
  destruct (keep_longest s l) as [Hin Hmax].
  split; [exact Hin|]. split; [exact Hmax|].
  vm_compute. reflexivity.
Qed.

(** C8: the code does not do what the claim says.  For the frame ranges
    [30,34], [26,54], [46,50] (a long candidate with a short one on each
    flank, in peak order) overlap resolution returns [26,54], [46,50], the
    second inside the first; applied to that list it returns [26,54]
    alone. *)
Theorem resolving_twice_differs :
  let a := Bout.candidate 60 30 34 in
  let b := Bout.candidate 60 26 54 in
  let c := Bout.candidate 60 46 50 in
  Bout.resolve_overlaps [a; b; c] = Some [b; c]
  /\ Bout.resolve_overlaps [b; c] = Some [b].
Proof. intros a b c. split; vm_compute; reflexivity. Qed.

(** ** Validation of a candidate (claims C4, C6, C10) *)




(** C6, as stated, fails: a series of one sample, with the window (0, 0),
    has no frame before onset, so that the window of velocities before
    onset is empty whatever the velocities are; and the construction
    raises ValueError, because [np.gradient] needs two samples and nothing
    in the constructor catches an exception. *)
Lemma short_series_raises :
  Saccade.init Known.sqrt Known.interp1d_flat [0%Q] 60 0 0 true false true
  = Raise ValueError
  /\ Py.slice (Np.unwrap [0%Q]) (Py.round 0) (Py.round 0 + 1) = [0%Q]
  /\ (forall velocity : list Q, Saccade.baseline_window velocity (Py.round 0) = []).
Proof.
  split; [vm_compute; reflexivity|]. split; [vm_compute; reflexivity|].
  intro velocity. unfold Saccade.baseline_window, Py.slice.
  change (Py.round 0) with 0. change (Z.max (0 - 10) 0) with 0.
  now rewrite Z.sub_diag.
Qed.

(** C6 (amended): for a framerate that is not zero and a frame range
    [start, stop] that holds a sample, construction with interpolation
    of a series of fewer than two samples raises ValueError (the series
    cannot be differentiated, and nothing in the constructor catches an
    exception); a series of two samples or more is differentiated, and
    when the interpolation of its velocity gives a peak, a Saccade whose
    window of velocities before onset is empty is constructed and marked
    invalid, whatever the baseline options. *)
Theorem empty_baseline_marks_invalid
    (np_sqrt : Q -> Q)
    (interp1d_cubic : list Q -> list Q -> result (list Q -> result (list Q)))
    (arr : list Q) (framerate start stop : Q)
    (baseline_comparison baseline_test : bool) :
  let frames := Py.slice (Np.unwrap arr) (Py.round start) (Py.round stop + 1) in
  let constructed :=
    Saccade.init np_sqrt interp1d_cubic arr framerate start stop
                 true baseline_comparison baseline_test in
  ~ (framerate == 0)%Q ->
  frames <> [] ->
  ((length arr < 2)%nat -> constructed = Raise ValueError)
  /\ ((2 <= length arr)%nat ->
      exists velocity,
        Saccade.rate_of_change (Np.unwrap arr) framerate = Ok velocity
        /\ forall peak,
             Saccade.interpolated_peak interp1d_cubic
               (Saccade.time_axis (length (Np.unwrap arr)) (Py.round start) framerate)
               velocity (Py.round start) (Py.round stop)
               (inject_Z (Py.round stop - Py.round start) / framerate) = Ok peak ->
             Saccade.baseline_window velocity (Py.round start) = [] ->
             exists s, constructed = Ok s /\ Saccade.success s = Some false).
Proof.
  intros frames constructed Hfr Hslice. unfold constructed, Saccade.init. fold frames.
  rewrite !(truediv_nonzero _ _ Hfr). cbn [bind].
  destruct (index_first _ _ Hslice) as [a Ha].
  destruct (index_last _ _ Hslice) as [b Hb].
  rewrite Ha, Hb. cbn [bind]. split.
  - intro Hlen. unfold Saccade.rate_of_change.
    rewrite gradient_short by (now rewrite unwrap_length). reflexivity.
  - intro Hlen.
    destruct (rate_of_change_returns (Np.unwrap arr) framerate) as [velocity Hvel];
      [now rewrite unwrap_length|].
    exists velocity. split; [exact Hvel|]. intros peak Hpeak Hbase.
    destruct (rate_of_change_twice _ _ _ Hvel) as [acc Hacc].
    rewrite Hvel. cbn [bind].
    rewrite Hacc. cbn [bind]. rewrite Hpeak. cbn [bind].
    destruct peak as [pv pt]. rewrite Hbase. cbn [length Nat.ltb Nat.leb].
    eexists. split; reflexivity.
Qed.

(** A heading that never changes, with a window that starts at the first
    frame. *)
Lemma empty_baseline_marks_invalid_witness :
  exists s,
    Saccade.init Known.sqrt Known.interp1d_flat (Known.flat_series 40) 60 0 5
                 true false true = Ok s
    /\ Saccade.success s = Some false.
Proof.
  assert (Hfr : ~ (60 == 0)%Q) by (vm_compute; discriminate).
  assert (Hne : Py.slice (Np.unwrap (Known.flat_series 40)) (Py.round 0) (Py.round 5 + 1)
                <> []) by (vm_compute; discriminate).
  assert (Hlen : (2 <= length (Known.flat_series 40))%nat) by (vm_compute; lia).
  destruct (proj2 (empty_baseline_marks_invalid Known.sqrt Known.interp1d_flat
                     (Known.flat_series 40) 60 0 5 false true Hfr Hne) Hlen)
    as [velocity [Hvel Hs]].
  let v := eval vm_compute in
    (Saccade.rate_of_change (Np.unwrap (Known.flat_series 40)) 60) in
  match v with
  | Ok ?x =>
      assert (Hv : Saccade.rate_of_change (Np.unwrap (Known.flat_series 40)) 60 = Ok x)
        by (vm_compute; reflexivity)
  end.
  rewrite Hv in Hvel. injection Hvel as <-.
  eapply Hs; vm_compute; reflexivity.
Defined.

(** C10: a Saccade constructed with [interpolate_velocity=False] has no
    validity flag, so reading [success] raises AttributeError; one
    constructed with interpolation always has the flag. *)
Theorem success_assigned_only_when_interpolating
    (np_sqrt : Q -> Q)
    (interp1d_cubic : list Q -> list Q -> result (list Q -> result (list Q)))
    (arr : list Q) (framerate start stop : Q)
    (interpolate_velocity baseline_comparison baseline_test : bool) (s : Saccade.t) :
  Saccade.init np_sqrt interp1d_cubic arr framerate start stop
               interpolate_velocity baseline_comparison baseline_test = Ok s ->
  (interpolate_velocity = false ->
     Saccade.success s = None /\ Saccade.get_success s = Raise AttributeError)
  /\ (interpolate_velocity = true ->
        exists b, Saccade.success s = Some b /\ Saccade.get_success s = Ok b).
Proof.
  unfold Saccade.init. intro H. repeat bind_ok H.
  destruct interpolate_velocity.
  - split; [discriminate|]. intros _.
    repeat bind_ok H.
    match type of H with context [let '(_, _) := ?p in _] => destruct p as [pv pt] end.
    match type of H with
    | context [if ?c then _ else _] => destruct c
    end.
    + repeat bind_ok H. injection H as <-. unfold Saccade.get_success. simpl. eauto.
    + injection H as <-. unfold Saccade.get_success. simpl. eauto.
  - split; [|discriminate]. intros _.
    repeat bind_ok H. injection H as <-. split; reflexivity.
Qed.

Lemma success_assigned_only_when_interpolating_witness :
  exists s,
    Saccade.init Known.sqrt Known.interp1d_flat [0; 1; 2; 3; 4; 5; 6; 8; 10; 12; 14]%Q
                 60 5 8 false false true = Ok s
    /\ Saccade.success s = None
    /\ Saccade.get_success s = Raise AttributeError.
Proof.
  eexists. split; [vm_compute; reflexivity|].
  refine (proj1 (success_assigned_only_when_interpolating
                   Known.sqrt Known.interp1d_flat
                   [0; 1; 2; 3; 4; 5; 6; 8; 10; 12; 14]%Q 60 5 8 false false true _ _)
                eq_refl).
  vm_compute. reflexivity.
Defined.

(** ** The estimator (claims C3, C5, C7) *)

(** A singular innovation covariance makes the gain computation raise. *)
Lemma singular_gain_raises (self : Kalman_Filter.t) :
  Kalman_Filter.singular_innovation self = true ->
  exists e, Kalman_Filter.kalman_gain self = Raise e.
Proof.
  unfold Kalman_Filter.singular_innovation, Kalman_Filter.kalman_gain.
  destruct (Kalman_Filter.innovation_covariance self) as [s|e]; [|discriminate].
  intro H. destruct (Mat.qmatmul _ _) as [pc|e]; [|now exists e]. cbn [bind].
  destruct s as [|[|a [|b [|? ?]]] [|[|c [|d [|? ?]]] [|? ?]]]; try discriminate.
  unfold Mat.inv. rewrite H. cbn [bind]. now exists LinAlgError.
Qed.

(** C5: in every state whose arrays have the shapes the constructor gives
    them, [get_prediction] does not raise; and when the innovation
    covariance of the advanced state is singular, so that the gain
    computation fails, it returns the array [nan, nan] (leaving the state
    advanced and the gain untouched). *)
Theorem get_prediction_undefined_not_raised (self : Kalman_Filter.t) :
  Kalman_Filter.shapes_ok self = true ->
  (exists a, snd (Kalman_Filter.get_prediction self) = Ok a)
  /\ (Kalman_Filter.singular_innovation (fst (Kalman_Filter.advance self)) = true ->
      Kalman_Filter.get_prediction self
      = (fst (Kalman_Filter.advance self), Ok Kalman_Filter.undefined)).
Proof.
  intro Hshape. destruct (advance_ok self Hshape) as [Hadv _].
  unfold Kalman_Filter.get_prediction.
  destruct (Kalman_Filter.advance self) as [self1 r]. cbn [fst snd] in *. subst r.
  split.
  - destruct (Kalman_Filter.kalman_gain self1); cbn [snd]; eauto.
  - intro Hsing. destruct (singular_gain_raises self1 Hsing) as [e He].
    now rewrite He.
Qed.

(** A filter for one angle built with [jerk_std=0] and given its first
    reading: the covariance stays 0 and the innovation covariance is
    [[5, 0], [0, 0]]. *)
Lemma get_prediction_undefined_not_raised_witness :
  let self :=
    KalmanAngle.filter
      (fst (KalmanAngle.store (KalmanAngle.Float (Fl.Fin 1))
                              (KalmanAngle.init None (1 # 30) 0 0 5))) in
  Kalman_Filter.shapes_ok self = true
  /\ Kalman_Filter.innovation_covariance (fst (Kalman_Filter.advance self))
     = Ok [[5; 0]; [0; 0]]%Q
  /\ Kalman_Filter.get_prediction self
     = (fst (Kalman_Filter.advance self), Ok Kalman_Filter.undefined).
Proof.
  intro self. split; [vm_compute; reflexivity|].
  split; [vm_compute; reflexivity|].
  apply (proj2 (get_prediction_undefined_not_raised self ltac:(vm_compute; reflexivity))).
  vm_compute. reflexivity.
Defined.

(** What [store] does to the bookkeeping of the angle, whatever the
    filter does with the point afterwards. *)
Lemma store_bookkeeping (point : KalmanAngle.pyobj) (self : KalmanAngle.t) :
  let self' := fst (KalmanAngle.store point self) in
  let revolutions' :=
    KalmanAngle.unwrap_step (KalmanAngle.last_point self) (KalmanAngle.value point)
                            (KalmanAngle.revolutions self) in
  KalmanAngle.revolutions self' = revolutions'
  /\ KalmanAngle.last_point self' = KalmanAngle.value point
  /\ KalmanAngle.record self'
     = KalmanAngle.record self
       ++ [Fl.add (KalmanAngle.value point)
                  (Fl.Fin (2 * Np.pi * inject_Z revolutions'))].
Proof.
  unfold KalmanAngle.store.
  change (KalmanAngle.is_np_nan (KalmanAngle.np_copy point)) with false.
  change (KalmanAngle.value (KalmanAngle.np_copy point)) with (KalmanAngle.value point).
  cbv zeta.
  destruct (Kalman_Filter.frame_num (KalmanAngle.filter self) =? 0)%nat.
  - destruct (Kalman_Filter.add_starting_points _ _). cbn. auto.
  - destruct (Kalman_Filter.add_measurement _ _). cbn. auto.
Qed.

Lemma half_pi_facts :
  (0 < Np.pi / 2 /\ - Np.pi / 2 == - (Np.pi / 2) /\ Np.pi / 2 + Np.pi / 2 == Np.pi)%Q.
Proof. repeat split. Qed.

(** C3, as stated, fails: after the reading -1 the reading 3 differs from
    it by 4, more than pi, and the revolution count does not change. *)
Lemma seam_crossing_not_counted :
  let self :=
    fst (KalmanAngle.store_then_predict (KalmanAngle.Float (Fl.Fin (-1)))
           (KalmanAngle.init None (1 # 30) 0 125 5)) in
  KalmanAngle.last_point self = Fl.Fin (-1)
  /\ (Np.pi < Qabs (3 - (-1)))%Q
  /\ KalmanAngle.revolutions (fst (KalmanAngle.store (KalmanAngle.Float (Fl.Fin 3)) self))
     = KalmanAngle.revolutions self.
Proof. intro self. repeat split; vm_compute; reflexivity. Qed.

(** C3 (amended): [store] decrements the revolution count by exactly one
    when the previous reading is below -pi/2 and the new one above pi/2,
    increments it by exactly one when the previous reading is above pi/2
    and the new one below -pi/2, and leaves it unchanged otherwise; so every
    counted crossing is between readings that differ by more than pi, but
    readings that differ by more than pi without lying in these two outer
    quarters are not counted. *)
Theorem store_counts_quarter_crossings (point : KalmanAngle.pyobj) (self : KalmanAngle.t) :
  let last := KalmanAngle.last_point self in
  let new := KalmanAngle.value point in
  let before := KalmanAngle.revolutions self in
  let after := KalmanAngle.revolutions (fst (KalmanAngle.store point self)) in
  let down := Fl.ltb last (Fl.Fin (- Np.pi / 2)) && Fl.ltb (Fl.Fin (Np.pi / 2)) new in
  let up := Fl.ltb (Fl.Fin (Np.pi / 2)) last && Fl.ltb new (Fl.Fin (- Np.pi / 2)) in
  (down = true -> after = before - 1)
  /\ (up = true -> after = before + 1)
  /\ (down = false -> up = false -> after = before)
  /\ (forall a b, last = Fl.Fin a -> new = Fl.Fin b -> after <> before ->
        (Np.pi < Qabs (b - a))%Q).
Proof.
  intros last new before after down up.
  destruct (store_bookkeeping point self) as [Hrev _].
  fold after last new before in Hrev. unfold KalmanAngle.unwrap_step in Hrev.
  fold down up in Hrev.
  assert (Hexcl : down = true -> up = true -> False).
  { unfold down, up. rewrite !andb_true_iff. intros [H1 _] [H2 _].
    destruct last as [| |a|]; try discriminate.
    cbn [Fl.ltb] in H1, H2. apply Qltb_lt in H1, H2.
    destruct half_pi_facts as [Hpos [Hneg _]]. lra. }
  repeat split.
  - intro Hd. now rewrite Hd in Hrev.
  - intro Hu. destruct down eqn:Hd; [exfalso; now apply Hexcl|]. now rewrite Hu in Hrev.
  - intros Hd Hu. now rewrite Hd, Hu in Hrev.
  - intros a b Ha Hb Hne.
    destruct half_pi_facts as [Hpos [Hneg Hsum]].
    destruct down eqn:Hd.
    + unfold down in Hd. rewrite Ha, Hb in Hd. cbn [Fl.ltb] in Hd.
      apply andb_true_iff in Hd. destruct Hd as [H1 H2].
      apply Qltb_lt in H1, H2.
      apply Qlt_le_trans with (b - a)%Q; [lra | apply Qle_Qabs].
    + destruct up eqn:Hu; [|congruence].
      unfold up in Hu. rewrite Ha, Hb in Hu. cbn [Fl.ltb] in Hu.
      apply andb_true_iff in Hu. destruct Hu as [H1 H2].
      apply Qltb_lt in H1, H2.
      apply Qlt_le_trans with (- (b - a))%Q; [lra|].
      rewrite <- Qabs_opp. apply Qle_Qabs.
Qed.

(** A counted crossing: the reading 2 after the reading -2. *)
Lemma store_counts_quarter_crossings_witness :
  let self :=
    fst (KalmanAngle.store_then_predict (KalmanAngle.Float (Fl.Fin (-2)))
           (KalmanAngle.init None (1 # 30) 0 125 5)) in
  KalmanAngle.revolutions (fst (KalmanAngle.store (KalmanAngle.Float (Fl.Fin 2)) self))
  = KalmanAngle.revolutions self - 1.
Proof.
  intro self.
  apply (proj1 (store_counts_quarter_crossings (KalmanAngle.Float (Fl.Fin 2)) self)).
  vm_compute. reflexivity.
Defined.

(** C7: the code does not do what the claim says.  [store] tests
    [point is np.nan] on the copy it has just made, which is never the
    object [np.nan]; so a missing reading, even [np.nan] itself, is not
    replaced: NaN is stored in [record] and becomes [last_point], and only
    the revolution count is left as it was.  After the reading 1/2, the
    record of a NaN reading is [1/2, NaN] and not [1/2, 1/2]. *)
Theorem nan_reading_is_stored (self : KalmanAngle.t) :
  let self' := fst (KalmanAngle.store KalmanAngle.NpNan self) in
  let first :=
    fst (KalmanAngle.store_then_predict (KalmanAngle.Float (Fl.Fin (1 # 2)))
           (KalmanAngle.init None (1 # 30) 0 125 5)) in
  KalmanAngle.record self' = KalmanAngle.record self ++ [Fl.NaN]
  /\ KalmanAngle.last_point self' = Fl.NaN
  /\ KalmanAngle.revolutions self' = KalmanAngle.revolutions self
  /\ KalmanAngle.record first = [Fl.Fin (1 # 2)]
  /\ KalmanAngle.record (fst (KalmanAngle.store KalmanAngle.NpNan first))
     = [Fl.Fin (1 # 2); Fl.NaN].
Proof.
  intros self' first.
  destruct (store_bookkeeping KalmanAngle.NpNan self) as [Hrev [Hlast Hrec]].
  fold self' in Hrev, Hlast, Hrec. cbn [KalmanAngle.value] in *.
  split; [exact Hrec|]. split; [exact Hlast|]. split; [|split].
  - rewrite Hrev. unfold KalmanAngle.unwrap_step.
    assert (Hnan : forall x, Fl.ltb x Fl.NaN = false) by (intros []; reflexivity).
    rewrite Hnan. cbn [Fl.ltb]. now rewrite !andb_false_r.
  - vm_compute. reflexivity.
  - vm_compute. reflexivity.
Qed.

(** ** The Butterworth smoothing (claim C9) *)

(** C9: [butterworth_filter] fails with AssertionError as soon as [low >= 0]
    or [high > 0] does not hold (a NaN bound included), whatever the series
    and before [scipy.signal.butter] or [scipy.signal.sosfilt] is called. *)
Theorem butterworth_filter_checks_bounds
    (sos : Type)
    (butter : nat -> list Fl.fl -> Q -> Signal.btype -> result sos)
    (sosfilt : sos -> list (list Q) -> result (list (list Q)))
    (vals : list (list Q)) (low high : Fl.fl) (sample_rate : Q) :
  Fl.leb (Fl.Fin 0) low = false \/ Fl.ltb (Fl.Fin 0) high = false ->
  Signal.butterworth_filter sos butter sosfilt vals low high sample_rate
  = Raise AssertionError.
Proof.
  intro H. unfold Signal.butterworth_filter, Signal.bounds_ok.
  destruct H as [-> | ->]; [reflexivity | now rewrite andb_false_r].
Qed.

Lemma butterworth_filter_checks_bounds_witness :
  Fl.leb (Fl.Fin 0) (Fl.Fin (-1)) = false
  /\ Signal.butterworth_filter unit (fun _ _ _ _ => Ok tt) (fun _ x => Ok x)
       [[0; 1; 2]]%Q (Fl.Fin (-1)) (Fl.Fin 6) 60
     = Raise AssertionError.
Proof.
  split; [reflexivity|].
  apply butterworth_filter_checks_bounds. left. reflexivity.
Defined.

(** * Further properties of the code *)

(** ** Overlap resolution, lines 4243-4269 *)

Lemma resolve_overlaps_length (l : list Saccade.t) :
  forall out, Bout.resolve_overlaps l = Some out ->
  (length out <= length l)%nat /\ (l <> [] -> out <> []).
Proof.
  induction l as [|s l IH] using working_list_ind; intros out Hout.
  - rewrite resolve_overlaps_nil in Hout. injection Hout as <-. split; [lia | congruence].
  - rewrite resolve_overlaps_cons in Hout.
    destruct (Bout.resolve_overlaps (Bout.others_of s l)) as [out'|] eqn:E; [|discriminate].
    simpl in Hout. injection Hout as <-.
    destruct (IH _ (others_of_length s l) _ E) as [Hlen _].
    pose proof (others_of_length s l). simpl. split; [lia | discriminate].
Qed.

(** X1: the loop of overlap resolution always ends; the list it leaves
    holds only candidates of the working list, no more of them than there
    were, and at least one when there was one. *)
Theorem resolve_overlaps_selects_candidates (l : list Saccade.t) :
  exists out,
    Bout.resolve_overlaps l = Some out
    /\ (forall x, In x out -> In x l)
    /\ (length out <= length l)%nat
    /\ (l <> [] -> out <> []).
Proof.
  destruct (resolve_overlaps_total l) as [out Hout]. exists out.
  split; [exact Hout|]. split; [exact (resolve_overlaps_In l out Hout)|].
  exact (resolve_overlaps_length l out Hout).
Qed.

(** X2: when every candidate's frame range runs forward and the candidates
    come in frame order (one that does not overlap an earlier candidate
    lies entirely after it), the list left by overlap resolution is sorted
    by strictly ascending start index, although the code never sorts. *)
Theorem resolve_overlaps_output_sorted (l : list Saccade.t) :
  Bout.well_formed l = true -> Bout.in_frame_order l = true ->
  exists out,
    Bout.resolve_overlaps l = Some out
    /\ StronglySorted (fun a b => Saccade.start a < Saccade.start b) out.
Proof.
  intros Hwf Hord. destruct (resolve_overlaps_total l) as [out Hout].
  exists out. split; [exact Hout|]. exact (resolve_overlaps_sorted l Hwf Hord out Hout).
Qed.

Lemma resolve_overlaps_output_sorted_witness :
  exists out,
    Bout.resolve_overlaps
      [Bout.candidate 60 20 24; Bout.candidate 60 16 44; Bout.candidate 60 36 40]
    = Some out
    /\ StronglySorted (fun a b => Saccade.start a < Saccade.start b) out.
Proof.
  apply resolve_overlaps_output_sorted; vm_compute; reflexivity.
Defined.

Lemma separated_non_overlapping (out : list Saccade.t) :
  (forall s, In s out -> Saccade.start s <= Saccade.stop s) ->
  StronglySorted (fun a b => Saccade.stop a < Saccade.start b) out ->
  Bout.non_overlapping out = true.
Proof.
  intros Hwf Hs. induction Hs as [|a out Hs IH Ha]; [reflexivity|].
  simpl. rewrite IH by (intros s Hin; apply Hwf; now right).
  rewrite andb_true_r. apply forallb_forall. intros b Hb.
  apply negb_true_iff. destruct (Bout.overlaps a b) eqn:E; [|reflexivity].
  apply overlaps_iff in E. rewrite Forall_forall in Ha. specialize (Ha b Hb).
  pose proof (Hwf a (or_introl eq_refl)). pose proof (Hwf b (or_intror Hb)). lia.
Qed.

(** X3: when in addition overlap is transitive among the candidates (none
    overlaps two candidates that do not overlap each other), the frame
    ranges left by overlap resolution follow one another, each stopping
    before the next starts, so no two of them overlap; and resolving that
    list again leaves it unchanged. *)
Theorem resolve_overlaps_without_chains (l : list Saccade.t) :
  Bout.well_formed l = true -> Bout.in_frame_order l = true ->
  Bout.overlap_transitive l = true ->
  exists out,
    Bout.resolve_overlaps l = Some out
    /\ StronglySorted (fun a b => Saccade.stop a < Saccade.start b) out
    /\ Bout.non_overlapping out = true
    /\ Bout.resolve_overlaps out = Some out.
Proof.
  intros Hwf Hord Htr. destruct (resolve_overlaps_total l) as [out Hout].
  exists out. split; [exact Hout|].
  pose proof (resolve_overlaps_separated l Hwf Hord (overlap_transitive_on l Htr) out Hout)
    as Hsep.
  assert (Hno : Bout.non_overlapping out = true).
  { apply separated_non_overlapping; [|exact Hsep].
    intros s Hs. apply (well_formed_In l s Hwf). exact (resolve_overlaps_In l out Hout s Hs). }
  split; [exact Hsep|]. split; [exact Hno|]. now apply resolve_overlaps_fixed.
Qed.

Lemma resolve_overlaps_without_chains_witness :
  exists out,
    Bout.resolve_overlaps
      [Bout.candidate 60 10 40; Bout.candidate 60 15 25; Bout.candidate 60 50 60]
    = Some out
    /\ StronglySorted (fun a b => Saccade.stop a < Saccade.start b) out
    /\ Bout.non_overlapping out = true
    /\ Bout.resolve_overlaps out = Some out.
Proof.
  apply resolve_overlaps_without_chains; vm_compute; reflexivity.
Defined.

(** X4: no candidate outlasts every retained one: for each candidate of
    the working list, overlap resolution retains a Saccade that lasts at
    least as long. *)
Theorem resolve_overlaps_keeps_longest (l : list Saccade.t) :
  exists out,
    Bout.resolve_overlaps l = Some out
    /\ forall x, In x l ->
         exists k, In k out /\ (Saccade.duration x <= Saccade.duration k)%Q.
Proof.
  induction l as [|s l IH] using working_list_ind.
  - exists []. split; [reflexivity|]. intros x [].
  - destruct (IH _ (others_of_length s l)) as [out [Hout Hcov]].
    exists (Bout.keep s l :: out). split.
    + rewrite resolve_overlaps_cons, Hout. reflexivity.
    + intros x Hx. destruct (keep_longest s l) as [_ Hmax].
      destruct (Bout.overlaps s x) eqn:E.
      * exists (Bout.keep s l). split; [now left|]. apply Hmax.
        apply cluster_In. destruct Hx as [->|Hx]; [now left | right; now split].
      * destruct Hx as [<-|Hx]; [rewrite overlaps_refl in E; discriminate|].
        destruct (Hcov x) as [k [Hk Hd]]; [apply others_of_In; now split|].
        exists k. split; [now right | exact Hd].
Qed.

(** ** Candidate validation, lines 4229-4237 *)

Section DetectionFacts.

Variable np_sqrt : Q -> Q.
Variable interp1d_cubic : list Q -> list Q -> result (list Q -> result (list Q)).
Variable peak_bounds : list Q -> Q -> Q * Q -> result (list (Q * Q)).

(** What the loop over the candidate windows requires of a Saccade before
    it appends it. *)
Lemma collect_validated (arr : list Q) (framerate threshold_speed : Q)
    (interpolate_velocity baseline_comparison baseline_test : bool)
    (P : Saccade.t -> Prop) :
  (forall s velos peak_velo,
     Saccade.success s = Some true ->
     Np.gradient (Saccade.arr s) = Ok velos ->
     Np.amax (map (fun v => Qabs (v * framerate)) velos) = Ok peak_velo ->
     (threshold_speed * Np.pi / 180 <= peak_velo)%Q ->
     P s) ->
  forall bounds saccades out,
    (forall s, In s saccades -> P s) ->
    Bout.collect np_sqrt interp1d_cubic arr framerate threshold_speed
      interpolate_velocity baseline_comparison baseline_test bounds saccades = Ok out ->
    forall s, In s out -> P s.
Proof.
  intros HP bounds. induction bounds as [|[start stop] bounds IH]; intros saccades out Hacc H.
  - simpl in H. injection H as <-. exact Hacc.
  - cbn [Bout.collect] in H. do 3 bind_ok H.
    destruct (Np.Qltb a1 (threshold_speed * Np.pi / 180)) eqn:Hthr.
    + cbn [Saccade.get_success Saccade.set_success Saccade.success bind] in H.
      exact (IH _ _ Hacc H).
    + unfold Saccade.get_success in H.
      destruct (Saccade.success a) as [[|]|] eqn:Hs; cbn [bind] in H; [| |discriminate].
      * refine (IH _ _ _ H).
        intros s Hin. apply in_app_or in Hin. destruct Hin as [Hin|[<-|[]]].
        -- now apply Hacc.
        -- apply (HP a a0 a1 Hs E0 E1). now apply Qltb_ge.
      * exact (IH _ _ Hacc H).
Qed.

(** Without interpolation no window is ever appended: the loop raises or
    leaves the list as it was. *)
Lemma collect_plain (arr : list Q) (framerate threshold_speed : Q)
    (baseline_comparison baseline_test : bool) :
  forall bounds saccades out,
    Bout.collect np_sqrt interp1d_cubic arr framerate threshold_speed
      false baseline_comparison baseline_test bounds saccades = Ok out ->
    out = saccades.
Proof.
  intro bounds. induction bounds as [|[start stop] bounds IH]; intros saccades out H.
  - simpl in H. now injection H as <-.
  - cbn [Bout.collect] in H. do 3 bind_ok H.
    assert (Hnone : Saccade.success a = None).
    { clear -E. unfold Saccade.init in E. repeat bind_ok E. now injection E as <-. }
    destruct (Np.Qltb a1 (threshold_speed * Np.pi / 180)).
    + cbn [Saccade.get_success Saccade.set_success Saccade.success bind] in H.
      exact (IH _ _ H).
    + unfold Saccade.get_success in H. rewrite Hnone in H. discriminate.
Qed.

(** X5: every Saccade that [process_saccades] returns (speed-noise path)
    was marked valid by the constructor, and the greatest speed over the
    frames of its window, [max(abs(np.gradient(saccade.arr) * framerate))],
    is at least [threshold_speed] degrees per second. *)
Theorem process_saccades_returns_validated (arr : list Q) (framerate threshold_speed : Q)
    (prominance : Q * Q)
    (interpolate_velocity baseline_comparison baseline_test : bool)
    (out : list Saccade.t) :
  Bout.process_saccades np_sqrt interp1d_cubic peak_bounds arr framerate threshold_speed
    prominance interpolate_velocity baseline_comparison baseline_test = Some (Ok out) ->
  forall s, In s out ->
    Saccade.success s = Some true
    /\ exists velos peak_velo,
         Np.gradient (Saccade.arr s) = Ok velos
         /\ Np.amax (map (fun v => Qabs (v * framerate)) velos) = Ok peak_velo
         /\ (threshold_speed * Np.pi / 180 <= peak_velo)%Q.
Proof.
  unfold Bout.process_saccades. intros H s Hs.
  destruct (bind _ _) as [saccades|e] eqn:E; [|discriminate].
  destruct (Bout.resolve_overlaps saccades) as [out'|] eqn:Hres; [|discriminate].
  simpl in H. injection H as <-.
  pose proof (resolve_overlaps_In saccades out' Hres s Hs) as Hin.
  bind_ok E.
  revert s Hin Hs.
  assert (Hall : forall s, In s saccades ->
            Saccade.success s = Some true
            /\ exists velos peak_velo,
                 Np.gradient (Saccade.arr s) = Ok velos
                 /\ Np.amax (map (fun v => Qabs (v * framerate)) velos) = Ok peak_velo
                 /\ (threshold_speed * Np.pi / 180 <= peak_velo)%Q);
    [|intros s Hin _; now apply Hall].
  eapply collect_validated with (saccades := []); [|intros s []|exact E].
  intros s velos peak_velo H1 H2 H3 H4. split; [exact H1|]. now exists velos, peak_velo.
Qed.

(** X6: with [interpolate_velocity=False] the constructor never assigns
    the validity flag, so [process_saccades] returns no Saccade at all: it
    raises (AttributeError at the first window whose speed reaches the
    threshold) or returns the empty list. *)
Theorem process_saccades_without_interpolation (arr : list Q)
    (framerate threshold_speed : Q) (prominance : Q * Q)
    (baseline_comparison baseline_test : bool) :
  exists r,
    Bout.process_saccades np_sqrt interp1d_cubic peak_bounds arr framerate threshold_speed
      prominance false baseline_comparison baseline_test = Some r
    /\ (r = Ok [] \/ exists e, r = Raise e).
Proof.
  unfold Bout.process_saccades.
  destruct (bind _ _) as [saccades|e] eqn:E.
  - bind_ok E. apply collect_plain in E. subst saccades.
    exists (Ok []). split; [reflexivity | now left].
  - exists (Raise e). split; [reflexivity | right; now exists e].
Qed.

End DetectionFacts.

(** A steady turn of 8 rad/s filmed at 64 frames/s, with one candidate
    window on the frames 12 to 18. *)
Lemma process_saccades_returns_validated_witness :
  exists out,
    Bout.process_saccades Known.sqrt Known.interp1d_flat
      (fun _ _ _ => Ok [(12, 18)]%Q) (Known.ramp_series 40) 64 350 (1, 30)%Q
      true false true = Some (Ok out)
    /\ out <> []
    /\ forall s, In s out ->
         Saccade.success s = Some true
         /\ exists velos peak_velo,
              Np.gradient (Saccade.arr s) = Ok velos
              /\ Np.amax (map (fun v => Qabs (v * 64)) velos) = Ok peak_velo
              /\ (350 * Np.pi / 180 <= peak_velo)%Q.
Proof.
  eexists. split; [vm_compute; reflexivity|]. split; [discriminate|].
  apply (process_saccades_returns_validated Known.sqrt Known.interp1d_flat
           (fun _ _ _ => Ok [(12, 18)]%Q) (Known.ramp_series 40) 64 350 (1, 30)%Q
           true false true).
  vm_compute. reflexivity.
Defined.

(** ** The estimator: shapes and bookkeeping *)

(** [l[0:b]] for a non-negative [b]: the first [b] elements. *)
Lemma slice_prefix (A : Type) (l : list A) (b : nat) :
  Py.slice l 0 (Z.of_nat b) = firstn b l.
Proof.
  unfold Py.slice, Py.slice_bound.
  replace (0 <? 0) with false by reflexivity.
  destruct (Z.ltb_spec (Z.of_nat b) 0); [lia|].
  replace (Z.max 0 (Z.min (Z.of_nat (length l)) 0)) with 0 by lia.
  rewrite Z.sub_0_r. cbn [Z.to_nat skipn].
  destruct (Nat.le_ge_cases b (length l)) as [Hle|Hge].
  - f_equal. lia.
  - rewrite (firstn_all2 (n := b)) by exact Hge.
    apply firstn_all2. lia.
Qed.

Lemma firstn_incl (A : Type) (n : nat) (l : list A) (x : A) :
  In x (firstn n l) -> In x l.
Proof.
  revert l. induction n as [|n IH]; intros [|y l]; simpl; try tauto.
  intros [->|H]; [now left | right; now apply IH].
Qed.

(** The state after the two assignments that open [get_prediction]. *)
Lemma advance_state (self : Kalman_Filter.t) :
  Kalman_Filter.shapes_ok self = true ->
  exists q p,
    Kalman_Filter.advance self
    = (Kalman_Filter.set_P p (Kalman_Filter.set_Q_estimate q self), Ok tt)
    /\ Mat.has_shape 6 (Mat.cols (Kalman_Filter.Q_estimate self)) q = true
    /\ Mat.has_shape 6 6 p = true.
Proof.
  unfold Kalman_Filter.shapes_ok. rewrite !andb_true_iff, Nat.eqb_eq.
  intros [[[[[[HA HB] HC] HP] HEx] HEz] HQ].
  unfold Kalman_Filter.advance, Kalman_Filter.predicted_state.
  destruct (matmul_shape (Fl.Fin 0) Fl.add Fl.mul 6 6 _ _ _
              (embed_shape _ _ _ HA) HQ) as [x [Hx Hxs]]; try lia.
  unfold Mat.fmatmul. rewrite Hx. cbn [bind].
  pose proof (column_shape (Kalman_Filter.B self) (Kalman_Filter.jerk self)) as Hcol.
  rewrite HB in Hcol.
  destruct (broadcast_shape Fl.add 6 _ 1 _ _ Hxs Hcol) as [q [Hq Hqs]]; auto; try lia.
  rewrite Hq.
  unfold Kalman_Filter.predicted_covariance. cbn [Kalman_Filter.set_Q_estimate
    Kalman_Filter.A Kalman_Filter.P Kalman_Filter.Ex].
  destruct (matmul_shape 0%Q Mat.qadd Mat.qmul 6 6 6 _ _ HA HP) as [ap [Hap Haps]]; try lia.
  unfold Mat.qmatmul. rewrite Hap. cbn [bind].
  pose proof (transpose_shape 0%Q 6 6 _ HA) as HAt.
  destruct (matmul_shape 0%Q Mat.qadd Mat.qmul 6 6 6 _ _ Haps (HAt ltac:(lia)))
    as [apa [Hapa Hapas]]; try lia.
  unfold Mat.qtranspose. rewrite Hapa. cbn [bind].
  destruct (broadcast_shape Mat.qadd 6 6 6 _ _ Hapas HEx) as [p [Hp Hps]]; auto; try lia.
  rewrite Hp. exists q, p. auto.
Qed.

(** The first two rows of the state, cut to the tracked columns. *)
Lemma estimate_points_shape (c nt : nat) (q : list (list Fl.fl)) :
  Mat.has_shape 6 c q = true ->
  Mat.has_shape 2 (Nat.min nt c)
    (map (fun row => Py.slice row 0 (Z.of_nat nt)) (Py.slice q 0 2)) = true.
Proof.
  intro H. apply has_shape_iff in H. destruct H as [Hlen Hrows].
  apply has_shape_iff.
  change 2 with (Z.of_nat 2). rewrite slice_prefix. split.
  - rewrite length_map, length_firstn. lia.
  - intros row Hrow. apply in_map_iff in Hrow. destruct Hrow as [u [<- Hu]].
    rewrite slice_prefix, length_firstn.
    rewrite (Hrows u); [reflexivity|]. eapply firstn_incl; eassumption.
Qed.

(** X7: in a state whose arrays have the shapes the constructor gives
    them, [get_prediction] keeps these shapes and the number of columns of
    the state, leaves the frame counter and both logs of estimates as they
    were, and returns either the one-dimensional [nan, nan] or an array of
    two columns with one row per tracked column of the state. *)
Theorem get_prediction_keeps_shapes (self : Kalman_Filter.t) :
  Kalman_Filter.shapes_ok self = true ->
  let self' := fst (Kalman_Filter.get_prediction self) in
  Kalman_Filter.shapes_ok self' = true
  /\ Mat.cols (Kalman_Filter.Q_estimate self') = Mat.cols (Kalman_Filter.Q_estimate self)
  /\ Kalman_Filter.frame_num self' = Kalman_Filter.frame_num self
  /\ Kalman_Filter.Q_loc_estimateX self' = Kalman_Filter.Q_loc_estimateX self
  /\ Kalman_Filter.Q_loc_estimateY self' = Kalman_Filter.Q_loc_estimateY self
  /\ match snd (Kalman_Filter.get_prediction self) with
     | Ok (Kalman_Filter.Arr2 m) =>
         Mat.has_shape
           (Nat.min (Kalman_Filter.num_tracks self)
                    (Mat.cols (Kalman_Filter.Q_estimate self))) 2 m = true
     | Ok (Kalman_Filter.Arr1 v) => v = [Fl.NaN; Fl.NaN]
     | Raise _ => False
     end.
Proof.
  intro Hshape. destruct (advance_state self Hshape) as [q [p [Hadv [Hq Hp]]]].
  pose proof (advance_ok self Hshape) as [_ Hok]. rewrite Hadv in Hok. cbn [fst] in Hok.
  assert (Hcols : Mat.cols q = Mat.cols (Kalman_Filter.Q_estimate self))
    by (apply (cols_of_shape 6); [exact Hq | lia]).
  unfold Kalman_Filter.get_prediction. rewrite Hadv.
  destruct (Kalman_Filter.kalman_gain _) as [k|e]; cbn [fst snd].
  - repeat split; try reflexivity; try assumption.
    cbn [Kalman_Filter.set_estimate_points Kalman_Filter.set_K Kalman_Filter.set_P
         Kalman_Filter.set_Q_estimate Kalman_Filter.Q_estimate Kalman_Filter.num_tracks].
    apply transpose_shape; [|lia].
    now apply estimate_points_shape.
  - repeat split; try reflexivity; assumption.
Qed.

(** The filter of one angle after its first reading. *)
Lemma get_prediction_keeps_shapes_witness :
  let self :=
    KalmanAngle.filter
      (fst (KalmanAngle.store (KalmanAngle.Float (Fl.Fin 1))
                              (KalmanAngle.init None (1 # 30) 0 125 5))) in
  let self' := fst (Kalman_Filter.get_prediction self) in
  Kalman_Filter.shapes_ok self' = true
  /\ Mat.cols (Kalman_Filter.Q_estimate self') = Mat.cols (Kalman_Filter.Q_estimate self)
  /\ Kalman_Filter.frame_num self' = Kalman_Filter.frame_num self
  /\ Kalman_Filter.Q_loc_estimateX self' = Kalman_Filter.Q_loc_estimateX self
  /\ Kalman_Filter.Q_loc_estimateY self' = Kalman_Filter.Q_loc_estimateY self
  /\ match snd (Kalman_Filter.get_prediction self) with
     | Ok (Kalman_Filter.Arr2 m) =>
         Mat.has_shape
           (Nat.min (Kalman_Filter.num_tracks self)
                    (Mat.cols (Kalman_Filter.Q_estimate self))) 2 m = true
     | Ok (Kalman_Filter.Arr1 v) => v = [Fl.NaN; Fl.NaN]
     | Raise _ => False
     end.
Proof.
  intro self. apply (get_prediction_keeps_shapes self). vm_compute. reflexivity.
Defined.

(** ** The angle estimator *)

(** X8: when the innovation covariance of the advanced state is singular,
    [get_prediction] hands back the one-dimensional [nan, nan] and
    [predict], which indexes it with [0, 0], raises IndexError; the state
    stays advanced. *)
Theorem predict_raises_on_singular_covariance (self : KalmanAngle.t) :
  Kalman_Filter.shapes_ok (KalmanAngle.filter self) = true ->
  Kalman_Filter.singular_innovation
    (fst (Kalman_Filter.advance (KalmanAngle.filter self))) = true ->
  snd (KalmanAngle.predict self) = Raise IndexError
  /\ KalmanAngle.filter (fst (KalmanAngle.predict self))
     = fst (Kalman_Filter.advance (KalmanAngle.filter self)).
Proof.
  intros Hshape Hsing.
  destruct (advance_ok _ Hshape) as [Hadv _].
  destruct (singular_gain_raises _ Hsing) as [e He].
  unfold KalmanAngle.predict, Kalman_Filter.get_prediction.
  destruct (Kalman_Filter.advance (KalmanAngle.filter self)) as [self1 r].
  cbn [fst snd] in *. subst r. rewrite He. cbn. split; reflexivity.
Qed.

(** An estimator built with [jerk_std=0], after its first reading. *)
Lemma predict_raises_on_singular_covariance_witness :
  let self :=
    fst (KalmanAngle.store (KalmanAngle.Float (Fl.Fin 1))
                           (KalmanAngle.init None (1 # 30) 0 0 5)) in
  snd (KalmanAngle.predict self) = Raise IndexError
  /\ KalmanAngle.filter (fst (KalmanAngle.predict self))
     = fst (Kalman_Filter.advance (KalmanAngle.filter self)).
Proof.
  intro self.
  apply (predict_raises_on_singular_covariance self); vm_compute; reflexivity.
Defined.

(** [np.mod(x, m)] lies in [0, m). *)
Lemma mod_range (x m : Q) : (0 < m -> 0 <= Np.mod_ x m /\ Np.mod_ x m < m)%Q.
Proof.
  intro Hm. unfold Np.mod_.
  assert (Hne : ~ (m == 0)%Q) by (intro H; rewrite H in Hm; discriminate).
  pose proof (Qfloor_le (x / m)) as Hlo.
  pose proof (Qlt_floor (x / m)) as Hhi.
  rewrite inject_Z_plus in Hhi.
  set (f := inject_Z (Qfloor (x / m))) in *.
  apply (Qmult_le_r _ _ m Hm) in Hlo. apply (Qmult_lt_r _ _ m Hm) in Hhi.
  assert (Hx : (x / m * m == x)%Q) by (field; exact Hne).
  rewrite Hx in Hlo, Hhi. change (inject_Z 1) with 1%Q in Hhi.
  split; lra.
Qed.

(** X9: what [predict] returns is NaN or an angle in the half-open turn
    from -pi (excluded) to pi (included). *)
Theorem predict_range (self : KalmanAngle.t) (x : Fl.fl) :
  snd (KalmanAngle.predict self) = Ok x ->
  x = Fl.NaN \/ exists q, x = Fl.Fin q /\ (- Np.pi < q /\ q <= Np.pi)%Q.
Proof.
  unfold KalmanAngle.predict.
  destruct (Kalman_Filter.get_prediction (KalmanAngle.filter self)) as [flt r].
  cbn [snd]. intro H. do 2 bind_ok H. injection H as <-.
  assert (Hpi : (0 < Np.pi)%Q) by reflexivity.
  assert (H2pi : (0 < 2 * Np.pi)%Q) by reflexivity.
  destruct a0 as [| |v|]; cbn [Fl.mod_ Fl.ltb]; try (now left).
  right. destruct (mod_range v (2 * Np.pi) H2pi) as [Hlo Hhi].
  rewrite <- (Qred_correct (Np.mod_ v (2 * Np.pi))) in Hlo, Hhi.
  set (o := Qred (Np.mod_ v (2 * Np.pi))) in *.
  destruct (Np.Qltb Np.pi o) eqn:E1.
  - apply Qltb_lt in E1. cbn [Fl.sub Fl.neg Fl.add].
    eexists. split; [reflexivity|]. rewrite Qred_correct. split; lra.
  - apply Qltb_ge in E1.
    destruct (Np.Qltb o (- Np.pi)) eqn:E2.
    + apply Qltb_lt in E2. lra.
    + exists o. split; [reflexivity|]. split; lra.
Qed.

(** The first prediction of an estimator with the default parameters. *)
Lemma predict_range_witness :
  let self :=
    fst (KalmanAngle.store (KalmanAngle.Float (Fl.Fin 4))
                           (KalmanAngle.init None (1 # 30) 0 125 5)) in
  exists x,
    snd (KalmanAngle.predict self) = Ok x
    /\ (x = Fl.NaN \/ exists q, x = Fl.Fin q /\ (- Np.pi < q /\ q <= Np.pi)%Q).
Proof.
  intro self. eexists. split; [vm_compute; reflexivity|].
  apply (predict_range self). vm_compute. reflexivity.
Defined.

(** The first points of a filter of one object that logs by [append]. *)
Lemma add_starting_points_one (self : Kalman_Filter.t) (x y : Fl.fl)
    (lx ly : list (list Fl.fl)) :
  Kalman_Filter.num_objects self = 1%nat ->
  Mat.has_shape 6 1 (Kalman_Filter.Q_estimate self) = true ->
  Kalman_Filter.Q_loc_estimateX self = Kalman_Filter.Appended lx ->
  Kalman_Filter.Q_loc_estimateY self = Kalman_Filter.Appended ly ->
  exists self',
    Kalman_Filter.add_starting_points [[x; y]] self = (self', Ok tt)
    /\ Kalman_Filter.frame_num self' = S (Kalman_Filter.frame_num self)
    /\ Kalman_Filter.K self' = Kalman_Filter.K self
    /\ Kalman_Filter.num_objects self' = 1%nat
    /\ Kalman_Filter.Q_estimate self'
       = [[x]; [y]; [Fl.Fin 0]; [Fl.Fin 0]; [Fl.Fin 0]; [Fl.Fin 0]].
Proof.
  intros Hn Hq Hx Hy.
  unfold Kalman_Filter.add_starting_points, Kalman_Filter.shape_ok. rewrite Hn.
  cbn [Mat.rows length Nat.eqb forallb andb].
  destruct (Kalman_Filter.Q_estimate self)
    as [|[|a [|]] [|[|b [|]] [|[|c [|]] [|[|d [|]] [|[|e [|]] [|[|f [|]] [|]]]]]]] eqn:E;
    try discriminate Hq.
  unfold Kalman_Filter.starting_state.
  cbn [Kalman_Filter.set_Q_estimate Kalman_Filter.Q_estimate map].
  change (Py.slice [[Fl.Fin 0]; [Fl.Fin 0]; [Fl.Fin 0]; [Fl.Fin 0]; [Fl.Fin 0]; [Fl.Fin 0]] 0 2)
    with [[Fl.Fin 0]; [Fl.Fin 0]].
  change (Mat.ftranspose [[x; y]]) with [[x]; [y]].
  cbn [Mat.rows Mat.cols length hd Nat.eqb orb andb Mat.stretch map skipn app repeat].
  unfold Kalman_Filter.store_estimate.
  kf_fields.
  change (Py.index [[x]; [y]; [Fl.Fin 0]; [Fl.Fin 0]; [Fl.Fin 0]; [Fl.Fin 0]] 0) with (Ok [x]).
  cbv iota. rewrite Hx. cbn [Kalman_Filter.log_row]. kf_fields.
  change (Py.index [[x]; [y]; [Fl.Fin 0]; [Fl.Fin 0]; [Fl.Fin 0]; [Fl.Fin 0]] 1) with (Ok [y]).
  cbv iota. rewrite Hy. cbn [Kalman_Filter.log_row]. kf_fields.
  eexists. split; [reflexivity|]. kf_fields. repeat split; try reflexivity. exact Hn.
Qed.

(** Without a gain: the measurement is kept, then reading [self.K]
    fails. *)
Lemma add_measurement_without_gain (self : Kalman_Filter.t) (points : list (list Fl.fl)) :
  Kalman_Filter.K self = None ->
  Kalman_Filter.shape_ok self points = true ->
  Kalman_Filter.add_measurement points self
  = (Kalman_Filter.set_Q_loc_meas (Some points) self, Raise AttributeError).
Proof.
  intros HK Hshape. unfold Kalman_Filter.add_measurement. rewrite Hshape.
  unfold Kalman_Filter.corrected_state.
  cbn [Kalman_Filter.set_Q_loc_meas Kalman_Filter.K]. now rewrite HK.
Qed.

(** X10: [store] relies on a [predict] between two readings.  On a new
    estimator (that logs by [append]) the first [store] succeeds; a second
    [store] that follows it directly raises AttributeError, because no
    gain [K] has been computed yet, after the reading has been put on
    record and kept as the last measurement. *)
Theorem store_twice_without_predict (p1 p2 : KalmanAngle.pyobj)
    (sampling_interval jerk jerk_std measurement_noise_x : Q) :
  let self := KalmanAngle.init None sampling_interval jerk jerk_std measurement_noise_x in
  let r1 := KalmanAngle.store p1 self in
  let r2 := KalmanAngle.store p2 (fst r1) in
  snd r1 = Ok tt
  /\ snd r2 = Raise AttributeError
  /\ length (KalmanAngle.record (fst r2)) = 2%nat
  /\ exists point,
       Kalman_Filter.Q_loc_meas (KalmanAngle.filter (fst r2)) = Some [[point; Fl.Fin 0]].
Proof.
  intros self r1 r2.
  assert (H1 : exists f1,
            snd r1 = Ok tt /\ KalmanAngle.filter (fst r1) = f1
            /\ Kalman_Filter.frame_num f1 = 1%nat /\ Kalman_Filter.K f1 = None
            /\ Kalman_Filter.num_objects f1 = 1%nat).
  { unfold r1, KalmanAngle.store. cbv zeta.
    change (Kalman_Filter.frame_num (KalmanAngle.filter self) =? 0)%nat with true.
    cbv iota.
    match goal with
    | |- context [Kalman_Filter.add_starting_points [[?x; ?y]] ?f] =>
        destruct (add_starting_points_one f x y [] []) as [f1 [Hf1 [Hfr [HK Hn]]]];
          try reflexivity; rewrite Hf1
    end.
    exists f1. cbn [fst snd KalmanAngle.filter]. destruct Hn as [Hn _]. auto. }
  destruct H1 as [f1 [Hr1 [Hf1 [Hfr [HK Hn]]]]].
  destruct (store_bookkeeping p1 self) as [_ [_ Hrec1]].
  destruct (store_bookkeeping p2 (fst r1)) as [_ [_ Hrec2]].
  fold r1 in Hrec1. fold r2 in Hrec2.
  split; [exact Hr1|].
  assert (H2 : snd r2 = Raise AttributeError
               /\ exists point,
                    Kalman_Filter.Q_loc_meas (KalmanAngle.filter (fst r2))
                    = Some [[point; Fl.Fin 0]]).
  { unfold r2, KalmanAngle.store. cbv zeta. rewrite Hf1, Hfr.
    cbn [Nat.eqb].
    rewrite add_measurement_without_gain;
      [|exact HK | unfold Kalman_Filter.shape_ok; rewrite Hn; reflexivity].
    cbn [fst snd KalmanAngle.filter Kalman_Filter.set_Q_loc_meas Kalman_Filter.Q_loc_meas].
    split; [reflexivity | eauto]. }
  destruct H2 as [H2 H3]. split; [exact H2|]. split; [|exact H3].
  rewrite Hrec2, Hrec1. reflexivity.
Qed.

(** X23: a filter of three objects or more accepts no measurement.  The
    measurements come as one row per object and are subtracted from
    [C @ Q_estimate], which has one column per object, without being
    transposed: with three objects or more the two shapes cannot be
    broadcast together, and [add_measurement] raises ValueError, having
    kept the measurements in [Q_loc_meas]. *)
Theorem add_measurement_many_objects (self : Kalman_Filter.t)
    (points : list (list Fl.fl)) (k : list (list Q)) :
  Kalman_Filter.shapes_ok self = true ->
  Mat.cols (Kalman_Filter.Q_estimate self) = Kalman_Filter.num_objects self ->
  (3 <= Kalman_Filter.num_objects self)%nat ->
  Kalman_Filter.K self = Some k ->
  Kalman_Filter.shape_ok self points = true ->
  Kalman_Filter.add_measurement points self
  = (Kalman_Filter.set_Q_loc_meas (Some points) self, Raise ValueError).
Proof.
  intros Hshape Hcols Hn HK Hpoints.
  unfold Kalman_Filter.add_measurement. rewrite Hpoints.
  unfold Kalman_Filter.corrected_state. kf_fields. rewrite HK.
  cbn [Kalman_Filter.set_Q_loc_meas Kalman_Filter.C].
  revert Hshape. unfold Kalman_Filter.shapes_ok. rewrite !andb_true_iff.
  intros [[[[[[HA HB] HC] HP] HEx] HEz] HQ].
  destruct (matmul_shape (Fl.Fin 0) Fl.add Fl.mul 2 6 _ _ _
              (embed_shape _ _ _ HC) HQ) as [cq [Hcq Hcqs]]; try lia.
  unfold Mat.fmatmul. rewrite Hcq. cbn [bind].
  unfold Kalman_Filter.shape_ok in Hpoints. apply andb_true_iff in Hpoints.
  destruct Hpoints as [Hrows _]. apply Nat.eqb_eq in Hrows.
  apply has_shape_iff in Hcqs. destruct Hcqs as [Hcqr _].
  unfold Mat.broadcast, Mat.rows in *. rewrite Hrows, Hcqr.
  unfold Mat.bdim.
  destruct (Nat.eqb_spec (Kalman_Filter.num_objects self) 2); [lia|].
  destruct (Nat.eqb_spec (Kalman_Filter.num_objects self) 1); [lia|].
  reflexivity.
Qed.

(** Three objects: the starting points are accepted and a prediction is
    made, then the first measurement is refused. *)
Lemma add_measurement_many_objects_witness :
  let points := [[Fl.Fin 1; Fl.Fin 2]; [Fl.Fin 3; Fl.Fin 4]; [Fl.Fin 5; Fl.Fin 6]] in
  let started :=
    Kalman_Filter.add_starting_points points
      (Kalman_Filter.init 3 None (1 # 30) 0 125 5 5) in
  let predicted := Kalman_Filter.get_prediction (fst started) in
  snd started = Ok tt
  /\ snd predicted = Ok (Kalman_Filter.Arr2 points)
  /\ snd (Kalman_Filter.add_measurement points (fst predicted)) = Raise ValueError.
Proof.
  intros points started predicted.
  split; [vm_compute; reflexivity|]. split; [vm_compute; reflexivity|].
  let v := eval vm_compute in (Kalman_Filter.K (fst predicted)) in
  match v with Some ?x => pose (k := x) end.
  rewrite (add_measurement_many_objects (fst predicted) points k);
    [reflexivity | vm_compute; reflexivity | vm_compute; reflexivity
    | vm_compute; lia | vm_compute; reflexivity | vm_compute; reflexivity].
Defined.

(** ** The estimator run over a series, lines 4001-4009 *)

Lemma predict_keeps_record (self : KalmanAngle.t) :
  KalmanAngle.record (fst (KalmanAngle.predict self)) = KalmanAngle.record self.
Proof.
  unfold KalmanAngle.predict.
  destruct (Kalman_Filter.get_prediction (KalmanAngle.filter self)). reflexivity.
Qed.

(** [val != np.nan] holds of every float, NaN included. *)
Lemma ne_nan (val : Fl.fl) : KalmanFitter.ne val Fl.NaN = true.
Proof. destruct val; reflexivity. Qed.

Lemma feed_records (arr : list Fl.fl) :
  forall filter smoothed_vals filter' out,
    KalmanFitter.feed arr filter smoothed_vals = (filter', Ok out) ->
    length out = (length smoothed_vals + length arr)%nat
    /\ exists stored,
         KalmanAngle.record filter' = KalmanAngle.record filter ++ stored
         /\ Forall2 (fun val point => exists k : Z,
                       point = Fl.add val (Fl.Fin (2 * Np.pi * inject_Z k)))
                    arr stored.
Proof.
  induction arr as [|val arr IH]; intros filter smoothed_vals filter' out H.
  - simpl in H. injection H as <- <-. split; [simpl; lia|].
    exists []. split; [now rewrite app_nil_r | constructor].
  - cbn [KalmanFitter.feed] in H. rewrite ne_nan in H.
    destruct (store_bookkeeping (KalmanAngle.Float val) filter) as [_ [_ Hrec]].
    destruct (KalmanAngle.store (KalmanAngle.Float val) filter) as [f1 [[]|e]];
      [|discriminate].
    cbn [fst KalmanAngle.value] in Hrec.
    pose proof (predict_keeps_record f1) as Hpred.
    destruct (KalmanAngle.predict f1) as [f2 [output|e]]; [|discriminate].
    cbn [fst] in Hpred.
    destruct (IH _ _ _ _ H) as [Hlen [stored [Hstored Hall]]].
    split; [rewrite Hlen, length_app; simpl; lia|].
    eexists (_ :: stored). split.
    + rewrite Hstored, Hpred, Hrec, <- app_assoc. reflexivity.
    + constructor; [eexists; reflexivity | exact Hall].
Qed.

(** X11: [generate_vals] skips no reading.  Its test [val != np.nan] holds
    of every float, so when the call returns there is one smoothed value
    and one entry of [record] per reading, each entry being the reading
    shifted by a whole number of turns; in particular a NaN reading is
    recorded as NaN. *)
Theorem generate_vals_stores_every_reading (arr : list Fl.fl)
    (jerk_std measurement_noise : Q) (filter : KalmanAngle.t) (out : list Fl.fl) :
  KalmanFitter.generate_vals arr jerk_std measurement_noise = (filter, Ok out) ->
  length out = length arr
  /\ Forall2 (fun val point => exists k : Z,
                point = Fl.add val (Fl.Fin (2 * Np.pi * inject_Z k)))
             arr (KalmanAngle.record filter)
  /\ (forall i, nth_error arr i = Some Fl.NaN ->
        nth_error (KalmanAngle.record filter) i = Some Fl.NaN).
Proof.
  unfold KalmanFitter.generate_vals. intro H.
  apply feed_records in H. destruct H as [Hlen [stored [Hrec Hall]]].
  cbn [KalmanAngle.init KalmanAngle.record app] in Hrec. rewrite Hrec.
  split; [exact Hlen|]. split; [exact Hall|].
  clear -Hall. induction Hall as [|val point arr stored [k Hk] Hall IH]; intros i Hi.
  - destruct i; discriminate.
  - destruct i as [|i]; simpl in *.
    + injection Hi as ->. now rewrite Hk.
    + now apply IH.
Qed.

(** A series with a missing reading, run with the parameters of
    [compare]. *)
Lemma generate_vals_stores_every_reading_witness :
  exists filter out,
    KalmanFitter.generate_vals [Fl.Fin (1 # 2); Fl.NaN; Fl.Fin (1 # 4)] 100 1
    = (filter, Ok out)
    /\ length out = 3%nat
    /\ nth_error (KalmanAngle.record filter) 1 = Some Fl.NaN.
Proof.
  destruct (KalmanFitter.generate_vals [Fl.Fin (1 # 2); Fl.NaN; Fl.Fin (1 # 4)] 100 1)
    as [filter [out|e]] eqn:E.
  - exists filter, out. split; [reflexivity|].
    pose proof (generate_vals_stores_every_reading _ _ _ _ _ E) as H.
    split; [exact (proj1 H) | exact (proj2 (proj2 H) 1%nat eq_refl)].
  - exfalso. revert E. vm_compute. discriminate.
Defined.

(** ** A missing reading in the estimator *)

(** *** Shapes of results *)

Section ShapeOfResults.

Context {T : Type}.
Variable zero : T.
Variables add mul : T -> T -> T.

(** A product that is returned has the rows of its left factor and the
    columns of its right factor. *)
Lemma matmul_ok_shape (m1 m2 m : list (list T)) :
  Mat.matmul zero add mul m1 m2 = Ok m ->
  Mat.has_shape (Mat.rows m1) (Mat.cols m2) m = true.
Proof.
  unfold Mat.matmul. destruct (Mat.cols m1 =? Mat.rows m2)%nat; [|discriminate].
  intro H. injection H as <-. apply has_shape_iff. split.
  - apply length_map.
  - intros row Hrow. apply in_map_iff in Hrow. destruct Hrow as [u [<- _]].
    unfold Mat.transpose. now rewrite !length_map, length_seq.
Qed.

Lemma bdim_cases (a b n : nat) :
  Mat.bdim a b = Some n -> (a = b /\ n = a) \/ (a = 1%nat /\ n = b) \/ (b = 1%nat /\ n = a).
Proof.
  unfold Mat.bdim.
  destruct (Nat.eqb_spec a b); [intro H; injection H as <-; auto|].
  destruct (Nat.eqb_spec a 1); [intro H; injection H as <-; auto|].
  destruct (Nat.eqb_spec b 1); [intro H; injection H as <-; auto | discriminate].
Qed.

Lemma stretch_length_l (X : Type) (l : list X) (b n : nat) :
  Mat.bdim (length l) b = Some n -> length (Mat.stretch n l) = n.
Proof.
  intro H. apply bdim_cases in H. destruct H as [[_ ->]|[[H ->]|[_ ->]]].
  - now rewrite stretch_same.
  - now apply stretch_one.
  - now rewrite stretch_same.
Qed.

Lemma stretch_length_r (X : Type) (l : list X) (a n : nat) :
  Mat.bdim a (length l) = Some n -> length (Mat.stretch n l) = n.
Proof.
  intro H. apply bdim_cases in H. destruct H as [[-> ->]|[[_ ->]|[H ->]]].
  - now rewrite stretch_same.
  - now rewrite stretch_same.
  - now apply stretch_one.
Qed.

Lemma stretch_In (X : Type) (n : nat) (l : list X) (x : X) :
  In x (Mat.stretch n l) -> In x l.
Proof.
  destruct l as [|y [|z l]]; cbn [Mat.stretch]; try tauto.
  intro H. apply repeat_spec in H. subst. now left.
Qed.

Lemma stretch_hd (X : Type) (n : nat) (x : X) (t : list X) :
  (1 <= n)%nat -> exists t', Mat.stretch n (x :: t) = x :: t'.
Proof.
  intro Hn. destruct t as [|y t]; cbn [Mat.stretch]; [|eauto].
  destruct n as [|n]; [lia|]. cbn [repeat]. eauto.
Qed.

(** An array that broadcasting returns has the broadcast shape. *)
Lemma broadcast_ok_shape (f : T -> T -> T) (r1 c1 r2 c2 : nat) (m1 m2 m : list (list T)) :
  Mat.broadcast f m1 m2 = Ok m ->
  Mat.has_shape r1 c1 m1 = true -> Mat.has_shape r2 c2 m2 = true ->
  (0 < r1)%nat -> (0 < r2)%nat ->
  exists r c,
    Mat.bdim r1 r2 = Some r /\ Mat.bdim c1 c2 = Some c /\ Mat.has_shape r c m = true.
Proof.
  intros H H1 H2 Hr1 Hr2.
  pose proof (cols_of_shape _ _ _ H1 Hr1) as Hc1.
  pose proof (cols_of_shape _ _ _ H2 Hr2) as Hc2.
  apply has_shape_iff in H1, H2. destruct H1 as [Hl1 Hrow1], H2 as [Hl2 Hrow2].
  unfold Mat.broadcast, Mat.rows in H. rewrite Hl1, Hl2, Hc1, Hc2 in H.
  destruct (Mat.bdim r1 r2) as [r|] eqn:Er; [|discriminate].
  destruct (Mat.bdim c1 c2) as [c|] eqn:Ec; [|discriminate].
  injection H as <-. exists r, c. split; [reflexivity|]. split; [reflexivity|].
  apply has_shape_iff. split.
  - rewrite length_map, length_combine.
    rewrite <- Hl1 in Er at 1. rewrite (stretch_length_l _ _ _ _ Er).
    rewrite <- Hl2 in Er. rewrite (stretch_length_r _ _ _ _ Er). lia.
  - intros row Hrow. apply in_map_iff in Hrow. destruct Hrow as [[u v] [<- Huv]].
    pose proof (in_combine_l _ _ _ _ Huv) as Hu.
    pose proof (in_combine_r _ _ _ _ Huv) as Hv.
    apply stretch_In in Hu, Hv. apply Hrow1 in Hu. apply Hrow2 in Hv.
    cbn [fst snd]. unfold Mat.zip_rows. rewrite length_map, length_combine.
    rewrite <- Hu in Ec at 1. rewrite (stretch_length_l _ _ _ _ Ec).
    rewrite <- Hv in Ec. rewrite (stretch_length_r _ _ _ _ Ec). lia.
Qed.

End ShapeOfResults.

Lemma eye_shape (n : nat) : Mat.has_shape n n (Mat.eye n) = true.
Proof.
  apply has_shape_iff. unfold Mat.eye. split.
  - now rewrite length_map, length_seq.
  - intros row Hrow. apply in_map_iff in Hrow. destruct Hrow as [i [<- _]].
    now rewrite length_map, length_seq.
Qed.

(** The gain that [get_prediction] computes has six rows and two
    columns. *)
Lemma gain_shape (self : Kalman_Filter.t) (k : list (list Q)) :
  Kalman_Filter.shapes_ok self = true ->
  Kalman_Filter.kalman_gain self = Ok k -> Mat.has_shape 6 2 k = true.
Proof.
  unfold Kalman_Filter.shapes_ok. rewrite !andb_true_iff.
  intros [[[[[[HA HB] HC] HP] HEx] HEz] HQ].
  unfold Kalman_Filter.kalman_gain. intro H. do 3 bind_ok H.
  apply matmul_ok_shape in H, E.
  apply has_shape_iff in HP. destruct HP as [HPl _]. unfold Mat.rows in E. rewrite HPl in E.
  apply has_shape_iff in E. destruct E as [El _]. unfold Mat.rows in H. rewrite El in H.
  assert (Hinv : Mat.cols a1 = 2%nat).
  { unfold Mat.inv in E1.
    destruct a0 as [|[|x [|y [|? ?]]] [|[|z [|w [|? ?]]] [|? ?]]]; try discriminate.
    destruct (Qeq_bool _ 0); [discriminate|]. now injection E1 as <-. }
  now rewrite Hinv in H.
Qed.

(** *** NaN in sums and products *)

Lemma add_nan_l (y : Fl.fl) : Fl.add Fl.NaN y = Fl.NaN.
Proof. reflexivity. Qed.

Lemma add_nan_r (x : Fl.fl) : Fl.add x Fl.NaN = Fl.NaN.
Proof. destruct x; reflexivity. Qed.

Lemma sub_nan_l (y : Fl.fl) : Fl.sub Fl.NaN y = Fl.NaN.
Proof. reflexivity. Qed.

Lemma sub_nan_r (x : Fl.fl) : Fl.sub x Fl.NaN = Fl.NaN.
Proof. destruct x; reflexivity. Qed.

Lemma mul_nan_r (x : Fl.fl) : Fl.mul x Fl.NaN = Fl.NaN.
Proof. destruct x; reflexivity. Qed.

Lemma fold_add_nan (l : list Fl.fl) : fold_left Fl.add l Fl.NaN = Fl.NaN.
Proof. induction l as [|x l IH]; [reflexivity | exact IH]. Qed.

(** A scalar product whose second factor starts with NaN. *)
Lemma dot_nan (a : Fl.fl) (u v : list Fl.fl) :
  Mat.dot (Fl.Fin 0) Fl.add Fl.mul (a :: u) (Fl.NaN :: v) = Fl.NaN.
Proof.
  unfold Mat.dot. cbn [combine map fold_left fst snd].
  rewrite mul_nan_r, add_nan_r. apply fold_add_nan.
Qed.

Lemma starts_with_nan_iff (m : list (list Fl.fl)) :
  KalmanFitter.starts_with_nan m = true <-> exists t rest, m = (Fl.NaN :: t) :: rest.
Proof.
  split.
  - destruct m as [|[|[| | |] t] rest]; try discriminate. eauto.
  - intros [t [rest ->]]. reflexivity.
Qed.

(** The product of an array by one that starts with NaN starts with NaN. *)
Lemma matmul_starts_with_nan (a : Fl.fl) (u : list Fl.fl) (rest m2 m : list (list Fl.fl)) :
  Mat.fmatmul ((a :: u) :: rest) m2 = Ok m ->
  KalmanFitter.starts_with_nan m2 = true ->
  KalmanFitter.starts_with_nan m = true.
Proof.
  unfold Mat.fmatmul, Mat.matmul. intros H Hnan.
  destruct (_ =? _)%nat; [|discriminate]. injection H as <-.
  apply starts_with_nan_iff in Hnan. destruct Hnan as [t [rest2 ->]].
  unfold Mat.transpose, Mat.cols. cbn [hd length seq map nth].
  now rewrite dot_nan.
Qed.

Lemma bdim_positive (a b n : nat) :
  Mat.bdim a b = Some n -> (1 <= a)%nat -> (1 <= b)%nat -> (1 <= n)%nat.
Proof. intros H Ha Hb. apply bdim_cases in H. lia. Qed.

(** Broadcasting an operation that NaN absorbs, when one operand starts
    with NaN. *)
Lemma broadcast_starts_with_nan (f : Fl.fl -> Fl.fl -> Fl.fl)
    (x y : Fl.fl) (t1 t2 : list Fl.fl) (r1 r2 m : list (list Fl.fl)) :
  Mat.broadcast f ((x :: t1) :: r1) ((y :: t2) :: r2) = Ok m ->
  f x y = Fl.NaN ->
  KalmanFitter.starts_with_nan m = true.
Proof.
  unfold Mat.broadcast, Mat.rows, Mat.cols. cbn [hd]. intros H Hf.
  destruct (Mat.bdim (length ((x :: t1) :: r1)) _) as [r|] eqn:Er; [|discriminate].
  destruct (Mat.bdim (length (x :: t1)) _) as [c|] eqn:Ec; [|discriminate].
  injection H as <-.
  apply bdim_positive in Er; [|cbn [length]; lia..].
  apply bdim_positive in Ec; [|cbn [length]; lia..].
  destruct r as [|r]; [lia|]. destruct c as [|c]; [lia|].
  destruct r1, r2; cbn [repeat combine map fst snd];
    unfold Mat.zip_rows, Mat.stretch;
    destruct t1, t2; cbn [repeat combine map fst snd]; now rewrite Hf.
Qed.

(** An array with rows and columns has a first entry. *)
Lemma shape_first (T : Type) (r c : nat) (m : list (list T)) :
  Mat.has_shape r c m = true -> (1 <= r)%nat -> (1 <= c)%nat ->
  exists x t rest, m = (x :: t) :: rest.
Proof.
  intros H Hr Hc. apply has_shape_iff in H. destruct H as [Hl Hrows].
  destruct m as [|row rest]; [simpl in Hl; lia|].
  specialize (Hrows row (or_introl eq_refl)).
  destruct row as [|x t]; [simpl in Hrows; lia|]. eauto.
Qed.

Lemma index_head (A : Type) (x : A) (l : list A) : Py.index (x :: l) 0 = Ok x.
Proof.
  unfold Py.index. cbn [length]. rewrite Nat2Z.inj_succ.
  replace (0 <? 0) with false by reflexivity.
  destruct (Z.leb_spec 0 0); [|lia].
  destruct (Z.ltb_spec 0 (Z.succ (Z.of_nat (length l)))); [reflexivity | lia].
Qed.

(** *** One step of prediction *)

Lemma predicted_state_nan (self : Kalman_Filter.t) (q : list (list Fl.fl)) :
  Kalman_Filter.shapes_ok self = true ->
  Kalman_Filter.predicted_state self = Ok q ->
  KalmanFitter.starts_with_nan (Kalman_Filter.Q_estimate self) = true ->
  KalmanFitter.starts_with_nan q = true.
Proof.
  unfold Kalman_Filter.shapes_ok. rewrite !andb_true_iff, Nat.eqb_eq.
  intros [[[[[[HA HB] HC] HP] HEx] HEz] HQ] H Hnan.
  unfold Kalman_Filter.predicted_state in H. bind_ok H.
  destruct (shape_first _ 6 6 _ (embed_shape _ _ _ HA)) as [a0 [u [rest Ha]]]; try lia.
  rewrite Ha in E. apply matmul_starts_with_nan in E; [|exact Hnan].
  apply starts_with_nan_iff in E. destruct E as [t [rest' ->]].
  destruct (Kalman_Filter.B self) as [|b B']; [discriminate HB|].
  cbn [map Mat.embed] in H.
  now apply broadcast_starts_with_nan in H.
Qed.

(** [get_prediction] keeps a running filter running. *)
Lemma get_prediction_running (self : Kalman_Filter.t) :
  KalmanFitter.running self ->
  KalmanFitter.running (fst (Kalman_Filter.get_prediction self)).
Proof.
  intros [Hshape [HK [Hcols [Htracks Hframe]]]].
  destruct (advance_state self Hshape) as [q [p [Hadv [Hq Hp]]]].
  destruct (advance_ok self Hshape) as [_ Hok]. rewrite Hadv in Hok. cbn [fst] in Hok.
  assert (Hcq : Mat.cols q = Mat.cols (Kalman_Filter.Q_estimate self))
    by (apply (cols_of_shape 6); [exact Hq | lia]).
  unfold Kalman_Filter.get_prediction. rewrite Hadv.
  destruct (Kalman_Filter.kalman_gain _) as [k|e] eqn:Hk; cbn [fst].
  - pose proof (gain_shape _ _ Hok Hk) as Hks.
    split; [exact Hok|]. split.
    + intros k' Hk'. cbn in Hk'. injection Hk' as <-. exact Hks.
    + cbn. rewrite Hcq. auto.
  - split; [exact Hok|]. split; [exact HK|]. cbn. rewrite Hcq. auto.
Qed.

(** Once the state starts with NaN, it does so after [get_prediction],
    and so does the array returned. *)
Lemma get_prediction_nan (self : Kalman_Filter.t) :
  KalmanFitter.running self ->
  KalmanFitter.starts_with_nan (Kalman_Filter.Q_estimate self) = true ->
  KalmanFitter.starts_with_nan
    (Kalman_Filter.Q_estimate (fst (Kalman_Filter.get_prediction self))) = true
  /\ forall a x,
       snd (Kalman_Filter.get_prediction self) = Ok a ->
       KalmanAngle.first_entry a = Ok x -> x = Fl.NaN.
Proof.
  intros [Hshape [HK [Hcols [Htracks Hframe]]]] Hnan.
  unfold Kalman_Filter.get_prediction, Kalman_Filter.advance.
  destruct (Kalman_Filter.predicted_state self) as [q|e] eqn:Hq; cbn [fst snd];
    [|split; [exact Hnan | discriminate]].
  pose proof (predicted_state_nan self q Hshape Hq Hnan) as Hqn.
  destruct (Kalman_Filter.predicted_covariance _) as [p|e]; cbn [fst snd];
    [|split; [exact Hqn | discriminate]].
  destruct (Kalman_Filter.kalman_gain _) as [k|e]; cbn [fst snd].
  - split; [exact Hqn|]. intros a x Ha Hx. injection Ha as <-.
    revert Hx. kf_fields. cbn [Kalman_Filter.num_tracks].
    apply starts_with_nan_iff in Hqn. destruct Hqn as [t [rest ->]].
    change 2 with (Z.of_nat 2). rewrite slice_prefix. cbn [firstn map].
    rewrite slice_prefix.
    destruct (Kalman_Filter.num_tracks self) as [|nt]; [lia|]. cbn [firstn].
    unfold Mat.ftranspose, Mat.transpose, Mat.cols. cbn [hd length seq map nth].
    unfold KalmanAngle.first_entry. rewrite index_head. cbn [bind].
    rewrite index_head. intro Hx. now injection Hx as <-.
  - split; [exact Hqn|]. intros a x Ha Hx. injection Ha as <-. discriminate Hx.
Qed.

(** *** One measurement *)

(** What [store_estimate] changes when it returns: the two logs and the
    frame counter. *)
Lemma store_estimate_ok (self self' : Kalman_Filter.t) :
  Kalman_Filter.store_estimate self = (self', Ok tt) ->
  exists logx logy,
    self' = Kalman_Filter.set_frame_num (S (Kalman_Filter.frame_num self))
              (Kalman_Filter.set_Q_loc_estimateY logy
                 (Kalman_Filter.set_Q_loc_estimateX logx self)).
Proof.
  unfold Kalman_Filter.store_estimate. intro H.
  destruct (Py.index _ 0) as [row0|e]; [|discriminate].
  destruct (Kalman_Filter.log_row _ row0 _) as [logx|e]; [|discriminate].
  destruct (Py.index _ 1) as [row1|e]; [|discriminate].
  destruct (Kalman_Filter.log_row _ row1 _) as [logy|e]; [|discriminate].
  injection H as <-. now exists logx, logy.
Qed.

(** The steps of an [add_measurement] that returns. *)
Lemma add_measurement_ok (self self' : Kalman_Filter.t) (points : list (list Fl.fl)) :
  Kalman_Filter.add_measurement points self = (self', Ok tt) ->
  exists q p logx logy,
    Kalman_Filter.corrected_state
      (Kalman_Filter.set_Q_loc_meas (Some points) self) points = Ok q
    /\ Kalman_Filter.corrected_covariance
         (Kalman_Filter.set_Q_estimate q
            (Kalman_Filter.set_Q_loc_meas (Some points) self)) = Ok p
    /\ self' = Kalman_Filter.set_frame_num (S (Kalman_Filter.frame_num self))
                 (Kalman_Filter.set_Q_loc_estimateY logy
                    (Kalman_Filter.set_Q_loc_estimateX logx
                       (Kalman_Filter.set_P p
                          (Kalman_Filter.set_Q_estimate q
                             (Kalman_Filter.set_Q_loc_meas (Some points) self))))).
Proof.
  unfold Kalman_Filter.add_measurement. intro H.
  destruct (Kalman_Filter.shape_ok self points); [|discriminate].
  destruct (Kalman_Filter.corrected_state _ points) as [q|e] eqn:Hq; [|discriminate].
  destruct (Kalman_Filter.corrected_covariance _) as [p|e] eqn:Hp; [|discriminate].
  apply store_estimate_ok in H. destruct H as [logx [logy ->]].
  exists q, p, logx, logy. auto.
Qed.

Lemma bdim_two (b n : nat) : Mat.bdim 2 b = Some n -> n = 2%nat.
Proof. intro H. apply bdim_cases in H. lia. Qed.

Lemma bdim_to_two (a n : nat) : Mat.bdim a 2 = Some n -> n = 2%nat.
Proof. intro H. apply bdim_cases in H. lia. Qed.

(** The state after a measurement of one object: six rows and two
    columns; it starts with NaN when the measurement or the state before
    does. *)
Lemma corrected_state_shape (self : Kalman_Filter.t) (points q : list (list Fl.fl)) :
  KalmanFitter.running self ->
  Mat.has_shape 1 2 points = true ->
  Kalman_Filter.corrected_state self points = Ok q ->
  Mat.has_shape 6 2 q = true
  /\ (KalmanFitter.starts_with_nan points = true
      \/ KalmanFitter.starts_with_nan (Kalman_Filter.Q_estimate self) = true ->
      KalmanFitter.starts_with_nan q = true).
Proof.
  intros [Hshape [HK [Hcols [Htracks Hframe]]]] Hpoints H.
  revert Hshape. unfold Kalman_Filter.shapes_ok. rewrite !andb_true_iff, Nat.eqb_eq.
  intros [[[[[[HA HB] HC] HP] HEx] HEz] HQ].
  unfold Kalman_Filter.corrected_state in H.
  destruct (Kalman_Filter.K self) as [k|] eqn:Ek; [|discriminate].
  specialize (HK k eq_refl).
  bind_ok H. rename a into cq, E into Hcq.
  bind_ok H. rename a into innovation, E into Hin.
  bind_ok H. rename a into correction, E into Hco.
  pose proof (matmul_ok_shape _ _ _ _ _ _ Hcq) as Hcqs.
  replace (Mat.rows (Mat.embed (Kalman_Filter.C self))) with 2%nat in Hcqs
    by (symmetry; apply (proj1 (has_shape_iff _ _ _) (embed_shape _ _ _ HC))).
  destruct (broadcast_ok_shape (Fl.Fin 0) Fl.add Fl.mul Fl.sub 1 2 2 _ _ _ _ Hin Hpoints Hcqs)
    as [r [c [Hr [Hc Hins]]]]; try lia.
  apply bdim_to_two in Hr. apply bdim_two in Hc. subst r c.
  pose proof (matmul_ok_shape _ _ _ _ _ _ Hco) as Hcos.
  replace (Mat.rows (Mat.embed k)) with 6%nat in Hcos
    by (symmetry; apply (proj1 (has_shape_iff _ _ _) (embed_shape _ _ _ HK))).
  rewrite (cols_of_shape 2 2 innovation Hins) in Hcos by lia.
  destruct (broadcast_ok_shape (Fl.Fin 0) Fl.add Fl.mul Fl.add 6 _ 6 2 _ _ _ H HQ Hcos)
    as [r [c [Hr [Hc Hqs]]]]; try lia.
  rewrite bdim_same in Hr. injection Hr as <-. apply bdim_to_two in Hc. subst c.
  split; [exact Hqs|]. intro Hnan.
  destruct (shape_first _ 1 2 _ Hpoints) as [x [tp [rp Hp]]]; try lia.
  destruct (shape_first _ 2 _ _ Hcqs) as [y [tc [rc Hc]]]; try lia.
  destruct (shape_first _ 2 6 _ (embed_shape _ _ _ HC)) as [c0 [uc [restc HC0]]]; try lia.
  assert (Hinn : KalmanFitter.starts_with_nan innovation = true).
  { rewrite Hp, Hc in Hin. apply broadcast_starts_with_nan in Hin; [exact Hin|].
    destruct Hnan as [Hnan|Hnan].
    - rewrite Hp in Hnan. destruct x; try discriminate Hnan. apply sub_nan_l.
    - rewrite HC0 in Hcq. apply matmul_starts_with_nan in Hcq; [|exact Hnan].
      rewrite Hc in Hcq. destruct y; try discriminate Hcq. apply sub_nan_r. }
  destruct (shape_first _ 6 2 _ (embed_shape _ _ _ HK)) as [k0 [uk [restk HK0]]]; try lia.
  rewrite HK0 in Hco. apply matmul_starts_with_nan in Hco; [|exact Hinn].
  apply starts_with_nan_iff in Hco. destruct Hco as [t [rest ->]].
  destruct (shape_first _ 6 _ _ HQ) as [x0 [tq [rq HQ0]]]; try lia.
  rewrite HQ0 in H. apply broadcast_starts_with_nan in H; [exact H|]. apply add_nan_r.
Qed.

Lemma corrected_covariance_shape (self : Kalman_Filter.t) (k p : list (list Q)) :
  Kalman_Filter.K self = Some k -> Mat.has_shape 6 2 k = true ->
  Mat.has_shape 2 6 (Kalman_Filter.C self) = true ->
  Mat.has_shape 6 6 (Kalman_Filter.P self) = true ->
  Kalman_Filter.corrected_covariance self = Ok p ->
  Mat.has_shape 6 6 p = true.
Proof.
  intros Ek Hk HC HP H. unfold Kalman_Filter.corrected_covariance in H. rewrite Ek in H.
  cbv beta iota in H. bind_ok H. rename a into kc, E into Hkc.
  bind_ok H. rename a into ikc, E into Hikc.
  pose proof (matmul_ok_shape _ _ _ _ _ _ Hkc) as Hkcs.
  pose proof (proj1 (has_shape_iff _ _ _) Hk) as [Hkr _].
  unfold Mat.rows in Hkcs. rewrite Hkr in Hkcs.
  rewrite (cols_of_shape 2 6 _ HC) in Hkcs by lia.
  pose proof (proj1 (has_shape_iff _ _ _) Hkcs) as [Hkcr _].
  unfold Mat.rows in Hikc. rewrite Hkcr in Hikc.
  destruct (broadcast_ok_shape 0%Q Mat.qadd Mat.qmul Mat.qsub 6 6 6 6 _ _ _
              Hikc (eye_shape 6) Hkcs) as [r [c [Hr [Hc Hs]]]]; try lia.
  rewrite bdim_same in Hr, Hc. injection Hr as <-. injection Hc as <-.
  apply matmul_ok_shape in H.
  pose proof (proj1 (has_shape_iff _ _ _) Hs) as [Hsr _].
  unfold Mat.rows in H. rewrite Hsr in H.
  now rewrite (cols_of_shape 6 6 _ HP) in H by lia.
Qed.

(** A measurement of one object keeps a running filter running, with a
    state of two columns; the state starts with NaN when the measurement
    or the state before does. *)
Lemma add_measurement_running (self self' : Kalman_Filter.t) (points : list (list Fl.fl)) :
  KalmanFitter.running self ->
  Mat.has_shape 1 2 points = true ->
  Kalman_Filter.add_measurement points self = (self', Ok tt) ->
  KalmanFitter.running self'
  /\ Mat.has_shape 6 2 (Kalman_Filter.Q_estimate self') = true
  /\ (KalmanFitter.starts_with_nan points = true
      \/ KalmanFitter.starts_with_nan (Kalman_Filter.Q_estimate self) = true ->
      KalmanFitter.starts_with_nan (Kalman_Filter.Q_estimate self') = true).
Proof.
  intros Hrun Hpoints H.
  apply add_measurement_ok in H. destruct H as [q [p [logx [logy [Hq [Hp ->]]]]]].
  assert (Hrun' : KalmanFitter.running (Kalman_Filter.set_Q_loc_meas (Some points) self))
    by exact Hrun.
  destruct (corrected_state_shape _ points q Hrun' Hpoints Hq) as [Hqs Hnan].
  destruct Hrun as [Hshape [HK [Hcols [Htracks Hframe]]]].
  revert Hshape. unfold Kalman_Filter.shapes_ok. rewrite !andb_true_iff, Nat.eqb_eq.
  intros [[[[[[HA HB] HC] HP] HEx] HEz] HQ].
  destruct (Kalman_Filter.K self) as [k|] eqn:Ek;
    [|unfold Kalman_Filter.corrected_covariance in Hp; cbn in Hp; rewrite Ek in Hp;
      discriminate].
  pose proof (corrected_covariance_shape _ k p Ek (HK k eq_refl) HC HP Hp) as Hps.
  split; [|split; [exact Hqs | exact Hnan]].
  split.
  - unfold Kalman_Filter.shapes_ok. cbn.
    rewrite HA, HC, HEx, HEz, Hps, HB.
    rewrite (cols_of_shape 6 2 q Hqs) by lia. now rewrite Hqs.
  - cbn. rewrite Ek. repeat split; auto.
    rewrite (cols_of_shape 6 2 q Hqs) by lia. lia.
Qed.

(** *** The angle estimator *)

(** [store] on a running estimator. *)
Lemma store_running (point : KalmanAngle.pyobj) (self self' : KalmanAngle.t) :
  KalmanFitter.running (KalmanAngle.filter self) ->
  KalmanAngle.store point self = (self', Ok tt) ->
  KalmanFitter.running (KalmanAngle.filter self')
  /\ (KalmanAngle.value point = Fl.NaN
      \/ KalmanFitter.starts_with_nan
           (Kalman_Filter.Q_estimate (KalmanAngle.filter self)) = true ->
      KalmanFitter.starts_with_nan
        (Kalman_Filter.Q_estimate (KalmanAngle.filter self')) = true).
Proof.
  intros Hrun H. unfold KalmanAngle.store in H.
  change (KalmanAngle.is_np_nan (KalmanAngle.np_copy point)) with false in H.
  change (KalmanAngle.value (KalmanAngle.np_copy point)) with (KalmanAngle.value point) in H.
  cbv zeta in H.
  pose proof Hrun as [_ [_ [_ [_ Hframe]]]].
  destruct (Nat.eqb_spec (Kalman_Filter.frame_num (KalmanAngle.filter self)) 0);
    [contradiction|].
  destruct (Kalman_Filter.add_measurement _ _) as [filter' r] eqn:Hadd.
  injection H as <- ->. cbn [KalmanAngle.filter].
  apply add_measurement_running in Hadd; [|exact Hrun | reflexivity].
  destruct Hadd as [Hrun' [_ Hnan]]. split; [exact Hrun'|].
  intros [Hv|Hq]; apply Hnan; [left | right; exact Hq].
  rewrite Hv. reflexivity.
Qed.

(** [predict] on a running estimator. *)
Lemma predict_running (self : KalmanAngle.t) :
  KalmanFitter.running (KalmanAngle.filter self) ->
  KalmanFitter.running (KalmanAngle.filter (fst (KalmanAngle.predict self)))
  /\ (KalmanFitter.starts_with_nan
        (Kalman_Filter.Q_estimate (KalmanAngle.filter self)) = true ->
      KalmanFitter.starts_with_nan
        (Kalman_Filter.Q_estimate (KalmanAngle.filter (fst (KalmanAngle.predict self))))
      = true
      /\ forall x, snd (KalmanAngle.predict self) = Ok x -> x = Fl.NaN).
Proof.
  intro Hrun.
  pose proof (get_prediction_running _ Hrun) as Hrun'.
  pose proof (get_prediction_nan _ Hrun) as Hnan.
  unfold KalmanAngle.predict.
  destruct (Kalman_Filter.get_prediction (KalmanAngle.filter self)) as [filter' r].
  cbn [fst snd KalmanAngle.filter] in *. split; [exact Hrun'|].
  intro Hq. destruct (Hnan Hq) as [Hq' Hout]. split; [exact Hq'|].
  intros x Hx. do 2 bind_ok Hx. rewrite (Hout a a0 eq_refl E0) in Hx.
  cbn in Hx. now injection Hx as <-.
Qed.

(** The state of a filter of one object after its starting point. *)
Lemma add_starting_points_state (self : Kalman_Filter.t) (x y : Fl.fl)
    (lx ly : list (list Fl.fl)) :
  Kalman_Filter.num_objects self = 1%nat ->
  Mat.has_shape 6 1 (Kalman_Filter.Q_estimate self) = true ->
  Kalman_Filter.Q_loc_estimateX self = Kalman_Filter.Appended lx ->
  Kalman_Filter.Q_loc_estimateY self = Kalman_Filter.Appended ly ->
  exists zeros logx logy,
    Kalman_Filter.add_starting_points [[x; y]] self
    = (Kalman_Filter.set_frame_num (S (Kalman_Filter.frame_num self))
         (Kalman_Filter.set_Q_loc_estimateY logy
            (Kalman_Filter.set_Q_loc_estimateX logx
               (Kalman_Filter.set_Q_estimate
                  [[x]; [y]; [Fl.Fin 0]; [Fl.Fin 0]; [Fl.Fin 0]; [Fl.Fin 0]]
                  (Kalman_Filter.set_Q_estimate zeros self)))),
       Ok tt).
Proof.
  intros Hn Hq Hx Hy.
  unfold Kalman_Filter.add_starting_points, Kalman_Filter.shape_ok. rewrite Hn.
  cbn [Mat.rows length Nat.eqb forallb andb].
  destruct (Kalman_Filter.Q_estimate self)
    as [|[|a [|]] [|[|b [|]] [|[|c [|]] [|[|d [|]] [|[|e [|]] [|[|f [|]] [|]]]]]]] eqn:E;
    try discriminate Hq.
  unfold Kalman_Filter.starting_state.
  cbn [Kalman_Filter.set_Q_estimate Kalman_Filter.Q_estimate map].
  change (Py.slice [[Fl.Fin 0]; [Fl.Fin 0]; [Fl.Fin 0]; [Fl.Fin 0]; [Fl.Fin 0]; [Fl.Fin 0]] 0 2)
    with [[Fl.Fin 0]; [Fl.Fin 0]].
  change (Mat.ftranspose [[x; y]]) with [[x]; [y]].
  cbn [Mat.rows Mat.cols length hd Nat.eqb orb andb Mat.stretch map skipn app repeat].
  unfold Kalman_Filter.store_estimate.
  kf_fields.
  change (Py.index [[x]; [y]; [Fl.Fin 0]; [Fl.Fin 0]; [Fl.Fin 0]; [Fl.Fin 0]] 0) with (Ok [x]).
  cbv iota. rewrite Hx. cbn [Kalman_Filter.log_row]. kf_fields.
  change (Py.index [[x]; [y]; [Fl.Fin 0]; [Fl.Fin 0]; [Fl.Fin 0]; [Fl.Fin 0]] 1) with (Ok [y]).
  cbv iota. rewrite Hy. cbn [Kalman_Filter.log_row]. kf_fields.
  do 3 eexists. reflexivity.
Qed.

(** The first [store] of a new estimator puts it in running order. *)
Lemma first_store_running (point : KalmanAngle.pyobj)
    (sampling_interval jerk jerk_std measurement_noise_x : Q) :
  exists self',
    KalmanAngle.store point
      (KalmanAngle.init None sampling_interval jerk jerk_std measurement_noise_x)
    = (self', Ok tt)
    /\ KalmanFitter.running (KalmanAngle.filter self')
    /\ (KalmanAngle.value point = Fl.NaN ->
        KalmanFitter.starts_with_nan
          (Kalman_Filter.Q_estimate (KalmanAngle.filter self')) = true).
Proof.
  unfold KalmanAngle.store.
  change (KalmanAngle.is_np_nan (KalmanAngle.np_copy point)) with false.
  change (KalmanAngle.value (KalmanAngle.np_copy point)) with (KalmanAngle.value point).
  cbv zeta.
  set (self := KalmanAngle.init None sampling_interval jerk jerk_std measurement_noise_x).
  change (Kalman_Filter.frame_num (KalmanAngle.filter self) =? 0)%nat with true.
  cbv iota.
  pose proof (init_shapes_ok 1 None sampling_interval jerk jerk_std measurement_noise_x 0)
    as Hshape.
  change (Kalman_Filter.init 1 None sampling_interval jerk jerk_std measurement_noise_x 0)
    with (KalmanAngle.filter self) in Hshape.
  match goal with
  | |- context [Kalman_Filter.add_starting_points [[?x; ?y]] ?f] =>
      destruct (add_starting_points_state f x y [] []) as [zeros [logx [logy Hadd]]];
        try reflexivity; rewrite Hadd
  end.
  eexists. split; [reflexivity|]. cbn [KalmanAngle.filter].
  revert Hshape. unfold Kalman_Filter.shapes_ok. rewrite !andb_true_iff, Nat.eqb_eq.
  intros [[[[[[HA HB] HC] HP] HEx] HEz] HQ].
  split.
  - split.
    + unfold Kalman_Filter.shapes_ok. kf_fields.
      cbn [Kalman_Filter.A Kalman_Filter.B Kalman_Filter.C Kalman_Filter.P
           Kalman_Filter.Ex Kalman_Filter.Ez Kalman_Filter.set_frame_num
           Kalman_Filter.set_Q_loc_estimateX Kalman_Filter.set_Q_loc_estimateY
           Kalman_Filter.set_Q_estimate].
      rewrite HA, HC, HEx, HEz, HP, HB. reflexivity.
    + kf_fields.
      cbn [Kalman_Filter.num_tracks Kalman_Filter.set_frame_num
           Kalman_Filter.set_Q_loc_estimateX Kalman_Filter.set_Q_loc_estimateY
           Kalman_Filter.set_Q_estimate Mat.cols hd length].
      split; [intros k Hk; discriminate Hk|].
      split; [lia|]. split; [apply Nat.le_refl | discriminate].
  - intro Hv. kf_fields. rewrite Hv. reflexivity.
Qed.

(** *** The loop over the readings *)

(** Once the state starts with NaN, every value the loop adds is NaN. *)
Lemma feed_after_nan (arr : list Fl.fl) :
  forall filter smoothed_vals filter' out,
    KalmanFitter.running (KalmanAngle.filter filter) ->
    KalmanFitter.starts_with_nan
      (Kalman_Filter.Q_estimate (KalmanAngle.filter filter)) = true ->
    KalmanFitter.feed arr filter smoothed_vals = (filter', Ok out) ->
    out = smoothed_vals ++ repeat Fl.NaN (length arr).
Proof.
  induction arr as [|val arr IH]; intros filter smoothed_vals filter' out Hrun Hnan H.
  - cbn in H. injection H as _ <-. cbn. now rewrite app_nil_r.
  - cbn [KalmanFitter.feed] in H. rewrite ne_nan in H.
    destruct (KalmanAngle.store (KalmanAngle.Float val) filter) as [f1 [[]|e]] eqn:Hstore;
      [|discriminate].
    destruct (store_running _ _ _ Hrun Hstore) as [Hrun1 Hnan1].
    specialize (Hnan1 (or_intror Hnan)).
    destruct (predict_running f1 Hrun1) as [Hrun2 Hnan2].
    destruct (Hnan2 Hnan1) as [Hnan3 Hout].
    destruct (KalmanAngle.predict f1) as [f2 [output|e]]; [|discriminate].
    cbn [fst snd] in *. rewrite (Hout output eq_refl) in H.
    rewrite (IH _ _ _ _ Hrun2 Hnan3 H), <- app_assoc. reflexivity.
Qed.

(** From a NaN reading on, every value the loop adds is NaN. *)
Lemma feed_nan (arr : list Fl.fl) :
  forall filter smoothed_vals filter' out,
    KalmanFitter.running (KalmanAngle.filter filter) ->
    KalmanFitter.feed arr filter smoothed_vals = (filter', Ok out) ->
    forall i j,
      nth_error arr i = Some Fl.NaN -> (i <= j)%nat -> (j < length arr)%nat ->
      nth_error out (length smoothed_vals + j) = Some Fl.NaN.
Proof.
  induction arr as [|val arr IH];
    intros filter smoothed_vals filter' out Hrun H i j Hi Hij Hj.
  - destruct i; discriminate.
  - cbn [KalmanFitter.feed] in H. rewrite ne_nan in H.
    destruct (KalmanAngle.store (KalmanAngle.Float val) filter) as [f1 [[]|e]] eqn:Hstore;
      [|discriminate].
    destruct (store_running _ _ _ Hrun Hstore) as [Hrun1 Hnan1].
    destruct (predict_running f1 Hrun1) as [Hrun2 Hnan2].
    destruct (KalmanAngle.predict f1) as [f2 [output|e]] eqn:Hpred; [|discriminate].
    cbn [fst snd] in *.
    destruct i as [|i].
    + cbn in Hi. injection Hi as ->.
      destruct (Hnan2 (Hnan1 (or_introl eq_refl))) as [Hnan3 Hout].
      rewrite (Hout output eq_refl) in H.
      rewrite (feed_after_nan _ _ _ _ _ Hrun2 Hnan3 H).
      rewrite <- app_assoc, nth_error_app2 by lia.
      replace (length smoothed_vals + j - length smoothed_vals)%nat with j by lia.
      change ([Fl.NaN] ++ repeat Fl.NaN (length arr))
        with (repeat Fl.NaN (S (length arr))).
      apply nth_error_repeat. exact Hj.
    + destruct j as [|j]; [lia|]. cbn in Hi, Hj.
      specialize (IH _ _ _ _ Hrun2 H i j Hi ltac:(lia) ltac:(lia)).
      rewrite length_app in IH. cbn [length] in IH.
      now replace (length smoothed_vals + S j)%nat
        with (length smoothed_vals + 1 + j)%nat by lia.
Qed.

(** X24: a missing reading is never recovered from.  [generate_vals]
    stores a NaN reading like any other (its test [val != np.nan] does not
    tell it apart), and from then on the first entry of the state of the
    filter is NaN: when the call returns, the smoothed value of that
    reading and of every reading after it is NaN, whatever those readings
    are. *)
Theorem generate_vals_nan_persists (arr : list Fl.fl) (jerk_std measurement_noise : Q)
    (filter : KalmanAngle.t) (out : list Fl.fl) (i j : nat) :
  KalmanFitter.generate_vals arr jerk_std measurement_noise = (filter, Ok out) ->
  nth_error arr i = Some Fl.NaN -> (i <= j)%nat -> (j < length arr)%nat ->
  nth_error out j = Some Fl.NaN.
Proof.
  unfold KalmanFitter.generate_vals. intros H Hi Hij Hj.
  destruct arr as [|val arr]; [destruct i; discriminate|].
  cbn [KalmanFitter.feed] in H. rewrite ne_nan in H.
  destruct (first_store_running (KalmanAngle.Float val) (1 # 30) 0 jerk_std measurement_noise)
    as [f1 [Hstore [Hrun1 Hnan1]]].
  rewrite Hstore in H.
  destruct (predict_running f1 Hrun1) as [Hrun2 Hnan2].
  destruct (KalmanAngle.predict f1) as [f2 [output|e]] eqn:Hpred; [|discriminate].
  cbn [fst snd app] in *.
  destruct i as [|i].
  - cbn in Hi. injection Hi as ->.
    destruct (Hnan2 (Hnan1 eq_refl)) as [Hnan3 Hout].
    rewrite (Hout output eq_refl) in H.
    rewrite (feed_after_nan _ _ _ _ _ Hrun2 Hnan3 H).
    change ([Fl.NaN] ++ repeat Fl.NaN (length arr)) with (repeat Fl.NaN (S (length arr))).
    apply nth_error_repeat. exact Hj.
  - destruct j as [|j]; [lia|]. cbn in Hi, Hj.
    exact (feed_nan arr f2 [output] filter out Hrun2 H i j Hi ltac:(lia) ltac:(lia)).
Qed.

(** The reading 1/4 after a missing one, with the parameters of
    [compare]. *)
Lemma generate_vals_nan_persists_witness :
  exists filter out,
    KalmanFitter.generate_vals [Fl.Fin (1 # 2); Fl.NaN; Fl.Fin (1 # 4)] 100 1
    = (filter, Ok out)
    /\ nth_error out 0 = Some (Fl.Fin (1 # 2))
    /\ nth_error out 2 = Some Fl.NaN.
Proof.
  let v := eval vm_compute in
    (KalmanFitter.generate_vals [Fl.Fin (1 # 2); Fl.NaN; Fl.Fin (1 # 4)] 100 1) in
  match v with (?f, Ok ?o) => pose (filter := f); pose (out := o) end.
  assert (H : KalmanFitter.generate_vals [Fl.Fin (1 # 2); Fl.NaN; Fl.Fin (1 # 4)] 100 1
              = (filter, Ok out)) by (vm_compute; reflexivity).
  exists filter, out. split; [exact H|]. split; [reflexivity|].
  apply (generate_vals_nan_persists [Fl.Fin (1 # 2); Fl.NaN; Fl.Fin (1 # 4)] 100 1
           filter out 1 2 H); [reflexivity | lia | simpl; lia].
Defined.

(** X25: the first measurement widens the state of a filter of one
    object.  The measurement, one row of two coordinates, is subtracted
    from [C @ Q_estimate], two rows, without being transposed, and
    broadcasting makes the difference an array of two rows and two
    columns: when [add_measurement] returns, the state has six rows and
    two columns, whatever it had before, and the filter is in running
    order for the next frame. *)
Theorem add_measurement_widens_state (self self' : Kalman_Filter.t)
    (points : list (list Fl.fl)) :
  KalmanFitter.running self ->
  Mat.has_shape 1 2 points = true ->
  Kalman_Filter.add_measurement points self = (self', Ok tt) ->
  Mat.has_shape 6 2 (Kalman_Filter.Q_estimate self') = true
  /\ Kalman_Filter.frame_num self' = S (Kalman_Filter.frame_num self)
  /\ KalmanFitter.running self'.
Proof.
  intros Hrun Hpoints H.
  destruct (add_measurement_running self self' points Hrun Hpoints H) as [Hrun' [Hq _]].
  split; [exact Hq|]. split; [|exact Hrun'].
  apply add_measurement_ok in H. destruct H as [q [p [logx [logy [_ [_ ->]]]]]].
  reflexivity.
Qed.

(** An angle estimator after [store], [predict], [store]: the state had
    one column after the first reading and has two after the second. *)
Lemma add_measurement_widens_state_witness :
  let first :=
    fst (KalmanAngle.store_then_predict (KalmanAngle.Float (Fl.Fin (1 # 2)))
           (KalmanAngle.init None (1 # 30) 0 125 5)) in
  let self := KalmanAngle.filter first in
  let points := [[Fl.Fin (1 # 4); Fl.Fin 0]] in
  exists self',
    Kalman_Filter.add_measurement points self = (self', Ok tt)
    /\ Mat.has_shape 6 1 (Kalman_Filter.Q_estimate self) = true
    /\ Mat.has_shape 6 2 (Kalman_Filter.Q_estimate self') = true.
Proof.
  intros first self points.
  let v := eval vm_compute in (Kalman_Filter.add_measurement points self) in
  match v with (?s, Ok tt) => pose (self' := s) end.
  assert (H : Kalman_Filter.add_measurement points self = (self', Ok tt))
    by (vm_compute; reflexivity).
  exists self'. split; [exact H|]. split; [vm_compute; reflexivity|].
  apply (add_measurement_widens_state self self' points); [|reflexivity | exact H].
  split; [vm_compute; reflexivity|].
  split; [intros k Hk; vm_compute in Hk; injection Hk as <-; vm_compute; reflexivity|].
  split; [vm_compute; lia|]. split; [vm_compute; lia | vm_compute; discriminate].
Defined.

(** *** The cost of a fit, lines 3998-4016 *)

Lemma fold_add_with_nan (l : list Fl.fl) (a : Fl.fl) :
  In Fl.NaN l -> fold_left Fl.add l a = Fl.NaN.
Proof.
  revert a. induction l as [|x l IH]; intros a H; [destruct H|].
  cbn [fold_left]. destruct H as [->|H].
  - rewrite add_nan_r. apply fold_add_nan.
  - now apply IH.
Qed.

Lemma combine_In_l (A B : Type) (x : A) (l1 : list A) (l2 : list B) :
  In x l1 -> (length l1 <= length l2)%nat -> exists y, In (x, y) (combine l1 l2).
Proof.
  revert l2. induction l1 as [|a l1 IH]; intros l2 H Hlen; [destruct H|].
  destruct l2 as [|b l2]; [simpl in Hlen; lia|].
  destruct H as [->|H].
  - exists b. now left.
  - destruct (IH l2 H) as [y Hy]; [simpl in Hlen; lia|]. exists y. now right.
Qed.

(** The sum of squared differences is NaN as soon as a reading is. *)
Lemma error_nan (arr modelled_vals : list Fl.fl) :
  In Fl.NaN arr -> (length arr <= length modelled_vals)%nat ->
  KalmanFitter.error arr modelled_vals = Fl.NaN.
Proof.
  intros H Hlen. unfold KalmanFitter.error. apply fold_add_with_nan.
  destruct (combine_In_l _ _ _ _ modelled_vals H Hlen) as [y Hy].
  apply in_map_iff. exists (Fl.NaN, y). split; [reflexivity | exact Hy].
Qed.

(** X27: one missing reading makes the cost of every fit NaN.  Whenever
    [compare] returns on a series that holds a NaN reading, it returns
    NaN, whatever the jerk deviation tried, having added the modelled
    values to [results]: the optimiser of [fit] has nothing to compare. *)
Theorem compare_nan (arr : list Fl.fl) (results results' : list (list Fl.fl))
    (jerk_std : Q) (filter : KalmanAngle.t) (cost : Fl.fl) :
  KalmanFitter.compare arr results jerk_std = (filter, results', Ok cost) ->
  In Fl.NaN arr ->
  cost = Fl.NaN /\ length results' = S (length results).
Proof.
  unfold KalmanFitter.compare. cbv zeta. intros H Hnan.
  destruct (KalmanFitter.generate_vals arr jerk_std 1) as [f [m|e]] eqn:Hgen;
    [|discriminate].
  injection H as _ <- <-.
  unfold KalmanFitter.generate_vals in Hgen. apply feed_records in Hgen.
  destruct Hgen as [Hlen _]. cbn [length] in Hlen.
  split; [apply error_nan; [exact Hnan | lia]|].
  rewrite length_app. cbn [length]. lia.
Qed.

Lemma compare_nan_witness :
  exists filter results',
    KalmanFitter.compare [Fl.Fin (1 # 2); Fl.NaN; Fl.Fin (1 # 4)] [] 100
    = (filter, results', Ok Fl.NaN)
    /\ length results' = 1%nat.
Proof.
  let v := eval vm_compute in
    (KalmanFitter.compare [Fl.Fin (1 # 2); Fl.NaN; Fl.Fin (1 # 4)] [] 100) in
  match v with (?f, ?r, Ok ?c) => pose (filter := f); pose (results' := r); pose (cost := c) end.
  assert (H : KalmanFitter.compare [Fl.Fin (1 # 2); Fl.NaN; Fl.Fin (1 # 4)] [] 100
              = (filter, results', Ok cost)) by (vm_compute; reflexivity).
  destruct (compare_nan _ _ _ _ _ _ H) as [Hc Hl]; [right; left; reflexivity|].
  exists filter, results'. split; [rewrite <- Hc; exact H | exact Hl].
Defined.

(** ** Bout statistics, lines 4043-4095 *)

(** [l[:-1]] and [l[1:]] *)
Lemma slice_init (A : Type) (l : list A) :
  Py.slice l 0 (-1) = removelast l.
Proof.
  unfold Py.slice, Py.slice_bound.
  replace (0 <? 0) with false by reflexivity.
  replace (-1 <? 0) with true by reflexivity.
  replace (Z.max 0 (Z.min (Z.of_nat (length l)) 0)) with 0 by lia.
  rewrite Z.sub_0_r. cbn [Z.to_nat skipn].
  destruct l as [|x l]; [reflexivity|].
  replace (Z.to_nat (Z.max 0 (Z.min (Z.of_nat (length (x :: l)))
                                     (-1 + Z.of_nat (length (x :: l))))))
    with (length l) by (cbn [length]; lia).
  revert x. induction l as [|y l IH]; intro x; [reflexivity|].
  cbn [length firstn]. rewrite (IH y). reflexivity.
Qed.

Lemma slice_tail (A : Type) (l : list A) :
  Py.slice l 1 (Z.of_nat (length l)) = tl l.
Proof.
  unfold Py.slice, Py.slice_bound.
  replace (1 <? 0) with false by reflexivity.
  destruct (Z.ltb_spec (Z.of_nat (length l)) 0); [lia|].
  destruct l as [|x l]; [reflexivity|].
  replace (Z.to_nat (Z.max 0 (Z.min (Z.of_nat (length (x :: l))) 1))) with 1%nat
    by (cbn [length]; lia).
  cbn [skipn tl].
  replace (Z.to_nat _) with (length l) by (cbn [length]; lia).
  apply firstn_all.
Qed.

Lemma intervals_eq (framerate : Fl.fl) (l : list Saccade.t) :
  BoutStats.intervals framerate l
  = map (fun p => Fl.div (Fl.Fin (inject_Z (snd p - fst p))) framerate)
        (combine (removelast (map Saccade.stop l)) (tl (map Saccade.start l))).
Proof.
  unfold BoutStats.intervals.
  rewrite <- (length_map Saccade.start l), slice_init, slice_tail. reflexivity.
Qed.

(** The inter-saccade intervals pair each Saccade with the next one. *)
Lemma intervals_cons (framerate : Fl.fl) (a b : Saccade.t) (l : list Saccade.t) :
  BoutStats.intervals framerate (a :: b :: l)
  = Fl.div (Fl.Fin (inject_Z (Saccade.start b - Saccade.stop a))) framerate
    :: BoutStats.intervals framerate (b :: l).
Proof.
  rewrite !intervals_eq. reflexivity.
Qed.

Lemma intervals_short (framerate : Fl.fl) (l : list Saccade.t) :
  (length l <= 1)%nat -> BoutStats.intervals framerate l = [].
Proof.
  intro H. rewrite intervals_eq.
  destruct l as [|a [|b l]]; [reflexivity | reflexivity | simpl in H; lia].
Qed.

Lemma intervals_length (framerate : Fl.fl) (l : list Saccade.t) :
  length (BoutStats.intervals framerate l) = pred (length l).
Proof.
  destruct l as [|a l]; [reflexivity|]. revert a.
  induction l as [|b l IH]; intro a; [reflexivity|].
  rewrite intervals_cons. cbn [length]. rewrite (IH b). reflexivity.
Qed.

Lemma intervals_positive (f : Q) (l : list Saccade.t) :
  (0 < f)%Q ->
  StronglySorted (fun a b => Saccade.stop a < Saccade.start b) l ->
  Forall (fun interval => exists q, interval = Fl.Fin q /\ (0 < q)%Q)
         (BoutStats.intervals (Fl.Fin f) l).
Proof.
  intros Hf Hs. destruct l as [|a l]; [constructor|]. revert a Hs.
  induction l as [|b l IH]; intros a Hs; [constructor|].
  rewrite intervals_cons. inversion Hs as [|? ? Hs' Ha]; subst.
  constructor; [|now apply IH].
  inversion Ha as [|? ? Hab _]; subst.
  cbn [Fl.div].
  assert (Hne : Qeq_bool f 0 = false).
  { destruct (Qeq_bool f 0) eqn:E; [|reflexivity].
    apply Qeq_bool_iff in E. rewrite E in Hf. discriminate. }
  rewrite Hne. eexists. split; [reflexivity|]. rewrite Qred_correct.
  apply Qlt_shift_div_l; [exact Hf|]. rewrite Qmult_0_l.
  change 0%Q with (inject_Z 0). rewrite <- Zlt_Qlt. lia.
Qed.

(** What [get_stats] keeps of the Saccades it is given. *)
Lemma get_stats_fields (np_sqrt : Q -> Q) (self : BoutStats.bout)
    (found : list Saccade.t) (process_saccades : result (list Saccade.t))
    (st : BoutStats.stats) :
  BoutStats.get_stats np_sqrt self (Some found) process_saccades = Ok st ->
  BoutStats.saccades st = found
  /\ BoutStats.inter_saccade_intervals st
     = BoutStats.intervals (BoutStats.framerate self) found
  /\ (BoutStats.saccading_left st, BoutStats.saccading_right st)
     = BoutStats.indicators (length (BoutStats.arr self)) found
         (map (fun v => Np.Qltb 0 v) (map Saccade.peak_velocity found)).
Proof.
  unfold BoutStats.get_stats. cbn [bind]. intro H. repeat bind_ok H.
  destruct (BoutStats.indicators _ _ _) as [l r]. injection H as <-.
  cbn. auto.
Qed.

(** X12: when the candidates have forward frame ranges, come in frame
    order and form no chains of overlap, the Saccades that overlap
    resolution retains give strictly positive inter-saccade intervals, one
    fewer than the Saccades, for every finite positive frame rate. *)
Theorem inter_saccade_intervals_positive (np_sqrt : Q -> Q) (self : BoutStats.bout)
    (l out : list Saccade.t) (process_saccades : result (list Saccade.t))
    (st : BoutStats.stats) (f : Q) :
  Bout.well_formed l = true -> Bout.in_frame_order l = true ->
  Bout.overlap_transitive l = true ->
  Bout.resolve_overlaps l = Some out ->
  BoutStats.framerate self = Fl.Fin f -> (0 < f)%Q ->
  BoutStats.get_stats np_sqrt self (Some out) process_saccades = Ok st ->
  length (BoutStats.inter_saccade_intervals st) = pred (length out)
  /\ Forall (fun interval => exists q, interval = Fl.Fin q /\ (0 < q)%Q)
            (BoutStats.inter_saccade_intervals st).
Proof.
  intros Hwf Hord Htr Hout Hfr Hf Hst.
  destruct (get_stats_fields _ _ _ _ _ Hst) as [_ [-> _]].
  split; [apply intervals_length|]. rewrite Hfr.
  apply intervals_positive; [exact Hf|].
  exact (resolve_overlaps_separated l Hwf Hord (overlap_transitive_on l Htr) out Hout).
Qed.


(** A bout of 70 frames at 60 frames/s with the candidates [10,40],
    [15,25] and [50,60]: one interval, of 10 frames. *)
Lemma inter_saccade_intervals_positive_witness :
  let l := [Bout.candidate 60 10 40; Bout.candidate 60 15 25; Bout.candidate 60 50 60] in
  exists self out st,
    BoutStats.init (Known.flat_series 70)
                   (map (fun i => inject_Z i / 60)%Q (Py.range 70)) = Ok self
    /\ Bout.resolve_overlaps l = Some out
    /\ BoutStats.get_stats Known.sqrt self (Some out) (Raise ValueError) = Ok st
    /\ length (BoutStats.inter_saccade_intervals st) = pred (length out)
    /\ Forall (fun interval => exists q, interval = Fl.Fin q /\ (0 < q)%Q)
              (BoutStats.inter_saccade_intervals st).
Proof.
  intro l.
  let v := eval vm_compute in
    (BoutStats.init (Known.flat_series 70)
                    (map (fun i => inject_Z i / 60)%Q (Py.range 70))) in
  match v with Ok ?s => pose (self := s) end.
  pose (out := [Bout.candidate 60 10 40; Bout.candidate 60 50 60]).
  let v := eval vm_compute in
    (BoutStats.get_stats Known.sqrt self (Some out) (Raise ValueError)) in
  match v with Ok ?s => pose (st := s) end.
  assert (Hself : BoutStats.init (Known.flat_series 70)
                    (map (fun i => inject_Z i / 60)%Q (Py.range 70)) = Ok self)
    by (vm_compute; reflexivity).
  assert (Hout : Bout.resolve_overlaps l = Some out) by (vm_compute; reflexivity).
  assert (Hst : BoutStats.get_stats Known.sqrt self (Some out) (Raise ValueError) = Ok st)
    by (vm_compute; reflexivity).
  exists self, out, st.
  split; [exact Hself|]. split; [exact Hout|]. split; [exact Hst|].
  apply (inter_saccade_intervals_positive Known.sqrt self l out (Raise ValueError) st 60);
    solve [assumption | vm_compute; reflexivity].
Defined.

Lemma index_nat (A : Type) (l : list A) (i : nat) :
  (i < length l)%nat -> exists x, Py.index l (Z.of_nat i) = Ok x.
Proof.
  intro H. unfold Py.index.
  destruct (Z.ltb_spec (Z.of_nat i) 0); [lia|].
  destruct (Z.leb_spec 0 (Z.of_nat i)); [|lia].
  destruct (Z.ltb_spec (Z.of_nat i) (Z.of_nat (length l))); [|lia].
  cbn [andb]. rewrite Nat2Z.id.
  destruct (nth_error l i) as [x|] eqn:E; [now exists x|].
  apply nth_error_None in E. lia.
Qed.

Lemma argmax_bound (l : list Q) (r : nat) :
  Np.argmax l = Ok r -> (r < length l)%nat.
Proof.
  destruct l as [|x l]; [discriminate|]. cbn [Np.argmax]. intro H. injection H as <-.
  destruct (argmax_from_max 0%Q l [x] 0 x) as [Hlt _]; simpl; auto.
  intros y [<-|[]]. apply Qle_refl.
Qed.

(** The steps of [get_stats] that read the heading succeed on two samples
    or more. *)
Lemma get_stats_heading (arr : list Q) :
  (2 <= length arr)%nat ->
  exists first frame extreme velocity,
    Py.index arr 0 = Ok first
    /\ Np.argmax (map (fun x => Qabs (x - first)) arr) = Ok frame
    /\ Py.index arr (Z.of_nat frame) = Ok extreme
    /\ Np.gradient arr = Ok velocity.
Proof.
  intro H.
  assert (Hne : arr <> []) by (destruct arr; [simpl in H; lia | discriminate]).
  destruct (index_first Q arr Hne) as [first Hfirst].
  destruct (Np.argmax (map (fun x => Qabs (x - first)) arr)) as [frame|e] eqn:Hframe.
  - pose proof (argmax_bound _ _ Hframe) as Hb. rewrite length_map in Hb.
    destruct (index_nat Q arr frame Hb) as [extreme Hextreme].
    destruct arr as [|a [|b rest]]; try (simpl in H; lia).
    exists first, frame, extreme. eexists. repeat split; eassumption.
  - destruct arr; [simpl in H; lia | discriminate].
Qed.

(** X13: [get_stats] on too short a heading, and on a bout without
    Saccades.  Whatever the Saccades, it raises IndexError on an empty
    heading and ValueError on a single sample, and returns on two samples
    or more.  Without Saccades it raises nothing either: there is no
    interval, the means and standard deviations over the Saccades are
    NaN (the mean interval, and the mean and the standard deviation of
    the durations, of the amplitudes and of the peak velocities), both
    indicator series are zero throughout, and the saccade frequency is 0,
    or NaN when the bout has duration 0. *)
Theorem get_stats_without_saccades (np_sqrt : Q -> Q) (self : BoutStats.bout)
    (process_saccades : result (list Saccade.t)) :
  match BoutStats.arr self with
  | [] =>
      forall found,
        BoutStats.get_stats np_sqrt self (Some found) process_saccades = Raise IndexError
  | [_] =>
      forall found,
        BoutStats.get_stats np_sqrt self (Some found) process_saccades = Raise ValueError
  | _ :: _ :: _ =>
      (forall found, exists st,
         BoutStats.get_stats np_sqrt self (Some found) process_saccades = Ok st)
      /\ exists st,
           BoutStats.get_stats np_sqrt self (Some []) process_saccades = Ok st
           /\ BoutStats.inter_saccade_intervals st = []
           /\ BoutStats.inter_saccade_interval st = Fl.NaN
           /\ BoutStats.saccade_duration_avg st = Fl.NaN
           /\ BoutStats.saccade_duration_std st = Fl.NaN
           /\ BoutStats.saccade_amps_avg st = Fl.NaN
           /\ BoutStats.saccade_amps_std st = Fl.NaN
           /\ BoutStats.saccade_peak_velo_avg st = Fl.NaN
           /\ BoutStats.saccade_peak_velo_std st = Fl.NaN
           /\ BoutStats.saccading_left st = repeat 0%Q (length (BoutStats.arr self))
           /\ BoutStats.saccading_right st = repeat 0%Q (length (BoutStats.arr self))
           /\ BoutStats.saccade_frequency st
              = if Qeq_bool (BoutStats.duration self) 0 then Fl.NaN else Fl.Fin 0
  end.
Proof.
  destruct (BoutStats.arr self) as [|a [|b rest]] eqn:Harr.
  - intro found. unfold BoutStats.get_stats. rewrite Harr. reflexivity.
  - intro found. unfold BoutStats.get_stats. rewrite Harr. reflexivity.
  - destruct (get_stats_heading (a :: b :: rest)) as [first [frame [extreme [velocity H]]]];
      [simpl; lia|].
    destruct H as [H1 [H2 [H3 H4]]].
    assert (Hrun : forall found,
              BoutStats.get_stats np_sqrt self (Some found) process_saccades
              = let '(saccading_left, saccading_right) :=
                  BoutStats.indicators (length (a :: b :: rest)) found
                    (map (fun v => Np.Qltb 0 v) (map Saccade.peak_velocity found)) in
                Ok {| BoutStats.saccades := found;
                      BoutStats.extreme_frame := frame;
                      BoutStats.total_angle := (extreme - first)%Q;
                      BoutStats.velocity := velocity;
                      BoutStats.velocitsy_avg := Np.nanmean velocity;
                      BoutStats.velocity_std := Saccade.nanstd np_sqrt velocity;
                      BoutStats.inter_saccade_intervals :=
                        BoutStats.intervals (BoutStats.framerate self) found;
                      BoutStats.inter_saccade_interval :=
                        BoutStats.mean_fl (BoutStats.intervals (BoutStats.framerate self) found);
                      BoutStats.saccade_frequency :=
                        Fl.div (Fl.Fin (inject_Z (Z.of_nat (length found))))
                               (Fl.Fin (BoutStats.duration self));
                      BoutStats.saccade_durations := map Saccade.duration found;
                      BoutStats.saccade_duration_avg :=
                        BoutStats.mean (map Saccade.duration found);
                      BoutStats.saccade_duration_std :=
                        BoutStats.std np_sqrt (map Saccade.duration found);
                      BoutStats.saccade_amps := map Saccade.amplitude found;
                      BoutStats.saccade_amps_avg :=
                        BoutStats.mean (map Saccade.amplitude found);
                      BoutStats.saccade_amps_std :=
                        BoutStats.std np_sqrt (map Saccade.amplitude found);
                      BoutStats.saccade_peak_velo := map Saccade.peak_velocity found;
                      BoutStats.saccade_peak_velo_avg :=
                        BoutStats.mean (map Saccade.peak_velocity found);
                      BoutStats.saccade_peak_velo_std :=
                        BoutStats.std np_sqrt (map Saccade.peak_velocity found);
                      BoutStats.saccade_is_left :=
                        map (fun v => Np.Qltb 0 v) (map Saccade.peak_velocity found);
                      BoutStats.saccading_left := saccading_left;
                      BoutStats.saccading_right := saccading_right |}).
    { intro found. unfold BoutStats.get_stats. rewrite Harr.
      cbn [bind]. rewrite H1. cbn [bind]. rewrite H2. cbn [bind].
      rewrite H3. cbn [bind]. rewrite H4. cbn [bind]. reflexivity. }
    split.
    + intro found. rewrite Hrun. destruct (BoutStats.indicators _ _ _). eauto.
    + rewrite Hrun. cbn [map BoutStats.indicators combine fold_left].
      eexists. split; [reflexivity|].
      cbn [BoutStats.inter_saccade_intervals BoutStats.inter_saccade_interval
           BoutStats.saccade_duration_avg BoutStats.saccade_duration_std
           BoutStats.saccade_amps_avg BoutStats.saccade_amps_std
           BoutStats.saccade_peak_velo_avg BoutStats.saccade_peak_velo_std
           BoutStats.saccading_left BoutStats.saccading_right
           BoutStats.saccade_frequency BoutStats.mean BoutStats.std].
      rewrite intervals_short by (simpl; lia).
      repeat split.
Qed.

(** *** Slice assignment *)

Lemma nth_error_indexed (A B : Type) (f : Z * A -> B) (l : list A) :
  forall k i,
    nth_error (map f (combine (map Z.of_nat (seq k (length l))) l)) i
    = option_map (fun x => f (Z.of_nat (k + i), x)) (nth_error l i).
Proof.
  induction l as [|x l IH]; intros k i.
  - destruct i; reflexivity.
  - destruct i as [|i]; cbn [length seq map combine nth_error option_map].
    + now rewrite Nat.add_0_r.
    + rewrite IH. now rewrite Nat.add_succ_r.
Qed.

Lemma set_slice_length (A : Type) (l : list A) (a b : Z) (v : A) :
  length (Py.set_slice l a b v) = length l.
Proof.
  unfold Py.set_slice, Py.range.
  rewrite length_map, length_combine, length_map, length_seq. lia.
Qed.

(** After [l[a:b] = v] the element of index [i] is [v] inside the slice
    and what it was outside. *)
Lemma set_slice_nth (A : Type) (l : list A) (a b : Z) (v : A) (i : nat) :
  nth_error (Py.set_slice l a b v) i
  = option_map
      (fun x => if Py.in_range (Z.of_nat i)
                     (Py.slice_bound (Z.of_nat (length l)) a)
                     (Py.slice_bound (Z.of_nat (length l)) b)
                then v else x)
      (nth_error l i).
Proof.
  unfold Py.set_slice, Py.range. cbv zeta. rewrite nth_error_indexed. reflexivity.
Qed.

(** The two indicator series after the loop of lines 4093-4095, from any
    two series of [n] frames. *)
Lemma indicators_fold (n : nat) (saccades : list Saccade.t) :
  forall left right : list Q,
    length left = n -> length right = n ->
    let covered s i :=
      Py.in_range (Z.of_nat i) (Py.slice_bound (Z.of_nat n) (Saccade.start s))
                               (Py.slice_bound (Z.of_nat n) (Saccade.stop s)) in
    let is_left s := Np.Qltb 0 (Saccade.peak_velocity s) in
    let '(left', right') :=
      fold_left
        (fun storage p =>
           let '(saccading_left, saccading_right) := storage in
           let '(saccade, is_left) := p in
           if is_left : bool
           then (saccading_left,
                 Py.set_slice saccading_right (Saccade.start saccade)
                              (Saccade.stop saccade) 1%Q)
           else (Py.set_slice saccading_left (Saccade.start saccade)
                              (Saccade.stop saccade) 1%Q,
                 saccading_right))
        (combine saccades (map is_left saccades)) (left, right) in
    length left' = n /\ length right' = n
    /\ forall i,
         nth_error right' i
         = option_map (fun x => if existsb (fun s => is_left s && covered s i) saccades
                                then 1%Q else x) (nth_error right i)
         /\ nth_error left' i
            = option_map (fun x => if existsb (fun s => negb (is_left s) && covered s i)
                                        saccades
                                   then 1%Q else x) (nth_error left i).
Proof.
  induction saccades as [|s saccades IH]; intros left right Hl Hr covered is_left.
  - cbn [map combine fold_left existsb]. repeat split; try assumption.
    + now destruct (nth_error right i).
    + now destruct (nth_error left i).
  - cbn [map combine fold_left]. destruct (is_left s) eqn:Es.
    + specialize (IH left (Py.set_slice right (Saccade.start s) (Saccade.stop s) 1%Q) Hl).
      rewrite set_slice_length in IH. specialize (IH Hr). cbv zeta in IH.
      fold is_left in IH.
      destruct (fold_left _ _ _) as [left' right'].
      destruct IH as [Hl' [Hr' IH]]. split; [exact Hl'|]. split; [exact Hr'|].
      intro i. destruct (IH i) as [IHr IHl]. rewrite IHr, IHl, set_slice_nth, Hr.
      cbn [existsb]. rewrite Es. cbn [andb negb orb]. fold (covered s i).
      split; [|reflexivity].
      destruct (nth_error right i); [|reflexivity]. cbn [option_map].
      destruct (covered s i); cbn [orb]; [|reflexivity].
      match goal with |- context [if ?c then _ else _] => now destruct c end.
    + specialize (IH (Py.set_slice left (Saccade.start s) (Saccade.stop s) 1%Q) right).
      rewrite set_slice_length in IH. specialize (IH Hl Hr). cbv zeta in IH.
      fold is_left in IH.
      destruct (fold_left _ _ _) as [left' right'].
      destruct IH as [Hl' [Hr' IH]]. split; [exact Hl'|]. split; [exact Hr'|].
      intro i. destruct (IH i) as [IHr IHl]. rewrite IHr, IHl, set_slice_nth, Hl.
      cbn [existsb]. rewrite Es. cbn [andb negb orb]. fold (covered s i).
      split; [reflexivity|].
      destruct (nth_error left i); [|reflexivity]. cbn [option_map].
      destruct (covered s i); cbn [orb]; [|reflexivity].
      match goal with |- context [if ?c then _ else _] => now destruct c end.
Qed.

(** X14: the indicator series of [get_stats].  Both have one entry per
    frame of the heading.  A frame of [saccading_right] is 1 exactly when
    it lies in the slice [start:stop] of a Saccade of positive peak
    velocity, the ones [saccade_is_left] flags, and a frame of
    [saccading_left] exactly when it lies in the slice of a Saccade whose
    peak velocity is not positive; every other frame is 0. *)
Theorem indicator_series (np_sqrt : Q -> Q) (self : BoutStats.bout)
    (found : list Saccade.t) (process_saccades : result (list Saccade.t))
    (st : BoutStats.stats) :
  BoutStats.get_stats np_sqrt self (Some found) process_saccades = Ok st ->
  let n := length (BoutStats.arr self) in
  let covered s i :=
    Py.in_range (Z.of_nat i) (Py.slice_bound (Z.of_nat n) (Saccade.start s))
                             (Py.slice_bound (Z.of_nat n) (Saccade.stop s)) in
  let is_left s := Np.Qltb 0 (Saccade.peak_velocity s) in
  BoutStats.saccade_is_left st = map is_left found
  /\ length (BoutStats.saccading_left st) = n
  /\ length (BoutStats.saccading_right st) = n
  /\ forall i, (i < n)%nat ->
       nth_error (BoutStats.saccading_right st) i
       = Some (if existsb (fun s => is_left s && covered s i) found then 1%Q else 0%Q)
       /\ nth_error (BoutStats.saccading_left st) i
          = Some (if existsb (fun s => negb (is_left s) && covered s i) found
                  then 1%Q else 0%Q).
Proof.
  intros Hst n covered is_left.
  assert (His : BoutStats.saccade_is_left st = map is_left found).
  { revert Hst. unfold BoutStats.get_stats. cbn [bind]. intro H. repeat bind_ok H.
    destruct (BoutStats.indicators _ _ _). injection H as <-.
    cbn [BoutStats.saccade_is_left]. apply map_map. }
  destruct (get_stats_fields _ _ _ _ _ Hst) as [_ [_ Hind]].
  unfold BoutStats.indicators in Hind. rewrite map_map in Hind.
  pose proof (indicators_fold n found (repeat 0%Q n) (repeat 0%Q n)
                (repeat_length _ _) (repeat_length _ _)) as H.
  cbv zeta in H. fold n in Hind. rewrite <- Hind in H.
  destruct H as [Hl [Hr H]].
  split; [exact His|]. split; [exact Hl|]. split; [exact Hr|].
  intros i Hi. destruct (H i) as [H1 H2]. rewrite H1, H2.
  rewrite (nth_error_repeat 0%Q Hi). split; reflexivity.
Qed.

Lemma get_stats_returns (np_sqrt : Q -> Q) (self : BoutStats.bout)
    (found : list Saccade.t) (process_saccades : result (list Saccade.t)) :
  (2 <= length (BoutStats.arr self))%nat ->
  exists st, BoutStats.get_stats np_sqrt self (Some found) process_saccades = Ok st.
Proof.
  intro H. destruct (get_stats_heading _ H) as [first [frame [extreme [velocity Hs]]]].
  destruct Hs as [H1 [H2 [H3 H4]]].
  unfold BoutStats.get_stats. cbn [bind]. rewrite H1. cbn [bind]. rewrite H2. cbn [bind].
  rewrite H3. cbn [bind]. rewrite H4. cbn [bind].
  destruct (BoutStats.indicators _ _ _). eauto.
Qed.

(** A steady turn to positive angles, with one Saccade on the frames 12 to
    18: its peak velocity is positive, [saccade_is_left] flags it, and
    frame 14 is marked in [saccading_right]. *)
Lemma indicator_series_witness :
  exists self found st,
    BoutStats.init (Known.ramp_series 40)
                   (map (fun i => inject_Z i / 64)%Q (Py.range 40)) = Ok self
    /\ Bout.process_saccades Known.sqrt Known.interp1d_flat
         (fun _ _ _ => Ok [(12, 18)]%Q) (Known.ramp_series 40) 64 350 (1, 30)%Q
         true false true = Some (Ok found)
    /\ BoutStats.get_stats Known.sqrt self (Some found) (Raise ValueError) = Ok st
    /\ map Saccade.peak_velocity found = [1024 # 128]%Q
    /\ BoutStats.saccade_is_left st = [true]
    /\ nth_error (BoutStats.saccading_right st) 14 = Some 1%Q
    /\ nth_error (BoutStats.saccading_left st) 14 = Some 0%Q.
Proof.
  let v := eval vm_compute in
    (BoutStats.init (Known.ramp_series 40)
                    (map (fun i => inject_Z i / 64)%Q (Py.range 40))) in
  match v with Ok ?s => pose (self := s) end.
  let v := eval vm_compute in
    (Bout.process_saccades Known.sqrt Known.interp1d_flat
       (fun _ _ _ => Ok [(12, 18)]%Q) (Known.ramp_series 40) 64 350 (1, 30)%Q
       true false true) in
  match v with Some (Ok ?l) => pose (found := l) end.
  destruct (get_stats_returns Known.sqrt self found (Raise ValueError)) as [st Hst];
    [vm_compute; lia|].
  exists self, found, st.
  split; [vm_compute; reflexivity|]. split; [vm_compute; reflexivity|].
  split; [exact Hst|]. split; [vm_compute; reflexivity|].
  pose proof (indicator_series Known.sqrt self found (Raise ValueError) st Hst) as H.
  cbv zeta in H. destruct H as [His [_ [_ H]]].
  specialize (H 14%nat ltac:(vm_compute; lia)).
  vm_compute in His. vm_compute in H.
  split; [exact His|]. exact H.
Defined.

(** ** Taking the saccades out of a heading, lines 3698-3746 *)

Lemma diff_from_nth (prev : Q) (l : list Q) (i : nat) (a b : Q) :
  nth_error (prev :: l) i = Some a -> nth_error (prev :: l) (S i) = Some b ->
  nth_error (Np.diff_from prev l) i = Some (b - a)%Q.
Proof.
  revert prev i. induction l as [|x l IH]; intros prev i Ha Hb.
  - destruct i; discriminate.
  - destruct i as [|i]; cbn in *.
    + now injection Ha as <-; injection Hb as <-.
    + now apply IH.
Qed.

Lemma diff_from_length (prev : Q) (l : list Q) :
  length (Np.diff_from prev l) = length l.
Proof. revert prev. induction l as [|x l IH]; intro prev; simpl; [|rewrite IH]; reflexivity. Qed.

Lemma cumsum_from_length (acc : Q) (l : list Q) :
  length (Np.cumsum_from acc l) = length l.
Proof. revert acc. induction l as [|x l IH]; intro acc; simpl; [|rewrite IH]; reflexivity. Qed.

Lemma cumsum_length (l : list Q) : length (Np.cumsum l) = length l.
Proof. destruct l; simpl; [|rewrite cumsum_from_length]; reflexivity. Qed.

Lemma cumsum_from_step (acc : Q) (l : list Q) (i : nat) (v : Q) :
  nth_error l i = Some v ->
  exists x y,
    nth_error (acc :: Np.cumsum_from acc l) i = Some x
    /\ nth_error (Np.cumsum_from acc l) i = Some y
    /\ y = (x + v)%Q.
Proof.
  revert acc i. induction l as [|w l IH]; intros acc i H.
  - destruct i; discriminate.
  - destruct i as [|i]; cbn in H.
    + injection H as <-. exists acc, (acc + w)%Q. auto.
    + destruct (IH (acc + w)%Q i H) as [x [y [Hx [Hy Hxy]]]].
      exists x, y. auto.
Qed.

(** Each entry of [np.cumsum] is the entry before it plus the summand. *)
Lemma cumsum_step (l : list Q) (i : nat) (v : Q) :
  nth_error l (S i) = Some v ->
  exists x y,
    nth_error (Np.cumsum l) i = Some x
    /\ nth_error (Np.cumsum l) (S i) = Some y
    /\ y = (x + v)%Q.
Proof.
  destruct l as [|w l]; [discriminate|]. cbn [nth_error Np.cumsum].
  apply cumsum_from_step.
Qed.

(** The velocity after the loop of line 3738 over the spans. *)
Lemma flatten_fold (spans : list (Z * Z)) :
  forall velo : list Q,
    let velo' :=
      fold_left (fun velo p => Py.set_slice velo (fst p) (snd p) 0%Q) spans velo in
    length velo' = length velo
    /\ forall i,
         nth_error velo' i
         = option_map
             (fun x =>
                if existsb (fun p => Py.in_range (Z.of_nat i)
                                       (Py.slice_bound (Z.of_nat (length velo)) (fst p))
                                       (Py.slice_bound (Z.of_nat (length velo)) (snd p)))
                           spans
                then 0%Q else x)
             (nth_error velo i).
Proof.
  induction spans as [|p spans IH]; intro velo; cbn [fold_left existsb].
  - split; [reflexivity|]. intro i. now destruct (nth_error velo i).
  - specialize (IH (Py.set_slice velo (fst p) (snd p) 0%Q)). cbv zeta in IH.
    rewrite set_slice_length in IH. destruct IH as [Hlen IH].
    split; [exact Hlen|]. intro i. rewrite IH, set_slice_nth.
    destruct (nth_error velo i); [|reflexivity]. cbn [option_map].
    destruct (Py.in_range _ _ _); cbn [orb]; [|reflexivity].
    match goal with |- context [if ?c then _ else _] => now destruct c end.
Qed.

(** X15: the heading of one bout with its saccades taken out
    ([method='zero_velocity']).  The result has the length of the heading.
    When no span is selected it is the unwrapped heading itself, offset
    included.  When one is, the result starts at 0 (the offset of the
    first sample is not added back), and from each frame to the next it
    changes by nothing when the later frame lies in a selected span
    [start:stop], and by the change of the unwrapped heading otherwise. *)
Theorem zero_velocity_increments (arr0 : list Q) (saccades : list Saccade.t)
    (min_speed max_speed : Fl.fl) (invert : bool) (out : list Q) :
  RemoveSaccades.zero_velocity arr0 saccades min_speed max_speed invert = Ok out ->
  let arr := Np.unwrap arr0 in
  let starts := fst (RemoveSaccades.spans saccades min_speed max_speed invert) in
  let stops := snd (RemoveSaccades.spans saccades min_speed max_speed invert) in
  let flattened i :=
    existsb (fun p => Py.in_range (Z.of_nat i)
                        (Py.slice_bound (Z.of_nat (length arr0)) (fst p))
                        (Py.slice_bound (Z.of_nat (length arr0)) (snd p)))
            (combine starts stops) in
  length out = length arr0
  /\ (starts = [] -> out = arr)
  /\ (starts <> [] ->
      nth_error out 0 = Some 0%Q
      /\ forall i a b,
           nth_error arr i = Some a -> nth_error arr (S i) = Some b ->
           exists x y,
             nth_error out i = Some x /\ nth_error out (S i) = Some y
             /\ y = (x + (if flattened (S i) then 0 else b - a))%Q).
Proof.
  intros H arr starts stops flattened.
  unfold RemoveSaccades.zero_velocity in H. fold arr in H. bind_ok H.
  assert (Hlen : length arr = length arr0) by apply unwrap_length.
  destruct (RemoveSaccades.spans saccades min_speed max_speed invert) as [sts sps] eqn:Esp.
  cbn [fst snd] in starts, stops. subst starts stops.
  destruct arr as [|a0 rest] eqn:Earr; [discriminate|].
  assert (Hvl : length (0%Q :: Np.diff (a0 :: rest)) = length arr0).
  { cbn [length Np.diff]. rewrite diff_from_length. exact Hlen. }
  destruct sts as [|s0 sts].
  - cbn in H. injection H as <-. split; [exact Hlen|]. split; [reflexivity | congruence].
  - cbn [length Nat.ltb Nat.leb] in H. injection H as <-.
    destruct (flatten_fold (combine (s0 :: sts) sps) (0%Q :: Np.diff (a0 :: rest)))
      as [Hfl Hnth].
    rewrite Hvl in Hnth.
    set (velo' := fold_left _ _ _) in *.
    split; [rewrite cumsum_length, Hfl; exact Hvl|].
    split; [discriminate|]. intros _. split.
    + specialize (Hnth 0%nat). cbn [nth_error option_map] in Hnth.
      destruct velo' as [|v0 velo'']; [discriminate|].
      cbn [nth_error] in Hnth. cbn [Np.cumsum nth_error]. rewrite Hnth.
      match goal with |- context [if ?c then _ else _] => now destruct c end.
    + intros i u v Ha Hb.
      assert (Hd : nth_error (0%Q :: Np.diff (a0 :: rest)) (S i) = Some (v - u)%Q).
      { cbn [nth_error Np.diff]. now apply diff_from_nth. }
      specialize (Hnth (S i)). rewrite Hd in Hnth. cbn [option_map] in Hnth.
      destruct (cumsum_step velo' i _ Hnth) as [x [y [Hx [Hy Hxy]]]].
      exists x, y. fold (flattened (S i)) in Hxy. auto.
Qed.

(** A steady turn with one Saccade on the frames 12 to 18: the heading
    left starts at 0 and does not change from frame 13 to frame 14. *)
Lemma zero_velocity_increments_witness :
  exists found out,
    Bout.process_saccades Known.sqrt Known.interp1d_flat
      (fun _ _ _ => Ok [(12, 18)]%Q) (Known.ramp_series 40) 64 350 (1, 30)%Q
      true false true = Some (Ok found)
    /\ RemoveSaccades.zero_velocity (Known.ramp_series 40) found
         (Fl.Fin 350) Fl.PosInf false = Ok out
    /\ length out = 40%nat
    /\ nth_error out 0 = Some 0%Q
    /\ exists x, nth_error out 13 = Some x /\ nth_error out 14 = Some (x + 0)%Q.
Proof.
  let v := eval vm_compute in
    (Bout.process_saccades Known.sqrt Known.interp1d_flat
       (fun _ _ _ => Ok [(12, 18)]%Q) (Known.ramp_series 40) 64 350 (1, 30)%Q
       true false true) in
  match v with Some (Ok ?l) => pose (found := l) end.
  let v := eval vm_compute in
    (RemoveSaccades.zero_velocity (Known.ramp_series 40) found
       (Fl.Fin 350) Fl.PosInf false) in
  match v with Ok ?l => pose (out := l) end.
  assert (Hout : RemoveSaccades.zero_velocity (Known.ramp_series 40) found
                   (Fl.Fin 350) Fl.PosInf false = Ok out) by (vm_compute; reflexivity).
  exists found, out.
  split; [vm_compute; reflexivity|]. split; [exact Hout|].
  pose proof (zero_velocity_increments (Known.ramp_series 40) found
                (Fl.Fin 350) Fl.PosInf false out Hout) as H.
  cbv zeta in H. destruct H as [Hlen [_ H]].
  split; [exact Hlen|].
  destruct H as [H0 H]; [vm_compute; discriminate|].
  split; [exact H0|].
  destruct (H 13%nat (13 # 8)%Q (14 # 8)%Q) as [x [y [Hx [Hy Hxy]]]];
    [vm_compute; reflexivity | vm_compute; reflexivity|].
  exists x. split; [exact Hx|]. rewrite Hy, Hxy. reflexivity.
Defined.

(** ** The threshold path of the detection, lines 4387-4463 *)

(** X16: with [speed_noise_method], [kalman_method] and
    [acceleration_method] all False, [process_saccades] never returns.
    The heading is given a first axis of length 1 before it is filtered,
    and the median filter keeps the shape of its input, so [np.gradient]
    finds an axis with a single entry and raises ValueError, unless the
    median filter has raised already; the thresholding that follows is
    never reached. *)
Theorem threshold_path_raises
    (medfilt : list (list Q) -> Z -> result (list (list Q)))
    (thresholded_runs : list (list Q) -> list (list (list Q)) -> result (list Saccade.t))
    (arr : list Q) :
  (forall volume kernel_size filtered,
     medfilt volume kernel_size = Ok filtered -> length filtered = length volume) ->
  match medfilt [Np.unwrap arr] 5 with
  | Ok _ => Threshold.process_saccades medfilt thresholded_runs arr = Raise ValueError
  | Raise e => Threshold.process_saccades medfilt thresholded_runs arr = Raise e
  end.
Proof.
  intro Hshape. unfold Threshold.process_saccades. cbn [map].
  destruct (medfilt [Np.unwrap arr] 5) as [filtered|e] eqn:E; [|reflexivity].
  apply Hshape in E. cbn [bind]. unfold Threshold.gradient2, Mat.rows.
  rewrite E. reflexivity.
Qed.

Lemma threshold_path_raises_witness :
  Threshold.process_saccades Known.medfilt_row (fun _ _ => Ok []) (Known.ramp_series 40)
  = Raise ValueError.
Proof.
  apply (threshold_path_raises Known.medfilt_row (fun _ _ => Ok []) (Known.ramp_series 40)).
  intros volume kernel_size filtered H. injection H as <-. apply length_map.
Defined.

(** ** Module-level helpers *)

Section LabelFacts.

Import String.

(** X17: [sigAsterisk] knows two labels only.  Its loop returns during
    the first pass, so the result is '****' for [p <= 0.0001] and 'ns' for
    every other [p], NaN included; the labels '***', '**' and '*' of its
    table are never returned, and neither is None. *)
Theorem sigAsterisk_two_labels (p : Fl.fl) :
  (Fl.leb p (Fl.Fin (1 # 10000)) = true
   /\ Helpers.sigAsterisk p = Some "****"%string)
  \/ (Fl.leb p (Fl.Fin (1 # 10000)) = false
      /\ Helpers.sigAsterisk p = Some "ns"%string).
Proof.
  unfold Helpers.sigAsterisk. cbn [fst snd].
  destruct (Fl.leb p (Fl.Fin (1 # 10000))); [left | right]; split; reflexivity.
Qed.

End LabelFacts.

(** *** Sums *)

Lemma fold_Qplus_acc (l : list Q) (a : Q) :
  (fold_left Qplus l a == a + fold_left Qplus l 0)%Q.
Proof.
  revert a. induction l as [|x l IH]; intro a; cbn [fold_left].
  - ring.
  - rewrite (IH (a + x)%Q), (IH (0 + x)%Q). ring.
Qed.

Lemma sum_cons (x : Q) (l : list Q) : (Np.sum (x :: l) == x + Np.sum l)%Q.
Proof. unfold Np.sum. cbn [fold_left]. rewrite fold_Qplus_acc. ring. Qed.

Lemma sum_app (l1 l2 : list Q) : (Np.sum (l1 ++ l2) == Np.sum l1 + Np.sum l2)%Q.
Proof.
  induction l1 as [|x l1 IH]; cbn [app].
  - unfold Np.sum at 2. cbn. ring.
  - rewrite !sum_cons, IH. ring.
Qed.

Lemma sum_rev (l : list Q) : (Np.sum (rev l) == Np.sum l)%Q.
Proof.
  induction l as [|x l IH]; [reflexivity|].
  cbn [rev]. rewrite sum_app, !sum_cons, IH. unfold Np.sum at 2. cbn. ring.
Qed.

(** A sum of products with ones is the sum of the other factors. *)
Lemma dot_ones_r (l : list Q) :
  forall m,
    (fold_left Qplus (map (fun p => fst p * snd p) (combine l (repeat 1%Q m))) 0
     == Np.sum (firstn m l))%Q.
Proof.
  induction l as [|x l IH]; intro m.
  - destruct m; reflexivity.
  - destruct m as [|m]; [reflexivity|].
    cbn [repeat combine map firstn fold_left fst snd].
    rewrite fold_Qplus_acc, IH, sum_cons. ring.
Qed.

Lemma dot_ones_l (l : list Q) :
  forall m,
    (fold_left Qplus (map (fun p => fst p * snd p) (combine (repeat 1%Q m) l)) 0
     == Np.sum (firstn m l))%Q.
Proof.
  induction l as [|x l IH]; intro m.
  - destruct m; reflexivity.
  - destruct m as [|m]; [reflexivity|].
    cbn [repeat combine map firstn fold_left fst snd].
    rewrite fold_Qplus_acc, IH, sum_cons. ring.
Qed.

Lemma rev_ones (m : nat) : rev (repeat 1%Q m) = repeat 1%Q m.
Proof.
  induction m as [|m IH]; [reflexivity|].
  cbn [repeat rev]. rewrite IH. symmetry. apply (repeat_cons m 1%Q).
Qed.

Lemma skipn_ones (k m : nat) : skipn k (repeat 1%Q m) = repeat 1%Q (m - k).
Proof.
  revert m. induction k as [|k IH]; intro m.
  - now rewrite Nat.sub_0_r.
  - destruct m as [|m]; [reflexivity|]. cbn [repeat skipn]. apply IH.
Qed.

(** A sum of numbers between two bounds. *)
Lemma sum_bounds (lo hi : Q) (l : list Q) :
  (forall y, In y l -> lo <= y /\ y <= hi)%Q ->
  (inject_Z (Z.of_nat (length l)) * lo <= Np.sum l
   /\ Np.sum l <= inject_Z (Z.of_nat (length l)) * hi)%Q.
Proof.
  induction l as [|x l IH]; intro H.
  - change (inject_Z (Z.of_nat (length (@nil Q)))) with 0%Q.
    change (Np.sum []) with 0%Q. split; lra.
  - destruct (H x (or_introl eq_refl)) as [Hlo Hhi].
    destruct IH as [IHlo IHhi]; [intros y Hy; apply H; now right|].
    rewrite sum_cons. cbn [length]. rewrite Nat2Z.inj_succ. unfold Z.succ.
    rewrite inject_Z_plus. change (inject_Z 1) with 1%Q.
    set (n := inject_Z (Z.of_nat (length l))) in *.
    split; [setoid_replace ((n + 1) * lo)%Q with (n * lo + lo)%Q by ring
           | setoid_replace ((n + 1) * hi)%Q with (n * hi + hi)%Q by ring]; lra.
Qed.

Lemma skipn_incl (A : Type) (n : nat) (l : list A) (x : A) :
  In x (skipn n l) -> In x l.
Proof.
  revert l. induction n as [|n IH]; intros [|y l]; simpl; try tauto.
  intro H. right. now apply IH.
Qed.

Lemma nth_error_seq_map (B : Type) (h : nat -> B) (m k : nat) (y : B) :
  nth_error (map h (seq 0 m)) k = Some y -> (k < m)%nat /\ y = h k.
Proof.
  intro H. rewrite nth_error_map in H.
  destruct (nth_error (seq 0 m) k) as [j|] eqn:E; [|discriminate].
  injection H as <-.
  assert (Hk : (k < m)%nat).
  { assert (Hl : (k < length (seq 0 m))%nat) by (apply nth_error_Some; congruence).
    now rewrite length_seq in Hl. }
  split; [exact Hk|]. f_equal.
  apply (nth_error_nth _ _ 0%nat) in E. rewrite seq_nth in E by exact Hk. now subst.
Qed.

(** *** The moving average, line 4855 *)

(** The array [moving_average] returns for a window that fits. *)
Lemma moving_average_fits (x : list Q) (w : Z) :
  1 <= w -> w <= Z.of_nat (length x) ->
  Helpers.moving_average x w
  = Ok (map (fun k => (Helpers.overlap x (repeat 1%Q (Z.to_nat w)) k / inject_Z w)%Q)
            (seq 0 (length x - Z.to_nat w + 1))).
Proof.
  intros H1 H2. unfold Helpers.moving_average, Helpers.ones.
  destruct (Z.ltb_spec w 0); [lia|]. cbn [bind].
  unfold Helpers.convolve_valid. rewrite repeat_length.
  destruct (Nat.ltb_spec (length x) (Z.to_nat w)); [lia|].
  destruct (Z.to_nat w) as [|n] eqn:En; [lia|].
  cbn [repeat bind]. rewrite map_map. cbn [length]. rewrite repeat_length. reflexivity.
Qed.

(** X18: the moving average over a window that fits ([1 <= w <= len(x)]).
    There is one value per position of the window, [len(x) - w + 1] in
    all; the value of position [k] is the mean of the [w] samples from
    [k] on; and bounds that hold of every sample hold of every value. *)
Theorem moving_average_window (x : list Q) (w : Z) (lo hi : Q) :
  1 <= w -> w <= Z.of_nat (length x) ->
  exists out,
    Helpers.moving_average x w = Ok out
    /\ length out = (length x - Z.to_nat w + 1)%nat
    /\ (forall k y, nth_error out k = Some y ->
          (y == Np.sum (firstn (Z.to_nat w) (skipn k x)) / inject_Z w)%Q)
    /\ ((forall y, In y x -> lo <= y /\ y <= hi)%Q ->
        forall y, In y out -> (lo <= y /\ y <= hi)%Q).
Proof.
  intros H1 H2. rewrite (moving_average_fits x w H1 H2).
  eexists. split; [reflexivity|].
  assert (Hval : forall k y,
            nth_error (map (fun k => (Helpers.overlap x (repeat 1%Q (Z.to_nat w)) k
                                      / inject_Z w)%Q)
                           (seq 0 (length x - Z.to_nat w + 1))) k = Some y ->
            (k < length x - Z.to_nat w + 1)%nat
            /\ (y == Np.sum (firstn (Z.to_nat w) (skipn k x)) / inject_Z w)%Q).
  { intros k y Hy. apply nth_error_seq_map in Hy. destruct Hy as [Hk ->].
    split; [exact Hk|]. unfold Helpers.overlap. rewrite rev_ones, dot_ones_r.
    reflexivity. }
  split; [now rewrite length_map, length_seq|].
  split; [intros k y Hy; now apply Hval|].
  intros Hx y Hy. apply In_nth_error in Hy. destruct Hy as [k Hk].
  destruct (Hval k y Hk) as [Hlt Heq].
  set (window := firstn (Z.to_nat w) (skipn k x)) in *.
  assert (Hlen : length window = Z.to_nat w).
  { unfold window. rewrite length_firstn, length_skipn. lia. }
  destruct (sum_bounds lo hi window) as [Hlo Hhi].
  { intros z Hz. apply Hx. unfold window in Hz.
    apply firstn_incl in Hz. now apply skipn_incl in Hz. }
  rewrite Hlen, Z2Nat.id in Hlo, Hhi by lia.
  assert (Hw : (0 < inject_Z w)%Q) by (change 0%Q with (inject_Z 0); rewrite <- Zlt_Qlt; lia).
  rewrite Heq. split.
  - apply Qle_shift_div_l; [exact Hw|]. now rewrite Qmult_comm.
  - apply Qle_shift_div_r; [exact Hw|]. now rewrite Qmult_comm.
Qed.

Lemma moving_average_window_witness :
  exists out,
    Helpers.moving_average [1; 3; 5; 7]%Q 2 = Ok out
    /\ length out = 3%nat
    /\ (forall k y, nth_error out k = Some y ->
          (y == Np.sum (firstn 2 (skipn k [1; 3; 5; 7]%Q)) / 2)%Q)
    /\ forall y, In y out -> (1 <= y /\ y <= 7)%Q.
Proof.
  destruct (moving_average_window [1; 3; 5; 7]%Q 2 1 7) as [out [H1 [H2 [H3 H4]]]];
    [lia | simpl; lia|].
  exists out. split; [exact H1|]. split; [exact H2|]. split; [exact H3|].
  apply H4. intros y Hy. simpl in Hy.
  repeat (destruct Hy as [<-|Hy]; [split; discriminate|]). destruct Hy.
Defined.

(** X19: the moving average at its edges.  A window of no or negative
    length, or an empty series, raises ValueError.  A window longer than
    a series that is not empty raises nothing: the roles of series and
    window are exchanged, and each of the [w - len(x) + 1] values is the
    sum of the whole series divided by [w]. *)
Theorem moving_average_edges (x : list Q) (w : Z) :
  (w <= 0 \/ x = [] -> Helpers.moving_average x w = Raise ValueError)
  /\ (x <> [] -> Z.of_nat (length x) < w ->
      exists out,
        Helpers.moving_average x w = Ok out
        /\ length out = (Z.to_nat w - length x + 1)%nat
        /\ forall y, In y out -> (y == Np.sum x / inject_Z w)%Q).
Proof.
  split.
  - intro H. unfold Helpers.moving_average, Helpers.ones.
    destruct (Z.ltb_spec w 0); [reflexivity|]. cbn [bind].
    unfold Helpers.convolve_valid. rewrite repeat_length.
    destruct H as [H| ->].
    + replace (Z.to_nat w) with 0%nat by lia.
      change (length x <? 0)%nat with false. reflexivity.
    + cbn [length]. destruct (Z.to_nat w) as [|n]; reflexivity.
  - intros Hne Hlt. unfold Helpers.moving_average, Helpers.ones.
    destruct (Z.ltb_spec w 0); [lia|]. cbn [bind].
    unfold Helpers.convolve_valid. rewrite repeat_length.
    destruct (Nat.ltb_spec (length x) (Z.to_nat w)); [|lia].
    destruct x as [|x0 x]; [congruence|]. cbn [bind].
    eexists. split; [reflexivity|].
    split; [now rewrite !length_map, length_seq, repeat_length|].
    intros y Hy. rewrite map_map in Hy. apply In_nth_error in Hy. destruct Hy as [k Hk].
    apply nth_error_seq_map in Hk. destruct Hk as [Hk ->].
    rewrite repeat_length in Hk.
    unfold Helpers.overlap. rewrite skipn_ones, dot_ones_l.
    rewrite firstn_all2 by (rewrite length_rev; lia).
    now rewrite sum_rev.
Qed.

Lemma moving_average_edges_witness :
  exists out,
    Helpers.moving_average [1; 2]%Q 4 = Ok out
    /\ length out = 3%nat
    /\ forall y, In y out -> (y == Np.sum [1; 2]%Q / 4)%Q.
Proof.
  destruct (proj2 (moving_average_edges [1; 2]%Q 4)) as [out H];
    [discriminate | simpl; lia|].
  exists out. exact H.
Defined.

(** ** The Butterworth smoothing, lines 4788-4824 *)

Section FilterFacts.

Variable sos : Type.
Variable butter : nat -> list Fl.fl -> Q -> Signal.btype -> result sos.
Variable sosfilt : sos -> list (list Q) -> result (list (list Q)).

(** Within the asserted bounds one of the three designs is chosen: the
    chain of tests leaves no case out. *)
Lemma filter_selected (low high : Fl.fl) (sample_rate : Q) :
  Signal.bounds_ok low high = true ->
  exists Wn btype,
    (if Fl.ltb (Fl.Fin 0) low && Fl.ltb high Fl.PosInf
     then butter 5 [low; high] sample_rate Signal.bandpass
     else if Fl.isinf high
     then butter 5 [low] sample_rate Signal.highpass
     else if Fl.eqb low (Fl.Fin 0)
     then butter 5 [high] sample_rate Signal.lowpass
     else Raise UnboundLocalError)
    = butter 5 Wn sample_rate btype.
Proof.
  unfold Signal.bounds_ok. intro H. apply andb_true_iff in H. destruct H as [Hl Hh].
  destruct low as [| |q|], high as [| |h|]; try discriminate; cbn [Fl.ltb Fl.isinf Fl.eqb andb].
  - destruct (Np.Qltb 0 q) eqn:E; cbn [andb]; [eauto|].
    cbn [Fl.leb] in Hl. apply Qle_bool_iff in Hl. apply Qltb_ge in E.
    assert (Hq : Qeq_bool q 0 = true) by (apply Qeq_bool_iff; lra).
    rewrite Hq. eauto.
  - rewrite andb_false_r. eauto.
  - eauto.
  - eauto.
Qed.

(** X20: the exceptions of [butterworth_filter].  It raises AssertionError
    exactly when the bounds are refused; within the bounds a filter is
    always designed, so that all it raises is IndexError (on an array
    without a first sample) or what [scipy.signal.butter] or
    [scipy.signal.sosfilt] has raised: the name [filter] is never read
    unbound. *)
Theorem butterworth_filter_raises_only (vals : list (list Q)) (low high : Fl.fl)
    (sample_rate : Q) (e : exn) :
  Signal.butterworth_filter sos butter sosfilt vals low high sample_rate = Raise e ->
  (Signal.bounds_ok low high = false /\ e = AssertionError)
  \/ (Signal.bounds_ok low high = true
      /\ (e = IndexError
          \/ (exists Wn btype, butter 5 Wn sample_rate btype = Raise e)
          \/ (exists filter x, sosfilt filter x = Raise e))).
Proof.
  unfold Signal.butterworth_filter. intro H.
  destruct (Signal.bounds_ok low high) eqn:Hb; [right | left; split; congruence].
  split; [reflexivity|].
  destruct (filter_selected low high sample_rate Hb) as [Wn [btype Hsel]].
  rewrite Hsel in H.
  destruct (butter 5 Wn sample_rate btype) as [filter|e'] eqn:Hf.
  - cbn [bind] in H.
    destruct (Py.index (map Np.unwrap vals) 0) as [row|e1] eqn:Hrow.
    + cbn [bind] in H. destruct (Py.index row 0) as [offset|e2] eqn:Hoff.
      * cbn [bind] in H.
        destruct (sosfilt filter _) as [smoothed|e3] eqn:Hs; [discriminate|].
        cbn [bind] in H. injection H as <-. right. right. eauto.
      * cbn [bind] in H. injection H as <-. left.
        unfold Py.index in Hoff.
        destruct (_ && _); [destruct (nth_error _ _)|]; congruence.
    + cbn [bind] in H. injection H as <-. left.
      unfold Py.index in Hrow.
      destruct (_ && _); [destruct (nth_error _ _)|]; congruence.
  - cbn [bind] in H. injection H as <-. right. left. eauto.
Qed.

End FilterFacts.

(** An empty array within the bounds. *)
Lemma butterworth_filter_raises_only_witness :
  Signal.butterworth_filter unit (fun _ _ _ _ => Ok tt) (fun _ x => Ok x)
    [] (Fl.Fin 0) (Fl.Fin 10) 60 = Raise IndexError
  /\ Signal.bounds_ok (Fl.Fin 0) (Fl.Fin 10) = true.
Proof.
  split; [reflexivity|].
  destruct (butterworth_filter_raises_only unit (fun _ _ _ _ => Ok tt) (fun _ x => Ok x)
              [] (Fl.Fin 0) (Fl.Fin 10) 60 IndexError eq_refl) as [[H _]|[H _]];
    [discriminate H | exact H].
Defined.


Section ConstantHeading.

Variable sos : Type.
Variable butter : nat -> list Fl.fl -> Q -> Signal.btype -> result sos.
Variable sosfilt : sos -> list (list Q) -> result (list (list Q)).


End ConstantHeading.


(** ** The attributes of a Saccade, lines 4580-4689 *)

Lemma index_nonempty (A : Type) (l : list A) (i : Z) (x : A) :
  Py.index l i = Ok x -> l <> [].
Proof.
  intros H ->. unfold Py.index in H. cbn [length Z.of_nat] in H.
  destruct (i <? 0) eqn:E; cbn in H.
  - apply Z.ltb_lt in E. destruct (Z.leb_spec 0 (i + 0)); [lia|]. discriminate.
  - destruct (0 <=? i); cbn in H; [|discriminate].
    destruct (i <? 0); [discriminate E | discriminate H].
Qed.

Section AttributeFacts.

Variable np_sqrt : Q -> Q.
Variable interp1d_cubic : list Q -> list Q -> result (list Q -> result (list Q)).

(** What the baseline comparison leaves: the duration and the amplitude
    are those of the window it has settled on. *)
Lemma baseline_compare_window (original_arr velocity : list Q)
    (framerate peak floor ceiling : Q) (w w' : Saccade.window) :
  Saccade.baseline_compare original_arr velocity framerate peak floor ceiling w = Ok w' ->
  Saccade.w_duration w'
  = (inject_Z (Saccade.w_stop w' - Saccade.w_start w') / framerate)%Q
  /\ Saccade.w_amplitude w' = (Saccade.w_stop_angle w' - Saccade.w_start_angle w')%Q.
Proof.
  unfold Saccade.baseline_compare. intro H.
  destruct (if Np.Qltb 0 peak then _ else _) as [saccading not_saccading].
  do 2 bind_ok H. injection H as <-. split; reflexivity.
Qed.

(** X22: the attributes of every Saccade the constructor returns,
    whatever its flags.  The series has two samples or more; velocity,
    acceleration and the time axes have one entry per sample; duration
    and amplitude are those of the final start and stop; whereas [arr],
    [start_time] and [stop_time] are those of the window that was asked
    for, also when the baseline comparison has moved start and stop. *)
Theorem init_attributes (arr0 : list Q) (framerate start0 stop0 : Q)
    (interpolate_velocity baseline_comparison baseline_test : bool) (s : Saccade.t) :
  Saccade.init np_sqrt interp1d_cubic arr0 framerate start0 stop0
               interpolate_velocity baseline_comparison baseline_test = Ok s ->
  (2 <= length arr0)%nat
  /\ Saccade.original_arr s = Np.unwrap arr0
  /\ length (Saccade.velocity s) = length arr0
  /\ length (Saccade.acceleration s) = length arr0
  /\ length (Saccade.time s) = length arr0
  /\ length (Saccade.relative_time s) = length arr0
  /\ Saccade.duration s = (inject_Z (Saccade.stop s - Saccade.start s) / framerate)%Q
  /\ Saccade.amplitude s = (Saccade.stop_angle s - Saccade.start_angle s)%Q
  /\ Saccade.arr s = Py.slice (Np.unwrap arr0) (Py.round start0) (Py.round stop0 + 1)
  /\ Saccade.arr s <> []
  /\ Saccade.start_time s = (inject_Z (Py.round start0) / framerate)%Q
  /\ Saccade.stop_time s = (inject_Z (Py.round stop0) / framerate)%Q
  /\ (baseline_comparison = false ->
      Saccade.start s = Py.round start0 /\ Saccade.stop s = Py.round stop0).
Proof.
  unfold Saccade.init. intro H.
  bind_ok H. apply truediv_ok in E. destruct E as [-> _].
  bind_ok H. apply truediv_ok in E. destruct E as [-> _].
  bind_ok H. rename a into start_angle, E into Hsa.
  bind_ok H. rename a into stop_angle, E into Hso.
  bind_ok H. apply truediv_ok in E. destruct E as [-> _].
  bind_ok H. rename a into velocity, E into Hv.
  bind_ok H. rename a into acceleration, E into Ha.
  pose proof (index_nonempty _ _ _ _ Hsa) as Hne.
  apply rate_of_change_length in Hv. destruct Hv as [Hvl H2]. rewrite unwrap_length in Hvl, H2.
  apply rate_of_change_length in Ha. destruct Ha as [Hal _]. rewrite Hvl in Hal.
  assert (Htl : forall start,
            length (Saccade.time_axis (length (Np.unwrap arr0)) start framerate)
            = length arr0).
  { intro start. unfold Saccade.time_axis, Py.range.
    now rewrite !length_map, length_seq, unwrap_length. }
  destruct interpolate_velocity.
  - bind_ok H. destruct a as [peak_velocity peak_time].
    match type of H with
    | context [if ?c then _ else _] => destruct c
    end.
    + destruct baseline_comparison.
      * bind_ok H. injection H as <-.
        apply baseline_compare_window in E0. destruct E0 as [Hd Hamp].
        cbn. rewrite length_map, Htl. repeat split; auto; discriminate.
      * cbn [bind] in H. injection H as <-.
        cbn. rewrite length_map, Htl. repeat split; auto.
    + injection H as <-. cbn. rewrite length_map, Htl. repeat split; auto.
  - do 3 bind_ok H. injection H as <-.
    cbn. rewrite length_map, Htl. repeat split; auto.
Qed.

End AttributeFacts.

(** A steady turn, with the baseline comparison and the baseline test. *)
Lemma init_attributes_witness :
  exists s,
    Saccade.init Known.sqrt Known.interp1d_flat (Known.ramp_series 40) 64 12 18
                 true true true = Ok s
    /\ length (Saccade.velocity s) = 40%nat
    /\ Saccade.duration s = (inject_Z (Saccade.stop s - Saccade.start s) / 64)%Q
    /\ Saccade.arr s = Py.slice (Np.unwrap (Known.ramp_series 40)) (Py.round 12)
                                (Py.round 18 + 1)
    /\ Saccade.start_time s = (inject_Z (Py.round 12) / 64)%Q.
Proof.
  let v := eval vm_compute in
    (Saccade.init Known.sqrt Known.interp1d_flat (Known.ramp_series 40) 64 12 18
                  true true true) in
  match v with Ok ?x => pose (s := x) end.
  assert (Hs : Saccade.init Known.sqrt Known.interp1d_flat (Known.ramp_series 40) 64 12 18
                 true true true = Ok s) by (vm_compute; reflexivity).
  exists s. split; [exact Hs|].
  pose proof (init_attributes Known.sqrt Known.interp1d_flat (Known.ramp_series 40)
                64 12 18 true true true s Hs) as H.
  destruct H as [_ [_ [Hv [_ [_ [_ [Hd [_ [Harr [_ [Hst _]]]]]]]]]]].
  split; [exact Hv|]. split; [exact Hd|]. split; [exact Harr | exact Hst].
Defined.

(** ** The baseline comparison, lines 4646-4670 *)

Section BaselineFacts.

Variable np_sqrt : Q -> Q.
Variable interp1d_cubic : list Q -> list Q -> result (list Q -> result (list Q)).

(** A window that the baseline comparison leaves valid has two frames or
    more and lasts 1.5 s at most. *)
Lemma baseline_compare_valid (original_arr velocity : list Q)
    (framerate peak floor ceiling : Q) (w w' : Saccade.window) :
  Saccade.baseline_compare original_arr velocity framerate peak floor ceiling w = Ok w' ->
  Saccade.w_success w' = true ->
  2 <= Saccade.w_stop w' - Saccade.w_start w'
  /\ (Saccade.w_duration w' <= 3 # 2)%Q.
Proof.
  unfold Saccade.baseline_compare. intro H.
  destruct (if Np.Qltb 0 peak then _ else _) as [saccading not_saccading].
  do 2 bind_ok H. injection H as <-. cbn [Saccade.w_success Saccade.w_stop
    Saccade.w_start Saccade.w_duration].
  destruct (Z.ltb_spec (Saccade.w_stop a0 - Saccade.w_start a0) 2);
    cbn [orb]; [discriminate|].
  destruct (Np.Qltb (3 # 2) _) eqn:Ed; [discriminate|].
  intros _. split; [lia|]. now apply Qltb_ge in Ed.
Qed.

(** X26: with the baseline comparison, a Saccade that the constructor
    marks valid spans two frames or more and lasts 1.5 s at most: the
    comparison clears [success] otherwise, and nothing after it sets
    [success] again. *)
Theorem baseline_comparison_bounds (arr0 : list Q) (framerate start0 stop0 : Q)
    (baseline_test : bool) (s : Saccade.t) :
  Saccade.init np_sqrt interp1d_cubic arr0 framerate start0 stop0
               true true baseline_test = Ok s ->
  Saccade.success s = Some true ->
  2 <= Saccade.stop s - Saccade.start s
  /\ (Saccade.duration s <= 3 # 2)%Q.
Proof.
  unfold Saccade.init. intro H. do 8 bind_ok H.
  match type of H with
  | context [let '(_, _) := ?p in _] => destruct p as [peak_velocity peak_time]
  end.
  match type of H with
  | context [if ?c then _ else _] => destruct c
  end.
  - match type of H with
    | bind ?c _ = Ok _ =>
        destruct c as [w1|] eqn:Hcmp; cbn [bind] in H; [|discriminate H]
    end.
    injection H as <-.
    cbn [Saccade.success Saccade.stop Saccade.start Saccade.duration].
    intro Hs. apply (baseline_compare_valid _ _ _ _ _ _ _ _ Hcmp).
    destruct (baseline_test && _); [discriminate Hs | now injection Hs].
  - injection H as <-. cbn [Saccade.success]. discriminate.
Qed.

End BaselineFacts.

(** A steady turn with a window of six frames. *)
Lemma baseline_comparison_bounds_witness :
  exists s,
    Saccade.init Known.sqrt Known.interp1d_flat (Known.ramp_series 40) 64 12 18
                 true true true = Ok s
    /\ Saccade.success s = Some true
    /\ 2 <= Saccade.stop s - Saccade.start s
    /\ (Saccade.duration s <= 3 # 2)%Q.
Proof.
  let v := eval vm_compute in
    (Saccade.init Known.sqrt Known.interp1d_flat (Known.ramp_series 40) 64 12 18
                  true true true) in
  match v with Ok ?x => pose (s := x) end.
  assert (Hs : Saccade.init Known.sqrt Known.interp1d_flat (Known.ramp_series 40) 64 12 18
                 true true true = Ok s) by (vm_compute; reflexivity).
  exists s. split; [exact Hs|]. split; [reflexivity|].
  exact (baseline_comparison_bounds Known.sqrt Known.interp1d_flat (Known.ramp_series 40)
           64 12 18 true s Hs eq_refl).
Defined.

(** ** Bout construction, lines 4019-4041 *)

Lemma fold_max_ge (l : list Q) (x : Q) :
  let m := fold_left (fun m y => if Np.Qltb m y then y else m) l x in
  (x <= m)%Q /\ forall y, In y l -> (y <= m)%Q.
Proof.
  revert x. induction l as [|z l IH]; intro x; cbn [fold_left].
  - split; [apply Qle_refl | intros y []].
  - destruct (Np.Qltb x z) eqn:E.
    + apply Qltb_lt in E. destruct (IH z) as [Hz Hl]. split; [lra|].
      intros y [<-|Hy]; [exact Hz | now apply Hl].
    + apply Qltb_ge in E. destruct (IH x) as [Hx Hl]. split; [exact Hx|].
      intros y [<-|Hy]; [lra | now apply Hl].
Qed.

Lemma fold_min_le (l : list Q) (x : Q) :
  let m := fold_left (fun m y => if Np.Qltb y m then y else m) l x in
  (m <= x)%Q /\ forall y, In y l -> (m <= y)%Q.
Proof.
  revert x. induction l as [|z l IH]; intro x; cbn [fold_left].
  - split; [apply Qle_refl | intros y []].
  - destruct (Np.Qltb z x) eqn:E.
    + apply Qltb_lt in E. destruct (IH z) as [Hz Hl]. split; [lra|].
      intros y [<-|Hy]; [exact Hz | now apply Hl].
    + apply Qltb_ge in E. destruct (IH x) as [Hx Hl]. split; [exact Hx|].
      intros y [<-|Hy]; [lra | now apply Hl].
Qed.

(** X28: the construction of a Bout.  It raises IndexError when there are
    fewer than two time stamps, and nothing else: with two stamps or more
    it returns, the duration is not negative, and the frame rate is the
    inverse of the first time step, or infinite when the first two stamps
    coincide, in which case every inter-saccade interval that [get_stats]
    derives from it is 0. *)
Theorem bout_init_framerate (arr time : list Q) :
  ((length time < 2)%nat -> BoutStats.init arr time = Raise IndexError)
  /\ forall t0 t1 rest,
       time = t0 :: t1 :: rest ->
       exists self,
         BoutStats.init arr time = Ok self
         /\ (0 <= BoutStats.duration self)%Q
         /\ BoutStats.framerate self = Fl.div (Fl.Fin 1) (Fl.Fin (t1 - t0))
         /\ ((t1 == t0)%Q ->
             BoutStats.framerate self = Fl.PosInf
             /\ forall saccades,
                  Forall (eq (Fl.Fin 0))
                         (BoutStats.intervals (BoutStats.framerate self) saccades)).
Proof.
  split.
  - intro H. destruct time as [|t0 [|t1 rest]]; [reflexivity | reflexivity |].
    simpl in H. lia.
  - intros t0 t1 rest ->. unfold BoutStats.init.
    assert (H1 : Py.index (t0 :: t1 :: rest) 1 = Ok t1).
    { unfold Py.index. cbn [length]. rewrite !Nat2Z.inj_succ.
      replace (1 <? 0) with false by reflexivity.
      destruct (Z.leb_spec 0 1); [|lia].
      destruct (Z.ltb_spec 1 (Z.succ (Z.succ (Z.of_nat (length rest))))); [|lia].
      reflexivity. }
    rewrite H1, index_head. cbn [bind Np.amax Np.amin].
    eexists. split; [reflexivity|].
    cbn [BoutStats.duration BoutStats.framerate].
    destruct (fold_max_ge (t1 :: rest) t0) as [Hmax _].
    destruct (fold_min_le (t1 :: rest) t0) as [Hmin _].
    cbv zeta in Hmax, Hmin.
    split; [lra|]. split; [reflexivity|].
    intro Heq.
    assert (Hinf : Fl.div (Fl.Fin 1) (Fl.Fin (t1 - t0)) = Fl.PosInf).
    { cbn [Fl.div].
      assert (Hz : Qeq_bool (t1 - t0) 0 = true) by (apply Qeq_bool_iff; lra).
      rewrite Hz. reflexivity. }
    split; [exact Hinf|]. intro saccades. rewrite Hinf, intervals_eq.
    apply Forall_map. apply Forall_forall. intros p _. reflexivity.
Qed.

Lemma bout_init_framerate_witness :
  exists self,
    BoutStats.init [0; 0; 0]%Q [0; 1 # 60; 2 # 60]%Q = Ok self
    /\ (0 <= BoutStats.duration self)%Q
    /\ BoutStats.framerate self = Fl.div (Fl.Fin 1) (Fl.Fin ((1 # 60) - 0)).
Proof.
  destruct (proj2 (bout_init_framerate [0; 0; 0]%Q [0; 1 # 60; 2 # 60]%Q)
              0%Q (1 # 60)%Q [2 # 60]%Q eq_refl) as [self [H1 [H2 [H3 _]]]].
  exists self. auto.
Defined.

(** ** Where the Saccades of a bout come from, lines 4176-4269 *)

Section Provenance.

Variable np_sqrt : Q -> Q.
Variable interp1d_cubic : list Q -> list Q -> result (list Q -> result (list Q)).
Variable peak_bounds : list Q -> Q -> Q * Q -> result (list (Q * Q)).

Lemma collect_constructed (arr : list Q) (framerate threshold_speed : Q)
    (interpolate_velocity baseline_comparison baseline_test : bool) :
  forall bounds saccades out,
    Bout.collect np_sqrt interp1d_cubic arr framerate threshold_speed
      interpolate_velocity baseline_comparison baseline_test bounds saccades = Ok out ->
    forall s, In s out ->
      In s saccades
      \/ exists start stop,
           In (start, stop) bounds
           /\ Saccade.init np_sqrt interp1d_cubic arr framerate start stop
                interpolate_velocity baseline_comparison baseline_test = Ok s.
Proof.
  intro bounds. induction bounds as [|[start stop] bounds IH]; intros saccades out H s Hs.
  - simpl in H. injection H as <-. now left.
  - cbn [Bout.collect] in H. do 3 bind_ok H.
    assert (Hrest : forall acc,
              Bout.collect np_sqrt interp1d_cubic arr framerate threshold_speed
                interpolate_velocity baseline_comparison baseline_test bounds acc = Ok out ->
              (forall x, In x acc -> In x saccades \/ x = a) ->
              In s saccades
              \/ exists start' stop',
                   In (start', stop') ((start, stop) :: bounds)
                   /\ Saccade.init np_sqrt interp1d_cubic arr framerate start' stop'
                        interpolate_velocity baseline_comparison baseline_test = Ok s).
    { intros acc Hacc Hin. destruct (IH _ _ Hacc s Hs) as [Hold|[l [r [Hlr Hinit]]]].
      - destruct (Hin s Hold) as [Hsacc| ->]; [now left|].
        right. exists start, stop. split; [now left | exact E].
      - right. exists l, r. split; [now right | exact Hinit]. }
    destruct (Np.Qltb a1 (threshold_speed * Np.pi / 180)).
    + cbn [Saccade.get_success Saccade.set_success Saccade.success bind] in H.
      apply (Hrest _ H). intros x Hx. now left.
    + unfold Saccade.get_success in H.
      destruct (Saccade.success a) as [[|]|]; cbn [bind] in H; [| |discriminate].
      * apply (Hrest _ H). intros x Hx. apply in_app_or in Hx.
        destruct Hx as [Hx|[<-|[]]]; [now left | now right].
      * apply (Hrest _ H). intros x Hx. now left.
Qed.

(** X29: every Saccade that [process_saccades] returns (speed-noise
    path) is the object the constructor built for one of the windows of
    [scipy.signal.find_peaks], unchanged: nothing is merged or trimmed by
    the validation or by overlap resolution. *)
Theorem process_saccades_provenance (arr : list Q) (framerate threshold_speed : Q)
    (prominance : Q * Q)
    (interpolate_velocity baseline_comparison baseline_test : bool)
    (out : list Saccade.t) :
  Bout.process_saccades np_sqrt interp1d_cubic peak_bounds arr framerate threshold_speed
    prominance interpolate_velocity baseline_comparison baseline_test = Some (Ok out) ->
  exists bounds,
    peak_bounds (Np.unwrap arr) framerate prominance = Ok bounds
    /\ (length out <= length bounds)%nat
    /\ forall s, In s out ->
         exists start stop,
           In (start, stop) bounds
           /\ Saccade.init np_sqrt interp1d_cubic arr framerate start stop
                interpolate_velocity baseline_comparison baseline_test = Ok s.
Proof.
  unfold Bout.process_saccades. intro H.
  destruct (bind _ _) as [saccades|e] eqn:E; [|discriminate].
  destruct (Bout.resolve_overlaps saccades) as [out'|] eqn:Hres; [|discriminate].
  simpl in H. injection H as <-. bind_ok E. rename a into bounds.
  exists bounds. split; [reflexivity|].
  assert (Hlen : forall bs acc res,
            Bout.collect np_sqrt interp1d_cubic arr framerate threshold_speed
              interpolate_velocity baseline_comparison baseline_test bs acc = Ok res ->
            (length res <= length acc + length bs)%nat).
  { intro bs. induction bs as [|[l r] bs IHb]; intros acc res Hc.
    - simpl in Hc. injection Hc as <-. lia.
    - cbn [Bout.collect] in Hc. do 4 bind_ok Hc. apply IHb in Hc.
      destruct a2; [rewrite length_app in Hc|]; cbn [length] in *; lia. }
  split.
  - pose proof (resolve_overlaps_length saccades out' Hres) as [Hl _].
    specialize (Hlen _ _ _ E). cbn [length] in Hlen. lia.
  - intros s Hs. pose proof (resolve_overlaps_In saccades out' Hres s Hs) as Hin.
    destruct (collect_constructed _ _ _ _ _ _ _ _ _ E s Hin) as [[]|Hc]. exact Hc.
Qed.

End Provenance.

Lemma process_saccades_provenance_witness :
  exists out bounds,
    Bout.process_saccades Known.sqrt Known.interp1d_flat
      (fun _ _ _ => Ok [(12, 18)]%Q) (Known.ramp_series 40) 64 350 (1, 30)%Q
      true false true = Some (Ok out)
    /\ out <> []
    /\ (length out <= length bounds)%nat
    /\ forall s, In s out ->
         exists start stop,
           In (start, stop) bounds
           /\ Saccade.init Known.sqrt Known.interp1d_flat (Known.ramp_series 40) 64
                start stop true false true = Ok s.
Proof.
  let v := eval vm_compute in
    (Bout.process_saccades Known.sqrt Known.interp1d_flat
       (fun _ _ _ => Ok [(12, 18)]%Q) (Known.ramp_series 40) 64 350 (1, 30)%Q
       true false true) in
  match v with Some (Ok ?l) => pose (out := l) end.
  assert (H : Bout.process_saccades Known.sqrt Known.interp1d_flat
                (fun _ _ _ => Ok [(12, 18)]%Q) (Known.ramp_series 40) 64 350 (1, 30)%Q
                true false true = Some (Ok out)) by (vm_compute; reflexivity).
  destruct (process_saccades_provenance Known.sqrt Known.interp1d_flat
              (fun _ _ _ => Ok [(12, 18)]%Q) (Known.ramp_series 40) 64 350 (1, 30)%Q
              true false true out H) as [bounds [_ [Hlen Hall]]].
  exists out, bounds. split; [exact H|]. split; [discriminate|].
  split; [exact Hlen | exact Hall].
Defined.

(** ** The covariance of the estimator *)

(** X30: the measurements do not reach the covariance.  Two calls of
    [add_measurement] that return, from the same state and with whatever
    measurements, leave the same covariance [P], the same gain [K] and
    the same frame counter; only the state and the logs differ. *)
Theorem covariance_ignores_measurements (self self1 self2 : Kalman_Filter.t)
    (points1 points2 : list (list Fl.fl)) :
  Kalman_Filter.add_measurement points1 self = (self1, Ok tt) ->
  Kalman_Filter.add_measurement points2 self = (self2, Ok tt) ->
  Kalman_Filter.P self1 = Kalman_Filter.P self2
  /\ Kalman_Filter.corrected_covariance self = Ok (Kalman_Filter.P self1)
  /\ Kalman_Filter.K self1 = Kalman_Filter.K self2
  /\ Kalman_Filter.frame_num self1 = Kalman_Filter.frame_num self2.
Proof.
  intros H1 H2.
  apply add_measurement_ok in H1, H2.
  destruct H1 as [q1 [p1 [lx1 [ly1 [_ [Hp1 ->]]]]]].
  destruct H2 as [q2 [p2 [lx2 [ly2 [_ [Hp2 ->]]]]]].
  change (Kalman_Filter.corrected_covariance self = Ok p1) in Hp1.
  change (Kalman_Filter.corrected_covariance self = Ok p2) in Hp2.
  cbn. split; [congruence|]. split; [exact Hp1|]. split; reflexivity.
Qed.

Lemma covariance_ignores_measurements_witness :
  let first :=
    fst (KalmanAngle.store_then_predict (KalmanAngle.Float (Fl.Fin (1 # 2)))
           (KalmanAngle.init None (1 # 30) 0 125 5)) in
  let self := KalmanAngle.filter first in
  Kalman_Filter.P (fst (Kalman_Filter.add_measurement [[Fl.Fin (1 # 4); Fl.Fin 0]] self))
  = Kalman_Filter.P (fst (Kalman_Filter.add_measurement [[Fl.NaN; Fl.Fin 0]] self)).
Proof.
  intros first self.
  let v := eval vm_compute in
    (Kalman_Filter.add_measurement [[Fl.Fin (1 # 4); Fl.Fin 0]] self) in
  match v with (?s, Ok tt) => pose (self1 := s) end.
  let v := eval vm_compute in
    (Kalman_Filter.add_measurement [[Fl.NaN; Fl.Fin 0]] self) in
  match v with (?s, Ok tt) => pose (self2 := s) end.
  assert (H1 : Kalman_Filter.add_measurement [[Fl.Fin (1 # 4); Fl.Fin 0]] self
               = (self1, Ok tt)) by (vm_compute; reflexivity).
  assert (H2 : Kalman_Filter.add_measurement [[Fl.NaN; Fl.Fin 0]] self
               = (self2, Ok tt)) by (vm_compute; reflexivity).
  rewrite H1, H2. cbn [fst].
  exact (proj1 (covariance_ignores_measurements self self1 self2 _ _ H1 H2)).
Defined.
